(** * MoZuku: the analysis-and-alignment pipeline

    A shallow embedding of [mozuku-lsp/src/mecab_manager.cpp] and
    [mozuku-lsp/src/analyzer.cpp]: discovery of the installed engine, the
    life cycle of the engine handles, the realignment of the engine's
    morphemes onto byte offsets of the text, and the conversion of a
    (line, UTF-16 column) pair into a byte offset.

    Conventions.  A [std::string] is a list of bytes.  A [size_t] is a [nat]
    and an [int] is a [Z]; where the source converts between the two with an
    explicit [static_cast<int>] the two's-complement truncation is written
    out ([Cxx.to_int]).  A null pointer is [None]; a null-terminated linked
    list of engine nodes is a [list], the null head being [[]].  Output on
    [std::cerr], the function-local statics of [isDebugEnabled] and the calls
    to the engine factory are threaded through a state monad over
    [Process]. *)

From Stdlib Require Import Strings.String Strings.Byte DecimalString.
From Stdlib Require Import List ZArith NArith Arith Lia Bool Sorted.
From Stdlib Require Floats.PrimFloat.
Import ListNotations.

(* ================================================================= *)
(** ** C++ values *)

Module Cxx.

(** [static_cast<int>] of an unsigned value: reduction into
    [-2^31, 2^31). *)
Definition to_int (z : Z) : Z := ((z + 2 ^ 31) mod 2 ^ 32 - 2 ^ 31)%Z.

Definition INT_MAX : Z := (2 ^ 31 - 1)%Z.

End Cxx.

Definition bytes : Type := list byte.

(** [std::string], with the member functions the two files call. *)
Module Str.

Definition lit (s : string) : bytes := list_byte_of_string s.

Definition show (s : bytes) : string := string_of_list_byte s.

Definition size (s : bytes) : nat := length s.

Definition empty (s : bytes) : bool :=
  match s with [] => true | _ :: _ => false end.

Fixpoint eqb (a b : bytes) : bool :=
  match a, b with
  | [], [] => true
  | x :: a', y :: b' => Byte.eqb x y && eqb a' b'
  | _, _ => false
  end.

(** [s.substr(pos, n)] for [pos <= s.size()]. *)
Definition substr (s : bytes) (pos n : nat) : bytes := firstn n (skipn pos s).

(** What a callee sees behind [s.c_str()]: the bytes before the first
    NUL. *)
Fixpoint c_str (s : bytes) : bytes :=
  match s with
  | [] => []
  | c :: s' => if Byte.eqb c x00 then [] else c :: c_str s'
  end.

Fixpoint starts_with (p s : bytes) : bool :=
  match p, s with
  | [], _ => true
  | _ :: _, [] => false
  | x :: p', y :: s' => Byte.eqb x y && starts_with p' s'
  end.

(** [s.find(p)], [None] standing for [npos]. *)
Fixpoint find_from (p s : bytes) (i : nat) : option nat :=
  if starts_with p s then Some i
  else match s with
       | [] => None
       | _ :: s' => find_from p s' (S i)
       end.

Definition find (s p : bytes) : option nat := find_from p s 0.

Fixpoint find_char_from (c : byte) (s : bytes) (i : nat) : option nat :=
  match s with
  | [] => None
  | x :: s' => if Byte.eqb x c then Some i else find_char_from c s' (S i)
  end.

Definition find_char (s : bytes) (c : byte) : option nat :=
  find_char_from c s 0.

Definition is_one_of (set : bytes) (c : byte) : bool :=
  existsb (Byte.eqb c) set.

Fixpoint first_not_of_from (set s : bytes) (i : nat) : option nat :=
  match s with
  | [] => None
  | x :: s' =>
      if is_one_of set x then first_not_of_from set s' (S i) else Some i
  end.

Definition find_first_not_of (s set : bytes) : option nat :=
  first_not_of_from set s 0.

(** The last index holding a byte outside [set]. *)
Fixpoint last_not_of_from (set s : bytes) (i : nat) : option nat :=
  match s with
  | [] => None
  | x :: s' =>
      match last_not_of_from set s' (S i) with
      | Some j => Some j
      | None => if is_one_of set x then None else Some i
      end
  end.

Definition find_last_not_of (s set : bytes) : option nat :=
  last_not_of_from set s 0.

(** [s.erase(0, n)]; [n = npos] erases everything. *)
Definition erase_front (s : bytes) (n : option nat) : bytes :=
  match n with
  | None => []
  | Some k => skipn k s
  end.

(** [s.erase(pos + 1)] where [pos] is the result of a search: [npos + 1]
    wraps around to [0]. *)
Definition erase_after (s : bytes) (pos : option nat) : bytes :=
  match pos with
  | None => firstn 0 s
  | Some k => firstn (S k) s
  end.

(** [if (!s.empty() && s.back() == c) s.pop_back()] *)
Definition pop_back_if (c : byte) (s : bytes) : bytes :=
  match rev s with
  | x :: r => if Byte.eqb x c then rev r else s
  | [] => s
  end.

End Str.

Definition UTF_8 : bytes := Str.lit "UTF-8".

Definition show_nat (n : nat) : string := NilZero.string_of_uint (Nat.to_uint n).

(* ================================================================= *)
(** ** The process: environment, statics and the error stream *)

(** The two function-local statics of an [isDebugEnabled]. *)
Record DebugStatics : Type := mkDebugStatics {
  initialized : bool;
  debug : bool
}.

(** Where [MeCab::createTagger] is called from: the throw-away tagger of the
    discovery probe (line 210), or the primary engine (lines 84 and 98). *)
Inductive call_site : Type := ProbeTagger | PrimaryTagger.

Record Process : Type := mkProcess {
  (** [std::getenv("MOZUKU_DEBUG") != nullptr] *)
  env_MOZUKU_DEBUG : bool;
  (** statics of [isDebugEnabled] in analyzer.cpp *)
  analyzer_statics : DebugStatics;
  (** statics of [isDebugEnabled] in mecab_manager.cpp *)
  manager_statics : DebugStatics;
  (** lines written to [std::cerr], oldest first *)
  cerr : list string;
  (** the calls to [MeCab::createTagger] with their arguments, oldest
      first *)
  createTagger_calls : list (call_site * bytes)
}.

(** The arguments of the constructions of the primary engine so far. *)
Definition primary_calls (p : Process) : list bytes :=
  map snd (filter (fun c => match fst c with
                            | PrimaryTagger => true
                            | ProbeTagger => false
                            end)
                  (createTagger_calls p)).

Definition M (A : Type) : Type := Process -> A * Process.

Definition ret {A : Type} (a : A) : M A := fun p => (a, p).

Definition bind {A B : Type} (c : M A) (k : A -> M B) : M B :=
  fun p => let (a, p') := c p in k a p'.

Notation "x <- c ;; k" := (bind c (fun x => k))
  (at level 61, c at next level, right associativity).
Notation "c ;; k" := (bind c (fun _ => k))
  (at level 61, right associativity).

(** [std::cerr << line << std::endl] *)
Definition cerr_line (line : string) : M unit :=
  fun p => (tt, mkProcess (env_MOZUKU_DEBUG p) (analyzer_statics p)
                          (manager_statics p) (cerr p ++ [line])
                          (createTagger_calls p)).

(** [ptr != nullptr] *)
Definition non_null {A : Type} (ptr : option A) : bool :=
  match ptr with Some _ => true | None => false end.

Definition when (b : bool) (c : M unit) : M unit := if b then c else ret tt.

(** The body shared by the two [isDebugEnabled]: read the environment on the
    first call, answer from the static afterwards. *)
Definition debug_step (env : bool) (s : DebugStatics) : bool * DebugStatics :=
  if negb (initialized s) then (env, mkDebugStatics true env)
  else (debug s, s).

Definition update_manager_statics (s : DebugStatics) (p : Process) : Process :=
  mkProcess (env_MOZUKU_DEBUG p) (analyzer_statics p) s (cerr p)
            (createTagger_calls p).

Definition update_analyzer_statics (s : DebugStatics) (p : Process) : Process :=
  mkProcess (env_MOZUKU_DEBUG p) s (manager_statics p) (cerr p)
            (createTagger_calls p).

(* ================================================================= *)
(** ** The external engines, as the two files use them *)

(** mecab.h *)
Module MeCab.

Inductive node_stat : Type :=
| MECAB_NOR_NODE | MECAB_UNK_NODE | MECAB_BOS_NODE | MECAB_EOS_NODE
| MECAB_EON_NODE.

(** One node of the list behind [parseToNode]; [surface] holds the [length]
    bytes the node points at, [feature] is a C string or null. *)
Record Node : Type := mkNode {
  stat : node_stat;
  surface : bytes;
  feature : option bytes
}.

(** [n->stat == MECAB_BOS_NODE || n->stat == MECAB_EOS_NODE] *)
Definition is_sentinel (n : Node) : bool :=
  match stat n with
  | MECAB_BOS_NODE | MECAB_EOS_NODE => true
  | _ => false
  end.

(** A tagger: a deterministic [parseToNode]; [[]] is the null node. *)
Record Tagger : Type := mkTagger {
  parseToNode : bytes -> list Node
}.

End MeCab.

(** cabocha.h *)
Module CaboCha.

Record Token : Type := mkToken {
  surface : option bytes
}.

Record Chunk : Type := mkChunk {
  link : Z;
  score : PrimFloat.float;
  token_pos : nat;
  token_size : nat
}.

Record Tree : Type := mkTree {
  tree_chunk_size : nat;
  tree_chunk : nat -> option Chunk;
  tree_token_size : nat;
  tree_token : nat -> option Token
}.

Record Parser : Type := mkParser {
  sparse_totree : bytes -> option Tree
}.

End CaboCha.

(** What the process finds outside of itself during initialization. *)
Record World : Type := mkWorld {
  (** the C string [fgets] leaves in the buffer after reading from
      [popen("mecab-config --dicdir 2>/dev/null")]; [None] when there is no
      pipe or nothing to read *)
  mecab_config_dicdir : option bytes;
  (** the lines [std::getline] yields from the file at a path; [None] when
      the file cannot be opened *)
  read_lines : bytes -> option (list bytes);
  (** [MeCab::createTagger] *)
  createTagger : bytes -> option MeCab.Tagger;
  (** [MeCab::getTaggerError()] *)
  getTaggerError : option bytes;
  (** [cabocha_strerror(nullptr)] *)
  cabocha_strerror : option bytes
}.

(* ================================================================= *)
(** ** mecab_manager.cpp *)

Module mecab.

Record SystemLibInfo : Type := mkSystemLibInfo {
  isAvailable : bool;
  dicPath : bytes;
  charset : bytes
}.

(** A default-constructed [SystemLibInfo]. *)
Definition SystemLibInfo_default : SystemLibInfo := mkSystemLibInfo false [] [].

Record MeCabManager : Type := mkMeCabManager {
  mecab_tagger_ : option MeCab.Tagger;
  cabocha_parser_ : option CaboCha.Parser;
  system_charset_ : bytes;
  cabocha_available_ : bool;
  enable_cabocha_ : bool
}.

(** [isDebugEnabled] of mecab_manager.cpp *)
Definition isDebugEnabled : M bool :=
  fun p =>
    let (d, s) := debug_step (env_MOZUKU_DEBUG p) (manager_statics p) in
    (d, update_manager_statics s p).

(** [if (isDebugEnabled()) { std::cerr << line << std::endl; }] *)
Definition debug_line (line : string) : M unit :=
  d <- isDebugEnabled ;; when d (cerr_line line).

(** [MeCabManager::MeCabManager] *)
Definition MeCabManager_new (enableCaboCha : bool) : M MeCabManager :=
  debug_line ("[DEBUG] MeCabManager created with CaboCha "
              ++ (if enableCaboCha then "enabled" else "disabled"))%string ;;
  ret (mkMeCabManager None None UTF_8 false enableCaboCha).

(** The known text of the charset probe: the two characters U+8AA4 U+89E3
    in UTF-8. *)
Definition testUtf8 : bytes := [xe8; xaa; xa4; xe8; xa7; xa3].

(** The loop over the probe's nodes, the same in [detectSystemMeCab] (which
    sets [utf8Works] and breaks) and in [testMeCabCharset] (which returns
    from inside it): is there a node, not a sentinel, with
    [surface == testUtf8 && surface.size() == 6]. *)
Fixpoint probe_loop (nodes : list MeCab.Node) : bool :=
  match nodes with
  | [] => false
  | n :: next =>
      if MeCab.is_sentinel n then probe_loop next
      else if Str.eqb (MeCab.surface n) testUtf8
              && (Str.size (MeCab.surface n) =? 6)
           then true
           else probe_loop next
  end.

(** What the probe looks for, in the words of the specification: a node, not
    a sentinel, whose surface has 6 bytes and is the test text. *)
Definition probe_accepts (nodes : list MeCab.Node) : Prop :=
  exists n, In n nodes /\ MeCab.is_sentinel n = false
            /\ length (MeCab.surface n) = 6 /\ MeCab.surface n = testUtf8.

(** The [while (std::getline(dicrc, line))] loop of [detectSystemMeCab]:
    the value assigned to [info.charset] before the [break], if the loop
    reaches it. *)
Fixpoint scan_dicrc (lines : list bytes) : option bytes :=
  match lines with
  | [] => None
  | line :: rest =>
      match Str.find line (Str.lit "config-charset") with
      | Some _ =>
          match Str.find_char line x3d with
          | Some equalPos =>
              let charset := skipn (equalPos + 1) line in
              let charset :=
                Str.erase_front charset
                  (Str.find_first_not_of charset [x20; x09]) in
              let charset :=
                Str.erase_after charset
                  (Str.find_last_not_of charset [x20; x09]) in
              Some charset
          | None => scan_dicrc rest
          end
      | None => scan_dicrc rest
      end
  end.

Section InWorld.

Variable W : World.

(** A call of [MeCab::createTagger(args.c_str())]. *)
Definition call_createTagger (site : call_site) (args : bytes)
    : M (option MeCab.Tagger) :=
  fun p =>
    (createTagger W (Str.c_str args),
     mkProcess (env_MOZUKU_DEBUG p) (analyzer_statics p) (manager_statics p)
               (cerr p) (createTagger_calls p ++ [(site, Str.c_str args)])).

(** [MeCab::getTaggerError() ? MeCab::getTaggerError() : "Unknown MeCab error"] *)
Definition tagger_error : string :=
  match getTaggerError W with
  | Some e => Str.show e
  | None => "Unknown MeCab error"%string
  end.

(** [MeCabManager::testMeCabCharset] *)
Definition testMeCabCharset (tagger : option MeCab.Tagger)
    (originalCharset : bytes) : M bytes :=
  match tagger with
  | None => ret originalCharset
  | Some t =>
      if Str.eqb originalCharset UTF_8 then ret originalCharset
      else
        let testNode := MeCab.parseToNode t testUtf8 in
        if probe_loop testNode then
          debug_line "[DEBUG] MeCab accepts UTF-8 input directly, using UTF-8" ;;
          ret UTF_8
        else
          debug_line ("[DEBUG] MeCab requires " ++ Str.show originalCharset
                      ++ " encoding")%string ;;
          ret originalCharset
  end.

(** [MeCabManager::detectSystemMeCab], lines 150-168: the dictionary
    directory. *)
Definition detect_dicPath : M bytes :=
  match mecab_config_dicdir W with
  | Some buffer =>
      let dicdir := Str.pop_back_if x0a buffer in
      debug_line ("[DEBUG] mecab-config --dicdir: " ++ Str.show dicdir)%string ;;
      ret dicdir
  | None => ret []
  end.

(** Lines 170-195: the charset the dictionary's [dicrc] declares. *)
Definition detect_declared_charset (dicPath : bytes) : M bytes :=
  if negb (Str.empty dicPath) then
    match read_lines W (dicPath ++ Str.lit "/ipadic/dicrc") with
    | Some lines =>
        match scan_dicrc lines with
        | Some charset =>
            debug_line ("[DEBUG] Found charset in dicrc: "
                        ++ Str.show charset)%string ;;
            ret charset
        | None => ret []
        end
    | None => ret []
    end
  else ret [].

(** Lines 197-241: the default, and the probe that may override a declared
    charset. *)
Definition detect_effective_charset (declared : bytes) : M bytes :=
  if Str.empty declared then
    debug_line "[DEBUG] Using default charset: UTF-8" ;;
    ret UTF_8
  else if negb (Str.eqb declared UTF_8) then
    debug_line ("[DEBUG] dicrc says charset: " ++ Str.show declared
                ++ ", testing actual behavior...")%string ;;
    testTagger <- call_createTagger ProbeTagger [] ;;
    match testTagger with
    | Some t =>
        let testNode := MeCab.parseToNode t testUtf8 in
        let utf8Works := probe_loop testNode in
        when utf8Works
          (debug_line ("[DEBUG] MeCab actually works with UTF-8 input, "
                       ++ "overriding dicrc charset from "
                       ++ Str.show declared ++ " to UTF-8")%string) ;;
        ret (if utf8Works then UTF_8 else declared)
    | None => ret declared
    end
  else ret declared.

(** [MeCabManager::detectSystemMeCab] *)
Definition detectSystemMeCab : M SystemLibInfo :=
  debug_line "[DEBUG] Detecting system MeCab installation..." ;;
  dicPath <- detect_dicPath ;;
  declared <- detect_declared_charset dicPath ;;
  charset <- detect_effective_charset declared ;;
  let info := mkSystemLibInfo (negb (Str.empty dicPath)) dicPath charset in
  debug_line ("[DEBUG] System MeCab detection result - Available: "
              ++ (if isAvailable info then "yes" else "no")
              ++ ", DicPath: " ++ Str.show dicPath
              ++ ", Charset: " ++ Str.show charset)%string ;;
  ret info.

(** [MeCabManager::initialize], lines 61-67: the charset before the probe. *)
Definition resolve_charset (mecabCharset : bytes) (systemMeCab : SystemLibInfo)
    : bytes :=
  if negb (Str.empty mecabCharset) then mecabCharset
  else if negb (Str.empty (charset systemMeCab)) then charset systemMeCab
  else UTF_8.

(** Lines 69-78: the argument string of the engine factory. *)
Definition resolve_args (mecabDicPath : bytes) (systemMeCab : SystemLibInfo)
    : M bytes :=
  if negb (Str.empty mecabDicPath) then ret (Str.lit "-d " ++ mecabDicPath)
  else if isAvailable systemMeCab && negb (Str.empty (dicPath systemMeCab)) then
    debug_line ("[DEBUG] Using detected MeCab dicdir: "
                ++ Str.show (dicPath systemMeCab) ++ "/ipadic")%string ;;
    ret (Str.lit "-d " ++ dicPath systemMeCab ++ Str.lit "/ipadic")
  else ret [].

(** The dictionary directory [detectSystemMeCab] finds, and the argument
    string lines 69-78 build from it: the values of [detect_dicPath] and
    [resolve_args], without their diagnostics. *)
Definition detected_dicPath : bytes :=
  match mecab_config_dicdir W with
  | Some buffer => Str.pop_back_if x0a buffer
  | None => []
  end.

Definition mecab_args_of (mecabDicPath : bytes) : bytes :=
  if negb (Str.empty mecabDicPath) then Str.lit "-d " ++ mecabDicPath
  else if negb (Str.empty detected_dicPath) then
    Str.lit "-d " ++ detected_dicPath ++ Str.lit "/ipadic"
  else [].

(** Lines 84-111: the construction of the primary engine.  [None] is the
    outcome on which [initialize] returns [false]. *)
Definition create_primary (mecab_args : bytes) : M (option MeCab.Tagger) :=
  tagger <- call_createTagger PrimaryTagger mecab_args ;;
  match tagger with
  | Some _ => ret tagger
  | None =>
      debug_line ("[ERROR] MeCab initialization failed with args '"
                  ++ Str.show mecab_args ++ "': " ++ tagger_error)%string ;;
      if negb (Str.empty mecab_args) then
        debug_line "[DEBUG] Trying MeCab without explicit dictionary path..." ;;
        tagger <- call_createTagger PrimaryTagger [] ;;
        match tagger with
        | Some _ => ret tagger
        | None =>
            debug_line ("[ERROR] MeCab fallback initialization also failed: "
                        ++ tagger_error)%string ;;
            ret None
        end
      else ret None
  end.

Definition set_system_charset (c : bytes) (m : MeCabManager) : MeCabManager :=
  mkMeCabManager (mecab_tagger_ m) (cabocha_parser_ m) c
                 (cabocha_available_ m) (enable_cabocha_ m).

Definition set_mecab_tagger (t : option MeCab.Tagger) (m : MeCabManager)
    : MeCabManager :=
  mkMeCabManager t (cabocha_parser_ m) (system_charset_ m)
                 (cabocha_available_ m) (enable_cabocha_ m).

Definition set_cabocha_available (b : bool) (m : MeCabManager) : MeCabManager :=
  mkMeCabManager (mecab_tagger_ m) (cabocha_parser_ m) (system_charset_ m)
                 b (enable_cabocha_ m).

(** Lines 120-131: the secondary engine. *)
Definition init_cabocha (m : MeCabManager) : M MeCabManager :=
  match cabocha_parser_ m with
  | Some _ =>
      debug_line "[DEBUG] CaboCha successfully initialized" ;;
      ret (set_cabocha_available true m)
  | None =>
      debug_line ("[DEBUG] CaboCha initialization failed: "
                  ++ match cabocha_strerror W with
                     | Some e => Str.show e
                     | None => "Unknown error"
                     end)%string ;;
      ret m
  end.

(** [MeCabManager::initialize]: the returned flag and the manager after the
    call. *)
Definition initialize (m : MeCabManager) (mecabDicPath mecabCharset : bytes)
    : M (bool * MeCabManager) :=
  systemMeCab <-
    (if Str.empty mecabDicPath then
       info <- detectSystemMeCab ;;
       (if negb (isAvailable info)
        then debug_line "[DEBUG] Cannot find mecab-config / dicdir"
        else ret tt) ;;
       ret info
     else ret (mkSystemLibInfo true [] [])) ;;
  let m := set_system_charset (resolve_charset mecabCharset systemMeCab) m in
  mecab_args <- resolve_args mecabDicPath systemMeCab ;;
  d <- isDebugEnabled ;;
  when (d && negb (Str.empty mecab_args))
       (cerr_line ("[DEBUG] MeCab args: " ++ Str.show mecab_args)%string) ;;
  tagger <- create_primary mecab_args ;;
  let m := set_mecab_tagger tagger m in
  match tagger with
  | None => ret (false, m)
  | Some _ =>
      c <- testMeCabCharset (mecab_tagger_ m) (system_charset_ m) ;;
      let m := set_system_charset c m in
      debug_line ("[DEBUG] MeCab successfully initialized with charset: "
                  ++ Str.show (system_charset_ m))%string ;;
      m <- init_cabocha m ;;
      debug_line ("[DEBUG] MeCabManager initialized - MeCab: "
                  ++ (if non_null (mecab_tagger_ m) then "OK" else "FAIL")
                  ++ ", CaboCha: "
                  ++ (if cabocha_available_ m then "OK" else "N/A"))%string ;;
      ret (non_null (mecab_tagger_ m), m)
  end.

(** *** The values of the functions above, without their diagnostics

    Each is proved below to be what the function of the source returns, in
    every state of the process. *)

Definition declared_charset_of (dicPath : bytes) : bytes :=
  if negb (Str.empty dicPath) then
    match read_lines W (dicPath ++ Str.lit "/ipadic/dicrc") with
    | Some lines =>
        match scan_dicrc lines with Some charset => charset | None => [] end
    | None => []
    end
  else [].

Definition effective_charset_of (declared : bytes) : bytes :=
  if Str.empty declared then UTF_8
  else if negb (Str.eqb declared UTF_8) then
    match createTagger W [] with
    | Some t =>
        if probe_loop (MeCab.parseToNode t testUtf8) then UTF_8 else declared
    | None => declared
    end
  else declared.

Definition detected_info : SystemLibInfo :=
  mkSystemLibInfo (negb (Str.empty detected_dicPath)) detected_dicPath
    (effective_charset_of (declared_charset_of detected_dicPath)).

Definition tested_charset (tagger : option MeCab.Tagger)
    (originalCharset : bytes) : bytes :=
  match tagger with
  | None => originalCharset
  | Some t =>
      if Str.eqb originalCharset UTF_8 then originalCharset
      else if probe_loop (MeCab.parseToNode t testUtf8) then UTF_8
           else originalCharset
  end.

Definition primary_tagger_of (mecab_args : bytes) : option MeCab.Tagger :=
  match createTagger W (Str.c_str mecab_args) with
  | Some t => Some t
  | None => if negb (Str.empty mecab_args) then createTagger W [] else None
  end.

Definition initialize_value (m : MeCabManager)
    (mecabDicPath mecabCharset : bytes) : bool * MeCabManager :=
  let systemMeCab :=
    if Str.empty mecabDicPath then detected_info
    else mkSystemLibInfo true [] [] in
  let m := set_system_charset (resolve_charset mecabCharset systemMeCab) m in
  let tagger := primary_tagger_of (mecab_args_of mecabDicPath) in
  let m := set_mecab_tagger tagger m in
  match tagger with
  | None => (false, m)
  | Some _ =>
      let m :=
        set_system_charset (tested_charset tagger (system_charset_ m)) m in
      let m := match cabocha_parser_ m with
               | Some _ => set_cabocha_available true m
               | None => m
               end in
      (non_null (mecab_tagger_ m), m)
  end.

End InWorld.

(** The managers a program can hold: a constructed one, and the one left by
    a call of [initialize], in whatever world and process. *)
Inductive reachable : MeCabManager -> Prop :=
| reachable_new : forall enableCaboCha p,
    reachable (fst (MeCabManager_new enableCaboCha p))
| reachable_initialize : forall W m mecabDicPath mecabCharset p,
    reachable m ->
    reachable (snd (fst (initialize W m mecabDicPath mecabCharset p))).

(** Modelled from the spec: the accessor of the primary engine handle; it is
    defined in mecab_manager.hpp, which is not among the sources ("Exposes:
    isReady(), charset(), hasDependencyCapability(), and accessor for the
    primary/secondary engine handles"). *)
Definition getMeCabTagger (m : MeCabManager) : option MeCab.Tagger :=
  mecab_tagger_ m.

(** Modelled from the spec: the accessor of the secondary engine handle, of
    mecab_manager.hpp as well. *)
Definition getCaboChaParser (m : MeCabManager) : option CaboCha.Parser :=
  cabocha_parser_ m.

(** Modelled from the spec: [charset()], of mecab_manager.hpp as well. *)
Definition getSystemCharset (m : MeCabManager) : bytes := system_charset_ m.

(** Modelled from the spec: [hasDependencyCapability()], of mecab_manager.hpp
    as well; it reads the flag [initialize] maintains. *)
Definition isCaboChaAvailable (m : MeCabManager) : bool := cabocha_available_ m.

End mecab.

(* ================================================================= *)
(** ** analyzer.cpp *)

(** [Position] of utf16.hpp. *)
Record Position : Type := mkPosition {
  pos_line : Z;
  pos_character : Z
}.

(** The collaborators of analyzer.cpp whose definitions are outside of the
    two files: the sanitizer, the charset conversions, the UTF-16 helpers of
    utf16.hpp and the feature decoder.  The development is parametric in
    them. *)
Class Collaborators : Type := mkCollaborators {
  TokenType : Type;
  TokenModifiers : Type;
  (** [text::TextProcessor::sanitizeUTF8] *)
  sanitizeUTF8 : bytes -> bytes;
  (** [encoding::utf8ToSystem(text, charset)] *)
  utf8ToSystem : bytes -> bytes -> bytes;
  (** [encoding::systemToUtf8(text, charset)] *)
  systemToUtf8 : bytes -> bytes -> bytes;
  computeLineStarts : bytes -> list nat;
  byteOffsetToPosition : bytes -> list nat -> nat -> Position;
  utf8ToUtf16Length : bytes -> Z;
  (** [pos::POSAnalyzer::parseFeatureDetails(feature, baseForm, reading,
      pronunciation, charset, skipConversion)]: the three strings it leaves
      in its reference arguments *)
  parseFeatureDetails : bytes -> bytes -> bool -> bytes * bytes * bytes;
  (** [pos::POSAnalyzer::mapPosToType] *)
  mapPosToType : bytes -> TokenType;
  (** [pos::POSAnalyzer::computeModifiers(text, start, length, feature)] *)
  computeModifiers : bytes -> nat -> nat -> bytes -> TokenModifiers
}.

(** The fields of [MoZukuConfig] that analyzer.cpp reads. *)
Record MoZukuConfig : Type := mkMoZukuConfig {
  mecab_dicPath : bytes;
  mecab_charset : bytes;
  analysis_grammarCheck : bool
}.

Record DependencyInfo : Type := mkDependencyInfo {
  chunkId : Z;
  headId : Z;
  dep_score : PrimFloat.float;
  dep_text : bytes
}.

Module Analyzer.

Section WithCollaborators.

Context {C : Collaborators}.

Record TokenData : Type := mkTokenData {
  surface : bytes;
  line : Z;
  startChar : Z;
  endChar : Z;
  feature : bytes;
  baseForm : bytes;
  reading : bytes;
  pronunciation : bytes;
  tokenType : TokenType;
  tokenModifiers : TokenModifiers
}.

Record Analyzer : Type := mkAnalyzer {
  config_ : MoZukuConfig;
  mecab_manager_ : mecab.MeCabManager;
  system_charset_ : bytes
}.

(** [isDebugEnabled] of analyzer.cpp *)
Definition isDebugEnabled : M bool :=
  fun p =>
    let (d, s) := debug_step (env_MOZUKU_DEBUG p) (analyzer_statics p) in
    (d, update_analyzer_statics s p).

Definition debug_line (line : string) : M unit :=
  d <- isDebugEnabled ;; when d (cerr_line line).

Variable W : World.

(** [Analyzer::Analyzer]; [config0] is the default-constructed
    [MoZukuConfig]. *)
Definition Analyzer_new (config0 : MoZukuConfig) : M Analyzer :=
  m <- mecab.MeCabManager_new true ;;
  debug_line "[DEBUG] Analyzer created" ;;
  ret (mkAnalyzer config0 m []).

(** [Analyzer::initialize] *)
Definition initialize (a : Analyzer) (config : MoZukuConfig)
    : M (bool * Analyzer) :=
  debug_line "[DEBUG] Initializing analyzer with config" ;;
  let mecabDicPath :=
    if Str.empty (mecab_dicPath config) then [] else mecab_dicPath config in
  let mecabCharset :=
    if Str.empty (mecab_charset config) then UTF_8 else mecab_charset config in
  r <- mecab.initialize W (mecab_manager_ a) mecabDicPath mecabCharset ;;
  let a := mkAnalyzer config (snd r) (system_charset_ a) in
  if negb (fst r) then
    cerr_line "[ERROR] Failed to initialize MeCab" ;;
    ret (false, a)
  else
    let a := mkAnalyzer (config_ a) (mecab_manager_ a)
                        (mecab.getSystemCharset (mecab_manager_ a)) in
    debug_line ("[DEBUG] Analyzer initialized successfully with charset: "
                ++ Str.show (system_charset_ a))%string ;;
    ret (true, a).

(** [surface] occurs in [cleanText] at byte offset [pos]. *)
Definition occurs_at (cleanText surface : bytes) (pos : nat) : Prop :=
  pos + Str.size surface <= Str.size cleanText
  /\ Str.substr cleanText pos (Str.size surface) = surface.

(** The test of lines 113-115 at one scan position. *)
Definition matches_at (cleanText surface : bytes) (currentBytePos : nat) : bool :=
  let remainingBytes := Str.size cleanText - currentBytePos in
  (Str.size surface <=? remainingBytes)
  && Str.eqb (Str.substr cleanText currentBytePos (Str.size surface)) surface.

(** The realignment loop of lines 111-119, by recursion on the number [todo]
    of bytes from the cursor to the end of the text: the loop runs while
    [currentBytePos < cleanText.size()] and moves the cursor by one. *)
Fixpoint realign_loop (cleanText surface : bytes) (todo currentBytePos : nat)
    : nat :=
  match todo with
  | 0 => currentBytePos
  | S todo' =>
      if matches_at cleanText surface currentBytePos then currentBytePos
      else realign_loop cleanText surface todo' (S currentBytePos)
  end.

Definition realign (cleanText surface : bytes) (currentBytePos : nat) : nat :=
  realign_loop cleanText surface (Str.size cleanText - currentBytePos)
               currentBytePos.

(** The token built by lines 102-137 for a node whose decoded surface is
    [surface], matched at [currentBytePos]. *)
Definition make_token (cleanText : bytes) (lineStarts : list nat)
    (charset : bytes) (n : MeCab.Node) (surface : bytes) (currentBytePos : nat)
    : TokenData :=
  let pos := byteOffsetToPosition cleanText lineStarts currentBytePos in
  let systemFeature :=
    match MeCab.feature n with Some f => f | None => [] end in
  let feature := systemToUtf8 systemFeature charset in
  let '(baseForm, reading, pronunciation) :=
    parseFeatureDetails (Str.c_str feature) UTF_8 true in
  mkTokenData surface (pos_line pos) (pos_character pos)
              (pos_character pos + utf8ToUtf16Length surface)
              feature baseForm reading pronunciation
              (mapPosToType (Str.c_str feature))
              (computeModifiers cleanText currentBytePos (Str.size surface)
                                (Str.c_str feature)).

(** The loop over the nodes, lines 95-141.  Each token is returned with the
    value [currentBytePos] has when the token is pushed: the byte offset the
    token was matched at. *)
Fixpoint align_nodes (cleanText : bytes) (lineStarts : list nat)
    (charset : bytes) (nodes : list MeCab.Node) (currentBytePos : nat)
    : list (nat * TokenData) :=
  match nodes with
  | [] => []
  | n :: next =>
      if MeCab.is_sentinel n then
        align_nodes cleanText lineStarts charset next currentBytePos
      else
        let surface := systemToUtf8 (MeCab.surface n) charset in
        if Str.empty surface then
          align_nodes cleanText lineStarts charset next currentBytePos
        else
          let currentBytePos := realign cleanText surface currentBytePos in
          let token :=
            make_token cleanText lineStarts charset n surface currentBytePos in
          (currentBytePos, token)
            :: align_nodes cleanText lineStarts charset next
                           (currentBytePos + Str.size surface)
  end.

(** [Analyzer::analyzeText], each token paired with its matched offset. *)
Definition analyzeText_matches (a : Analyzer) (text : bytes)
    : M (list (nat * TokenData)) :=
  if Str.empty text then ret []
  else
    debug_line ("[DEBUG] Analyzing text of length: "
                ++ show_nat (Str.size text))%string ;;
    let cleanText := sanitizeUTF8 text in
    let systemText := utf8ToSystem cleanText (system_charset_ a) in
    match mecab.getMeCabTagger (mecab_manager_ a) with
    | None =>
        cerr_line "[ERROR] MeCab tagger not available" ;;
        ret []
    | Some tagger =>
        match MeCab.parseToNode tagger (Str.c_str systemText) with
        | [] =>
            cerr_line "[ERROR] MeCab parsing failed" ;;
            ret []
        | node =>
            let lineStarts := computeLineStarts cleanText in
            let tokens :=
              align_nodes cleanText lineStarts (system_charset_ a) node 0 in
            debug_line ("[DEBUG] Analysis completed: "
                        ++ show_nat (length tokens)
                        ++ " tokens generated")%string ;;
            ret tokens
        end
    end.

(** [Analyzer::analyzeText] *)
Definition analyzeText (a : Analyzer) (text : bytes) : M (list TokenData) :=
  tokens <- analyzeText_matches a text ;;
  ret (map snd tokens).

(** The inner loop of [analyzeDependencies], lines 224-236: the surfaces of
    the tokens [j] with [startToken <= j], [j < endToken] and
    [j < cabocha_tree_token_size(tree)], decoded and concatenated. *)
Definition chunk_text (tree : CaboCha.Tree) (charset : bytes)
    (startToken endToken : nat) : bytes :=
  concat
    (map (fun j =>
            match CaboCha.tree_token tree j with
            | Some token =>
                match CaboCha.surface token with
                | Some surface => systemToUtf8 surface charset
                | None => []
                end
            | None => []
            end)
         (seq startToken
              (Nat.min endToken (CaboCha.tree_token_size tree) - startToken))).

(** One turn of the outer loop, lines 211-239: nothing for a null chunk. *)
Definition chunk_record (tree : CaboCha.Tree) (charset : bytes) (i : nat)
    : list DependencyInfo :=
  match CaboCha.tree_chunk tree i with
  | None => []
  | Some chunk =>
      let startToken := CaboCha.token_pos chunk in
      let endToken := startToken + CaboCha.token_size chunk in
      [mkDependencyInfo (Cxx.to_int (Z.of_nat i)) (CaboCha.link chunk)
                        (CaboCha.score chunk)
                        (chunk_text tree charset startToken endToken)]
  end.

(** The outer loop, [i] from [0] below [cabocha_tree_chunk_size(tree)]. *)
Definition collect_chunks (tree : CaboCha.Tree) (charset : bytes)
    : list DependencyInfo :=
  flat_map (chunk_record tree charset) (seq 0 (CaboCha.tree_chunk_size tree)).

(** [Analyzer::analyzeDependencies]; [MOZUKU_ENABLE_CABOCHA] tells which of
    the two definitions the build compiles. *)
Definition analyzeDependencies (MOZUKU_ENABLE_CABOCHA : bool) (a : Analyzer)
    (text : bytes) : M (list DependencyInfo) :=
  if MOZUKU_ENABLE_CABOCHA then
    if negb (mecab.isCaboChaAvailable (mecab_manager_ a)) then
      debug_line "[DEBUG] CaboCha not available for dependency analysis" ;;
      ret []
    else
      debug_line "[DEBUG] Starting dependency analysis" ;;
      let cleanText := sanitizeUTF8 text in
      let systemText := utf8ToSystem cleanText (system_charset_ a) in
      match mecab.getCaboChaParser (mecab_manager_ a) with
      | None => ret []
      | Some parser =>
          match CaboCha.sparse_totree parser (Str.c_str systemText) with
          | None => ret []
          | Some tree =>
              let dependencies := collect_chunks tree (system_charset_ a) in
              debug_line ("[DEBUG] Dependency analysis completed: "
                          ++ show_nat (length dependencies)
                          ++ " chunks found")%string ;;
              ret dependencies
          end
      end
  else ret [].

(** [Analyzer::isInitialized]; [mecab_manager_] is never null. *)
Definition isInitialized (a : Analyzer) : bool :=
  non_null (mecab.getMeCabTagger (mecab_manager_ a)).

(** [Analyzer::getSystemCharset] *)
Definition getSystemCharset (a : Analyzer) : bytes := system_charset_ a.

(** [Analyzer::isCaboChaAvailable] *)
Definition isCaboChaAvailable (a : Analyzer) : bool :=
  mecab.isCaboChaAvailable (mecab_manager_ a).

End WithCollaborators.

End Analyzer.

(* ================================================================= *)
(** ** [computeByteOffset] *)

(** [(c >= 0xF0) ? 4 : (c >= 0xE0) ? 3 : (c >= 0xC0) ? 2 : 1] *)
Definition seqLen_of (c : N) : nat :=
  if (0xF0 <=? c)%N then 4
  else if (0xE0 <=? c)%N then 3
  else if (0xC0 <=? c)%N then 2
  else 1.

(** [(seqLen == 4) ? 2 : 1] *)
Definition utf16_step (seqLen : nat) : Z := if seqLen =? 4 then 2%Z else 1%Z.

(** The loop of lines 278-284; it returns [bytePos] and [utf16Pos] as the
    loop leaves them.  [fuel] bounds the number of turns; every turn moves
    [bytePos] forward, so [text.size()] turns are never exceeded
    ([column_loop_enough_fuel]).  [utf16Pos] is an [int] that the loop only
    adds to while it is below [character]: it stays in the range of [int]
    for every [character] below [INT_MAX] ([column_loop_in_int_range]). *)
Fixpoint column_loop (text : bytes) (character : Z) (fuel bytePos : nat)
    (utf16Pos : Z) : nat * Z :=
  match fuel with
  | 0 => (bytePos, utf16Pos)
  | S fuel' =>
      match nth_error text bytePos with
      | None => (bytePos, utf16Pos)
      | Some b =>
          if (utf16Pos <? character)%Z && negb (Byte.eqb b x0a) then
            let c := Byte.to_N b in
            let seqLen := seqLen_of c in
            column_loop text character fuel' (bytePos + seqLen)
                        (utf16Pos + utf16_step seqLen)
          else (bytePos, utf16Pos)
      end
  end.

Definition column_scan (text : bytes) (character : Z) (lineStart : nat)
    : nat * Z :=
  column_loop text character (Str.size text) lineStart 0%Z.

(** [computeByteOffset].  [None] where the source indexes [lineStarts]
    outside of its bounds (a negative [line]). *)
Definition computeByteOffset {C : Collaborators} (text : bytes)
    (line character : Z) : option nat :=
  let lineStarts := computeLineStarts text in
  if (Cxx.to_int (Z.of_nat (length lineStarts)) <=? line)%Z then
    Some (Str.size text)
  else if (line <? 0)%Z then None
  else
    match nth_error lineStarts (Z.to_nat line) with
    | None => None
    | Some lineStart => Some (fst (column_scan text character lineStart))
    end.

(* ================================================================= *)
(** ** UTF-8, to state what the column scan counts *)

Module Utf8.

Definition byte_of (n : N) : byte :=
  match Byte.of_N n with Some b => b | None => x00 end.

(** A Unicode scalar value: a code point that is not a surrogate. *)
Definition valid_codepoint (cp : N) : Prop :=
  (cp < 0x110000 /\ ~ (0xD800 <= cp < 0xE000))%N.

(** The UTF-8 sequence of a code point. *)
Definition encode (cp : N) : bytes :=
  (if cp <? 0x80 then [byte_of cp]
   else if cp <? 0x800 then
     [byte_of (0xC0 + cp / 0x40); byte_of (0x80 + cp mod 0x40)]
   else if cp <? 0x10000 then
     [byte_of (0xE0 + cp / 0x1000); byte_of (0x80 + (cp / 0x40) mod 0x40);
      byte_of (0x80 + cp mod 0x40)]
   else
     [byte_of (0xF0 + cp / 0x40000); byte_of (0x80 + (cp / 0x1000) mod 0x40);
      byte_of (0x80 + (cp / 0x40) mod 0x40); byte_of (0x80 + cp mod 0x40)])%N.

Definition encode_all (cps : list N) : bytes := concat (map encode cps).

(** What the specification grants a code point: two code units when its
    UTF-8 sequence has four bytes, one otherwise. *)
Definition units (cp : N) : Z :=
  if length (encode cp) =? 4 then 2%Z else 1%Z.

Definition units_all (cps : list N) : Z :=
  fold_right (fun cp acc => (units cp + acc)%Z) 0%Z cps.

Definition line_feed : N := 0x0A%N.

End Utf8.

(* ================================================================= *)
(** ** The helpers of utf16.hpp as the specification describes them, and
       engines and worlds to run the pipeline on *)

Module Reference.

(** Modelled from the spec: [utf8ToUtf16Length] of utf16.hpp, which is not
    among the sources ("2 code units for any codepoint requiring 4 UTF-8
    bytes, 1 otherwise"); counted on lead bytes. *)
Fixpoint utf8ToUtf16Length (s : bytes) : Z :=
  match s with
  | [] => 0%Z
  | b :: s' =>
      let c := Byte.to_N b in
      ((if (0xF0 <=? c)%N then 2
        else if (0x80 <=? c)%N && (c <? 0xC0)%N then 0
        else 1) + utf8ToUtf16Length s')%Z
  end.

Fixpoint line_starts_from (s : bytes) (i : nat) : list nat :=
  match s with
  | [] => []
  | b :: s' =>
      if Byte.eqb b x0a then S i :: line_starts_from s' (S i)
      else line_starts_from s' (S i)
  end.

(** Modelled from the spec: [computeLineStarts] of utf16.hpp ("byte index of
    the first character of each line, split on \n"). *)
Definition computeLineStarts (s : bytes) : list nat := 0 :: line_starts_from s 0.

(** Modelled from the spec: [byteOffsetToPosition] of utf16.hpp ("via the
    line-start table plus a UTF-8 to UTF-16 length scan from that line's
    start"). *)
Definition byteOffsetToPosition (text : bytes) (lineStarts : list nat)
    (offset : nat) : Position :=
  let before := filter (fun start => start <=? offset) lineStarts in
  let lineStart := last before 0 in
  mkPosition (Z.of_nat (length before - 1))
             (utf8ToUtf16Length (Str.substr text lineStart (offset - lineStart))).

(** An engine working in UTF-8 on sanitized text, with a feature decoder
    that keeps the feature string as the token type. *)
Definition collaborators : Collaborators :=
  mkCollaborators bytes unit
    (fun text => text) (fun text _ => text) (fun text _ => text)
    computeLineStarts byteOffsetToPosition utf8ToUtf16Length
    (fun _ _ _ => ([], [], []))
    (fun feature => feature)
    (fun _ _ _ _ => tt).

(** The process at start-up. *)
Definition process0 (env : bool) : Process :=
  mkProcess env (mkDebugStatics false false) (mkDebugStatics false false) [] [].

(** A tagger that answers every text with the given nodes between the two
    sentinels. *)
Definition tagger_of (nodes : list MeCab.Node) : MeCab.Tagger :=
  MeCab.mkTagger (fun _ =>
    MeCab.mkNode MeCab.MECAB_BOS_NODE [] None
    :: nodes ++ [MeCab.mkNode MeCab.MECAB_EOS_NODE [] None]).

Definition word (s : string) : MeCab.Node :=
  MeCab.mkNode MeCab.MECAB_NOR_NODE (Str.lit s) None.

(** A working charset without the bytes above 0x7F: the conversion to it
    writes a question mark for each of them. *)
Definition to_ascii (text : bytes) : bytes :=
  map (fun b => if (Byte.to_N b <? 0x80)%N then b else x3f) text.

Definition lossy_collaborators : Collaborators :=
  mkCollaborators bytes unit
    (fun text => text) (fun text _ => to_ascii text) (fun text _ => text)
    computeLineStarts byteOffsetToPosition utf8ToUtf16Length
    (fun _ _ _ => ([], [], []))
    (fun feature => feature)
    (fun _ _ _ _ => tt).

(** A tagger that returns every byte of its input as a morpheme of its
    own. *)
Definition bytewise_tagger : MeCab.Tagger :=
  MeCab.mkTagger (fun text =>
    MeCab.mkNode MeCab.MECAB_BOS_NODE [] None
    :: map (fun b => MeCab.mkNode MeCab.MECAB_NOR_NODE [b] None) text
       ++ [MeCab.mkNode MeCab.MECAB_EOS_NODE [] None]).

(** A world without an installed engine. *)
Definition no_engine : World :=
  mkWorld None (fun _ => None) (fun _ => None) None None.

(** A world whose engine factory always returns [tagger_of nodes], with no
    configuration helper. *)
Definition world_of (nodes : list MeCab.Node) : World :=
  mkWorld None (fun _ => None) (fun _ => Some (tagger_of nodes)) None None.

(** A world whose configuration helper prints a dictionary directory, whose
    [dicrc] declares EUC-JP, and whose engine returns no morpheme for the
    probe's text. *)
Definition eucjp_world : World :=
  mkWorld (Some (Str.lit "/usr/lib/mecab/dic" ++ [x0a]))
          (fun _ => Some [Str.lit "; ipadic"; Str.lit "config-charset = EUC-JP"])
          (fun _ => Some (tagger_of []))
          None None.

(** The world of [eucjp_world], but with an engine that, constructed with a
    dictionary argument, returns the probe's text as one morpheme. *)
Definition ipadic_utf8_world : World :=
  mkWorld (Some (Str.lit "/usr/lib/mecab/dic" ++ [x0a]))
          (fun _ => Some [Str.lit "; ipadic"; Str.lit "config-charset = EUC-JP"])
          (fun args =>
             if Str.empty args then Some (tagger_of [])
             else Some (tagger_of
                          [MeCab.mkNode MeCab.MECAB_NOR_NODE mecab.testUtf8 None]))
          None None.

(** The world of [eucjp_world], but with an engine that cannot be
    constructed with a dictionary argument. *)
Definition fallback_world : World :=
  mkWorld (Some (Str.lit "/usr/lib/mecab/dic" ++ [x0a]))
          (fun _ => Some [Str.lit "; ipadic"; Str.lit "config-charset = EUC-JP"])
          (fun args => if Str.empty args then Some (tagger_of []) else None)
          None None.

Definition config0 : MoZukuConfig := mkMoZukuConfig [] [] false.

(** A configuration that names a dictionary. *)
Definition config_with_dictionary : MoZukuConfig :=
  mkMoZukuConfig (Str.lit "/nonexistent/dic") [] false.

(** A tagger that returns the probe's text as one morpheme. *)
Definition echo_tagger : MeCab.Tagger :=
  tagger_of [MeCab.mkNode MeCab.MECAB_NOR_NODE mecab.testUtf8 None].

(** A tree of two chunks over three tokens, and a parser that returns it. *)
Definition two_chunks : CaboCha.Tree :=
  CaboCha.mkTree 2
    (fun i => match i with
              | 0 => Some (CaboCha.mkChunk 1 PrimFloat.one 0 2)
              | 1 => Some (CaboCha.mkChunk (-1) PrimFloat.zero 2 1)
              | _ => None
              end)
    3
    (fun j => match j with
              | 0 => Some (CaboCha.mkToken (Some (Str.lit "a")))
              | 1 => Some (CaboCha.mkToken (Some (Str.lit "b")))
              | 2 => Some (CaboCha.mkToken (Some (Str.lit "c")))
              | _ => None
              end).

Definition two_chunks_parser : CaboCha.Parser :=
  CaboCha.mkParser (fun _ => Some two_chunks).

(** An analyzer whose manager holds a secondary engine and has its flag on;
    no call of the two files leaves such a manager. *)
Definition with_cabocha : Analyzer.Analyzer :=
  Analyzer.mkAnalyzer config0
    (mecab.mkMeCabManager (Some echo_tagger) (Some two_chunks_parser) UTF_8
                          true true)
    UTF_8.

(** A constructed manager after one call of [initialize]. *)
Definition manager_after_initialize : mecab.MeCabManager :=
  snd (fst (mecab.initialize (world_of [])
              (fst (mecab.MeCabManager_new true (process0 false)))
              [] UTF_8 (process0 false))).

(** A constructed analyzer, before [initialize]. *)
Definition fresh : Analyzer.Analyzer :=
  fst (Analyzer.Analyzer_new config0 (process0 false)).

(** The result of [initialize] on a constructed analyzer, in a world. *)
Definition initialized_in (W : World) (config : MoZukuConfig)
    : bool * Analyzer.Analyzer :=
  fst (Analyzer.initialize W fresh config
         (snd (Analyzer.Analyzer_new config0 (process0 false)))).

(** An analyzer made ready with a given tagger. *)
Definition ready_with (tagger : MeCab.Tagger) : Analyzer.Analyzer :=
  snd (initialized_in
         (mkWorld None (fun _ => None) (fun _ => Some tagger) None None)
         config0).

(** An analyzer made ready in [world_of nodes]. *)
Definition ready (nodes : list MeCab.Node) : Analyzer.Analyzer :=
  snd (initialized_in (world_of nodes) config0).

End Reference.

(* ================================================================= *)
(** ** Vocabulary of the further properties *)

(** The decoded surfaces of the nodes for which the loop of [analyzeText]
    pushes a token: the nodes that are no sentinels, with a decoded surface
    that is not empty. *)
Definition kept_surfaces {C : Collaborators} (charset : bytes)
    (nodes : list MeCab.Node) : list bytes :=
  filter (fun surface => negb (Str.empty surface))
         (map (fun n => systemToUtf8 (MeCab.surface n) charset)
              (filter (fun n => negb (MeCab.is_sentinel n)) nodes)).

(** Matches each of which lies on the first occurrence of its surface at or
    after the end of the match before it, the first one at or after
    [cur]. *)
Fixpoint greedy_from {C : Collaborators} (cleanText : bytes) (cur : nat)
    (matches : list (nat * Analyzer.TokenData)) : Prop :=
  match matches with
  | [] => True
  | m :: rest =>
      (forall q, cur <= q -> q < fst m ->
                 ~ Analyzer.occurs_at cleanText (Analyzer.surface (snd m)) q)
      /\ greedy_from cleanText
           (fst m + Str.size (Analyzer.surface (snd m))) rest
  end.

(** The byte offsets of strings laid end to end from [cur] on. *)
Fixpoint laid_from (cur : nat) (surfaces : list bytes) : list nat :=
  match surfaces with
  | [] => []
  | surface :: rest => cur :: laid_from (cur + Str.size surface) rest
  end.


(** Both [isDebugEnabled] answer [false] in this state of the process. *)
Definition quiet (p : Process) : Prop :=
  fst (debug_step (env_MOZUKU_DEBUG p) (manager_statics p)) = false
  /\ fst (debug_step (env_MOZUKU_DEBUG p) (analyzer_statics p)) = false.

(** A computation that writes nothing to [std::cerr] while both
    [isDebugEnabled] answer [false], and leaves them so. *)
Definition silent {A : Type} (c : M A) : Prop :=
  forall p, quiet p -> cerr (snd (c p)) = cerr p /\ quiet (snd (c p)).

(** The analyzers a program can hold: a constructed one, and the one a call
    of [Analyzer::initialize] leaves. *)
Inductive reachable_analyzer : Analyzer.Analyzer -> Prop :=
| reachable_constructed : forall config0 p,
    reachable_analyzer (fst (Analyzer.Analyzer_new config0 p))
| reachable_initialized : forall W a config p,
    reachable_analyzer a ->
    reachable_analyzer (snd (fst (Analyzer.initialize W a config p))).

(** The constructions of a throw-away tagger by the discovery probe so
    far. *)
Definition probe_calls (p : Process) : list bytes :=
  map snd (filter (fun c => match fst c with
                            | ProbeTagger => true
                            | PrimaryTagger => false
                            end)
                  (createTagger_calls p)).

(** A computation that constructs no throw-away tagger. *)
Definition probes_nothing {A : Type} (c : M A) : Prop :=
  forall p, probe_calls (snd (c p)) = probe_calls p.

(** Whether the discovery runs its probe in a world: the [dicrc] of the
    discovered dictionary declares a charset, and not "UTF-8". *)
Definition discovery_probes (W : World) : bool :=
  let declared :=
    mecab.declared_charset_of W (mecab.detected_dicPath W) in
  negb (Str.empty declared) && negb (Str.eqb declared UTF_8).

(** A byte of [" \t"], the set the trimming of [detectSystemMeCab] erases. *)
Definition is_blank (c : byte) : bool := Str.is_one_of [x20; x09] c.

(** A string with no blank at either end. *)
Definition trimmed (value : bytes) : Prop :=
  (forall x rest, value = x :: rest -> is_blank x = false)
  /\ (forall front x, value = front ++ [x] -> is_blank x = false).

(** Chunks whose token ranges follow one another from token [pos] on. *)
Fixpoint contiguous_chunks (pos : nat) (chunks : list CaboCha.Chunk) : Prop :=
  match chunks with
  | [] => True
  | chunk :: rest =>
      CaboCha.token_pos chunk = pos
      /\ contiguous_chunks (pos + CaboCha.token_size chunk) rest
  end.

(** The number of tokens the chunks hold together. *)
Definition tokens_of_chunks (chunks : list CaboCha.Chunk) : nat :=
  fold_right (fun chunk n => CaboCha.token_size chunk + n) 0 chunks.

(** The decoded surfaces of tokens, joined in order; a token whose surface
    is null gives nothing. *)
Definition decoded_surfaces {C : Collaborators} (charset : bytes)
    (tokens : list CaboCha.Token) : bytes :=
  concat (map (fun token => match CaboCha.surface token with
                            | Some surface => systemToUtf8 surface charset
                            | None => []
                            end)
              tokens).

(** The tokens [pos], [pos + 1], ... of a tree's tokens, [size] of them or
    as many as there are. *)
Definition token_range (tokens : list CaboCha.Token) (pos size : nat)
    : list CaboCha.Token :=
  firstn size (skipn pos tokens).

(* ================================================================= *)
(** * Properties *)

(** ** Strings *)

Lemma Str_eqb_eq (a b : bytes) : Str.eqb a b = true <-> a = b.
Proof.
  revert b; induction a as [|x a IH]; intros [|y b]; simpl;
    try (split; [discriminate | intros H; discriminate H]); try tauto.
  rewrite andb_true_iff, IH. split.
  - intros [Hxy ->]. apply Byte.byte_dec_bl in Hxy. now subst.
  - intros H; injection H as -> ->. split; [now apply Byte.byte_dec_lb | easy].
Qed.

Lemma Str_eqb_neq (a b : bytes) : a <> b -> Str.eqb a b = false.
Proof.
  intros H. destruct (Str.eqb a b) eqn:E; [|reflexivity].
  now apply Str_eqb_eq in E.
Qed.

Lemma Str_empty_false (s : bytes) : s <> [] -> Str.empty s = false.
Proof. destruct s; simpl; congruence. Qed.

(** ** The process monad *)

Lemma bind_fst {A B : Type} (c : M A) (k : A -> M B) (p : Process) :
  fst (bind c k p) = fst (k (fst (c p)) (snd (c p))).
Proof. unfold bind. now destruct (c p). Qed.

Lemma bind_snd {A B : Type} (c : M A) (k : A -> M B) (p : Process) :
  snd (bind c k p) = snd (k (fst (c p)) (snd (c p))).
Proof. unfold bind. now destruct (c p). Qed.

(** Diagnostics leave the log of engine constructions alone. *)
Lemma manager_debug_line_calls (l : string) (p : Process) :
  createTagger_calls (snd (mecab.debug_line l p)) = createTagger_calls p.
Proof.
  unfold mecab.debug_line, mecab.isDebugEnabled, bind, debug_step, when.
  destruct (negb (initialized (manager_statics p)));
    [destruct (env_MOZUKU_DEBUG p) | destruct (debug (manager_statics p))];
    reflexivity.
Qed.

Lemma analyzer_debug_line_calls (l : string) (p : Process) :
  createTagger_calls (snd (Analyzer.debug_line l p)) = createTagger_calls p.
Proof.
  unfold Analyzer.debug_line, Analyzer.isDebugEnabled, bind, debug_step, when.
  destruct (negb (initialized (analyzer_statics p)));
    [destruct (env_MOZUKU_DEBUG p) | destruct (debug (analyzer_statics p))];
    reflexivity.
Qed.

(** ** The realignment scan *)

Lemma matches_at_occurs_iff (cleanText surface : bytes) (pos : nat) :
  pos <= Str.size cleanText ->
  Analyzer.matches_at cleanText surface pos = true
  <-> Analyzer.occurs_at cleanText surface pos.
Proof.
  intros Hpos. unfold Analyzer.matches_at, Analyzer.occurs_at.
  rewrite andb_true_iff, Nat.leb_le, Str_eqb_eq.
  split; intros [Hlen Heq]; (split; [lia | exact Heq]).
Qed.

(** The loop equation of lines 111-119. *)
Lemma realign_unfold (cleanText surface : bytes) (currentBytePos : nat) :
  Analyzer.realign cleanText surface currentBytePos =
  if currentBytePos <? Str.size cleanText then
    if Analyzer.matches_at cleanText surface currentBytePos then currentBytePos
    else Analyzer.realign cleanText surface (S currentBytePos)
  else currentBytePos.
Proof.
  unfold Analyzer.realign.
  destruct (currentBytePos <? Str.size cleanText) eqn:E.
  - apply Nat.ltb_lt in E.
    replace (Str.size cleanText - currentBytePos)
      with (S (Str.size cleanText - S currentBytePos)) by lia.
    reflexivity.
  - apply Nat.ltb_ge in E.
    replace (Str.size cleanText - currentBytePos) with 0 by lia.
    reflexivity.
Qed.

Lemma realign_loop_ge (cleanText surface : bytes) (todo cur : nat) :
  cur <= Analyzer.realign_loop cleanText surface todo cur.
Proof.
  revert cur; induction todo as [|todo IH]; intros cur; simpl; [lia|].
  destruct (Analyzer.matches_at cleanText surface cur); [lia|].
  specialize (IH (S cur)). lia.
Qed.

Lemma realign_ge (cleanText surface : bytes) (cur : nat) :
  cur <= Analyzer.realign cleanText surface cur.
Proof. apply realign_loop_ge. Qed.

(** Where the scan stops: on an occurrence inside the text, or at the end of
    the text, or where it started when that is already past the end. *)
Lemma realign_loop_stops (cleanText surface : bytes) (todo cur : nat) :
  todo = Str.size cleanText - cur ->
  let stop := Analyzer.realign_loop cleanText surface todo cur in
  (stop < Str.size cleanText /\ Analyzer.occurs_at cleanText surface stop)
  \/ stop = Nat.max cur (Str.size cleanText).
Proof.
  revert cur; induction todo as [|todo IH]; intros cur Htodo; simpl.
  - right. lia.
  - destruct (Analyzer.matches_at cleanText surface cur) eqn:E.
    + left. split; [lia|]. apply matches_at_occurs_iff in E; [exact E | lia].
    + destruct (IH (S cur)) as [H|H]; [lia | left; exact H | right].
      rewrite H. lia.
Qed.

Lemma realign_loop_no_occurrence (cleanText surface : bytes) (todo cur : nat) :
  todo = Str.size cleanText - cur ->
  (forall pos, cur <= pos -> ~ Analyzer.occurs_at cleanText surface pos) ->
  Analyzer.realign_loop cleanText surface todo cur
  = Nat.max cur (Str.size cleanText).
Proof.
  intros Htodo Hno.
  destruct (realign_loop_stops cleanText surface todo cur Htodo) as [[_ H]|H];
    [|exact H].
  exfalso. apply (Hno _ (realign_loop_ge cleanText surface todo cur) H).
Qed.

(** ** The manager: values and engine constructions *)

Section ManagerValues.

Variable W : World.

Lemma primary_calls_debug_line (l : string) (p : Process) :
  primary_calls (snd (mecab.debug_line l p)) = primary_calls p.
Proof. unfold primary_calls. now rewrite manager_debug_line_calls. Qed.

Lemma primary_calls_isDebugEnabled (p : Process) :
  primary_calls (snd (mecab.isDebugEnabled p)) = primary_calls p.
Proof.
  unfold mecab.isDebugEnabled. now destruct (debug_step _ _).
Qed.

Lemma primary_calls_when_cerr (b : bool) (l : string) (p : Process) :
  primary_calls (snd (when b (cerr_line l) p)) = primary_calls p.
Proof. now destruct b. Qed.

Lemma call_createTagger_value (site : call_site) (args : bytes) (p : Process) :
  fst (mecab.call_createTagger W site args p) = createTagger W (Str.c_str args).
Proof. reflexivity. Qed.

Lemma primary_calls_probe (args : bytes) (p : Process) :
  primary_calls (snd (mecab.call_createTagger W ProbeTagger args p))
  = primary_calls p.
Proof.
  unfold primary_calls, mecab.call_createTagger. simpl.
  rewrite filter_app. simpl. now rewrite app_nil_r.
Qed.

Lemma primary_calls_primary (args : bytes) (p : Process) :
  primary_calls (snd (mecab.call_createTagger W PrimaryTagger args p))
  = primary_calls p ++ [Str.c_str args].
Proof.
  unfold primary_calls, mecab.call_createTagger. simpl.
  rewrite filter_app, map_app. reflexivity.
Qed.

Create Rewrite HintDb calls.

#[local] Hint Rewrite primary_calls_debug_line primary_calls_isDebugEnabled
  primary_calls_when_cerr primary_calls_probe primary_calls_primary : calls.

Lemma testMeCabCharset_value (tagger : option MeCab.Tagger) (c : bytes)
    (p : Process) :
  fst (mecab.testMeCabCharset tagger c p) = mecab.tested_charset tagger c.
Proof.
  unfold mecab.testMeCabCharset, mecab.tested_charset.
  destruct tagger as [t|]; [|reflexivity].
  destruct (Str.eqb c UTF_8); [reflexivity|].
  destruct (mecab.probe_loop _); now rewrite bind_fst.
Qed.

Lemma primary_calls_testMeCabCharset (tagger : option MeCab.Tagger) (c : bytes)
    (p : Process) :
  primary_calls (snd (mecab.testMeCabCharset tagger c p)) = primary_calls p.
Proof.
  unfold mecab.testMeCabCharset.
  destruct tagger as [t|]; [|reflexivity].
  destruct (Str.eqb c UTF_8); [reflexivity|].
  destruct (mecab.probe_loop _); rewrite bind_snd; simpl;
    apply primary_calls_debug_line.
Qed.

Lemma detect_dicPath_value (p : Process) :
  fst (mecab.detect_dicPath W p) = mecab.detected_dicPath W.
Proof.
  unfold mecab.detect_dicPath, mecab.detected_dicPath.
  destruct (mecab_config_dicdir W); [now rewrite bind_fst | reflexivity].
Qed.

Lemma primary_calls_detect_dicPath (p : Process) :
  primary_calls (snd (mecab.detect_dicPath W p)) = primary_calls p.
Proof.
  unfold mecab.detect_dicPath.
  destruct (mecab_config_dicdir W); [|reflexivity].
  rewrite bind_snd. simpl. apply primary_calls_debug_line.
Qed.

#[local] Hint Rewrite primary_calls_detect_dicPath : calls.

Lemma detect_declared_charset_value (dicPath : bytes) (p : Process) :
  fst (mecab.detect_declared_charset W dicPath p)
  = mecab.declared_charset_of W dicPath.
Proof.
  unfold mecab.detect_declared_charset, mecab.declared_charset_of.
  destruct (negb (Str.empty dicPath)); [|reflexivity].
  destruct (read_lines W _) as [lines|]; [|reflexivity].
  destruct (mecab.scan_dicrc lines); [now rewrite bind_fst | reflexivity].
Qed.

Lemma primary_calls_detect_declared_charset (dicPath : bytes) (p : Process) :
  primary_calls (snd (mecab.detect_declared_charset W dicPath p))
  = primary_calls p.
Proof.
  unfold mecab.detect_declared_charset.
  destruct (negb (Str.empty dicPath)); [|reflexivity].
  destruct (read_lines W _) as [lines|]; [|reflexivity].
  destruct (mecab.scan_dicrc lines); [|reflexivity].
  rewrite bind_snd. simpl. apply primary_calls_debug_line.
Qed.

#[local] Hint Rewrite primary_calls_detect_declared_charset : calls.

Lemma detect_effective_charset_value (declared : bytes) (p : Process) :
  fst (mecab.detect_effective_charset W declared p)
  = mecab.effective_charset_of W declared.
Proof.
  unfold mecab.detect_effective_charset, mecab.effective_charset_of.
  destruct (Str.empty declared); [now rewrite bind_fst|].
  destruct (negb (Str.eqb declared UTF_8)); [|reflexivity].
  rewrite !bind_fst, call_createTagger_value. change (Str.c_str []) with (@nil byte).
  destruct (createTagger W []) as [t|]; [|reflexivity].
  now rewrite bind_fst.
Qed.

Lemma primary_calls_detect_effective_charset (declared : bytes) (p : Process) :
  primary_calls (snd (mecab.detect_effective_charset W declared p))
  = primary_calls p.
Proof.
  unfold mecab.detect_effective_charset.
  destruct (Str.empty declared).
  { rewrite bind_snd. simpl. apply primary_calls_debug_line. }
  destruct (negb (Str.eqb declared UTF_8)); [|reflexivity].
  rewrite !bind_snd, call_createTagger_value. change (Str.c_str []) with (@nil byte).
  destruct (createTagger W []) as [t|].
  - rewrite bind_snd.
    destruct (mecab.probe_loop _); unfold when, ret; cbn [fst snd];
      rewrite ?primary_calls_debug_line, primary_calls_probe;
      apply primary_calls_debug_line.
  - unfold ret. cbn [fst snd].
    rewrite primary_calls_probe. apply primary_calls_debug_line.
Qed.

#[local] Hint Rewrite primary_calls_detect_effective_charset : calls.

Lemma detectSystemMeCab_value (p : Process) :
  fst (mecab.detectSystemMeCab W p) = mecab.detected_info W.
Proof.
  unfold mecab.detectSystemMeCab, mecab.detected_info.
  rewrite !bind_fst. simpl.
  now rewrite detect_effective_charset_value, detect_declared_charset_value,
    !detect_dicPath_value.
Qed.

Lemma primary_calls_detectSystemMeCab (p : Process) :
  primary_calls (snd (mecab.detectSystemMeCab W p)) = primary_calls p.
Proof.
  unfold mecab.detectSystemMeCab.
  rewrite !bind_snd. unfold ret. cbn [fst snd].
  now autorewrite with calls.
Qed.

#[local] Hint Rewrite primary_calls_detectSystemMeCab : calls.

Lemma resolve_args_value (mecabDicPath : bytes) (p : Process) :
  fst (mecab.resolve_args mecabDicPath
         (if Str.empty mecabDicPath then mecab.detected_info W
          else mecab.mkSystemLibInfo true [] []) p)
  = mecab.mecab_args_of W mecabDicPath.
Proof.
  unfold mecab.resolve_args, mecab.mecab_args_of.
  destruct (Str.empty mecabDicPath); [|reflexivity].
  cbn [negb mecab.detected_info mecab.isAvailable mecab.dicPath].
  destruct (Str.empty (mecab.detected_dicPath W)); cbn [negb andb];
    [reflexivity | now rewrite bind_fst].
Qed.

Lemma primary_calls_resolve_args (mecabDicPath : bytes)
    (info : mecab.SystemLibInfo) (p : Process) :
  primary_calls (snd (mecab.resolve_args mecabDicPath info p)) = primary_calls p.
Proof.
  unfold mecab.resolve_args.
  destruct (negb (Str.empty mecabDicPath)); [reflexivity|].
  destruct (mecab.isAvailable info && negb (Str.empty (mecab.dicPath info)));
    [|reflexivity].
  rewrite bind_snd. unfold ret. cbn [fst snd]. apply primary_calls_debug_line.
Qed.

Lemma create_primary_value (mecab_args : bytes) (p : Process) :
  fst (mecab.create_primary W mecab_args p)
  = mecab.primary_tagger_of W mecab_args.
Proof.
  unfold mecab.create_primary, mecab.primary_tagger_of.
  rewrite bind_fst, call_createTagger_value.
  destruct (createTagger W (Str.c_str mecab_args)) as [t|]; [reflexivity|].
  rewrite bind_fst.
  destruct (negb (Str.empty mecab_args)); [|reflexivity].
  rewrite !bind_fst, call_createTagger_value.
  change (Str.c_str []) with (@nil byte).
  destruct (createTagger W []) as [t|]; [reflexivity | now rewrite bind_fst].
Qed.

(** The constructions of the primary engine one run of lines 84-111 makes:
    one when the first succeeds or has no argument to drop, the first and
    one more with no argument otherwise. *)
Lemma primary_calls_create_primary (mecab_args : bytes) (p : Process) :
  primary_calls (snd (mecab.create_primary W mecab_args p))
  = primary_calls p
    ++ match createTagger W (Str.c_str mecab_args) with
       | Some _ => [Str.c_str mecab_args]
       | None =>
           if Str.empty mecab_args then [Str.c_str mecab_args]
           else [Str.c_str mecab_args; []]
       end.
Proof.
  unfold mecab.create_primary.
  rewrite bind_snd, call_createTagger_value.
  destruct (createTagger W (Str.c_str mecab_args)) as [t|].
  { unfold ret. cbn [fst snd]. apply primary_calls_primary. }
  rewrite bind_snd.
  destruct (Str.empty mecab_args); cbn [negb].
  { unfold ret. cbn [fst snd].
    now rewrite primary_calls_debug_line, primary_calls_primary. }
  rewrite !bind_snd, call_createTagger_value.
  change (Str.c_str []) with (@nil byte).
  assert (Hcalls : forall q,
             primary_calls
               (snd (mecab.call_createTagger W PrimaryTagger []
                       (snd (mecab.debug_line q
                               (snd (mecab.debug_line
                                       ("[ERROR] MeCab initialization failed with args '"
                                        ++ Str.show mecab_args ++ "': "
                                        ++ mecab.tagger_error W)%string
                                       (snd (mecab.call_createTagger W
                                               PrimaryTagger mecab_args p))))))))
             = primary_calls p ++ [Str.c_str mecab_args; []]).
  { intros q.
    rewrite primary_calls_primary, !primary_calls_debug_line,
      primary_calls_primary, <- app_assoc.
    reflexivity. }
  destruct (createTagger W []) as [t|].
  - unfold ret. cbn [fst snd]. apply Hcalls.
  - rewrite bind_snd. unfold ret. cbn [fst snd].
    rewrite primary_calls_debug_line. apply Hcalls.
Qed.

Lemma init_cabocha_value (m : mecab.MeCabManager) (p : Process) :
  fst (mecab.init_cabocha W m p)
  = match mecab.cabocha_parser_ m with
    | Some _ => mecab.set_cabocha_available true m
    | None => m
    end.
Proof.
  unfold mecab.init_cabocha.
  destruct (mecab.cabocha_parser_ m); now rewrite bind_fst.
Qed.

Lemma primary_calls_init_cabocha (m : mecab.MeCabManager) (p : Process) :
  primary_calls (snd (mecab.init_cabocha W m p)) = primary_calls p.
Proof.
  unfold mecab.init_cabocha.
  destruct (mecab.cabocha_parser_ m); rewrite bind_snd; unfold ret;
    cbn [fst snd]; apply primary_calls_debug_line.
Qed.

(** The first stage of [initialize], lines 51-59. *)
Lemma initialize_discovery_value (mecabDicPath : bytes) (p : Process) :
  fst ((if Str.empty mecabDicPath then
          info <- mecab.detectSystemMeCab W ;;
          (if negb (mecab.isAvailable info)
           then mecab.debug_line "[DEBUG] Cannot find mecab-config / dicdir"
           else ret tt) ;;
          ret info
        else ret (mecab.mkSystemLibInfo true [] [])) p)
  = if Str.empty mecabDicPath then mecab.detected_info W
    else mecab.mkSystemLibInfo true [] [].
Proof.
  destruct (Str.empty mecabDicPath); [|reflexivity].
  rewrite !bind_fst. unfold ret. cbn [fst]. apply detectSystemMeCab_value.
Qed.

Lemma primary_calls_initialize_discovery (mecabDicPath : bytes) (p : Process) :
  primary_calls
    (snd ((if Str.empty mecabDicPath then
             info <- mecab.detectSystemMeCab W ;;
             (if negb (mecab.isAvailable info)
              then mecab.debug_line "[DEBUG] Cannot find mecab-config / dicdir"
              else ret tt) ;;
             ret info
           else ret (mecab.mkSystemLibInfo true [] [])) p))
  = primary_calls p.
Proof.
  destruct (Str.empty mecabDicPath); [|reflexivity].
  rewrite !bind_snd. unfold ret at 1. cbn [fst snd].
  destruct (negb (mecab.isAvailable (fst (mecab.detectSystemMeCab W p)))).
  - rewrite primary_calls_debug_line. apply primary_calls_detectSystemMeCab.
  - unfold ret. cbn [snd]. apply primary_calls_detectSystemMeCab.
Qed.

(** [initialize] returns [initialize_value], in every state of the
    process. *)
Lemma initialize_value_correct (m : mecab.MeCabManager)
    (mecabDicPath mecabCharset : bytes) (p : Process) :
  fst (mecab.initialize W m mecabDicPath mecabCharset p)
  = mecab.initialize_value W m mecabDicPath mecabCharset.
Proof.
  unfold mecab.initialize, mecab.initialize_value.
  rewrite bind_fst, initialize_discovery_value.
  cbv zeta.
  rewrite bind_fst, resolve_args_value.
  rewrite !bind_fst, create_primary_value.
  destruct (mecab.primary_tagger_of W (mecab.mecab_args_of W mecabDicPath))
    as [t|]; [|reflexivity].
  rewrite !bind_fst, testMeCabCharset_value, init_cabocha_value.
  reflexivity.
Qed.

(** The constructions of the primary engine one call of [initialize]
    makes. *)
Lemma primary_calls_initialize (m : mecab.MeCabManager)
    (mecabDicPath mecabCharset : bytes) (p : Process) :
  let mecab_args := mecab.mecab_args_of W mecabDicPath in
  primary_calls (snd (mecab.initialize W m mecabDicPath mecabCharset p))
  = primary_calls p
    ++ match createTagger W (Str.c_str mecab_args) with
       | Some _ => [Str.c_str mecab_args]
       | None =>
           if Str.empty mecab_args then [Str.c_str mecab_args]
           else [Str.c_str mecab_args; []]
       end.
Proof.
  cbv zeta. unfold mecab.initialize.
  rewrite bind_snd, initialize_discovery_value.
  cbv zeta.
  rewrite bind_snd, resolve_args_value.
  rewrite !bind_snd, create_primary_value.
  assert (Hcreate : forall q,
             primary_calls q = primary_calls p ->
             primary_calls
               (snd (mecab.create_primary W
                       (mecab.mecab_args_of W mecabDicPath) q))
             = primary_calls p
               ++ match createTagger W
                          (Str.c_str (mecab.mecab_args_of W mecabDicPath)) with
                  | Some _ => [Str.c_str (mecab.mecab_args_of W mecabDicPath)]
                  | None =>
                      if Str.empty (mecab.mecab_args_of W mecabDicPath)
                      then [Str.c_str (mecab.mecab_args_of W mecabDicPath)]
                      else [Str.c_str (mecab.mecab_args_of W mecabDicPath); []]
                  end).
  { intros q Hq. now rewrite primary_calls_create_primary, Hq. }
  destruct (mecab.primary_tagger_of W (mecab.mecab_args_of W mecabDicPath))
    as [t|].
  - rewrite !bind_snd. unfold ret at 1. cbn [fst snd].
    rewrite primary_calls_debug_line, primary_calls_init_cabocha,
      primary_calls_debug_line, primary_calls_testMeCabCharset.
    apply Hcreate.
    now rewrite primary_calls_when_cerr, primary_calls_isDebugEnabled,
      primary_calls_resolve_args, primary_calls_initialize_discovery.
  - unfold ret at 1. cbn [fst snd].
    apply Hcreate.
    now rewrite primary_calls_when_cerr, primary_calls_isDebugEnabled,
      primary_calls_resolve_args, primary_calls_initialize_discovery.
Qed.

End ManagerValues.

(** ** The charset probe *)

Lemma probe_loop_accepts (nodes : list MeCab.Node) :
  mecab.probe_loop nodes = true <-> mecab.probe_accepts nodes.
Proof.
  unfold mecab.probe_accepts.
  induction nodes as [|n nodes IH]; simpl.
  - split; [discriminate | intros (n & [] & _)].
  - destruct (MeCab.is_sentinel n) eqn:Hstat.
    + rewrite IH. split; intros (n' & Hin & Hn').
      * exists n'. split; [now right | exact Hn'].
      * destruct Hin as [<- | Hin]; [|now exists n'].
        destruct Hn' as [Hs _]. congruence.
    + destruct (Str.eqb (MeCab.surface n) mecab.testUtf8
                && (Str.size (MeCab.surface n) =? 6)) eqn:Htest.
      * apply andb_true_iff in Htest as [Heq Hlen].
        apply Str_eqb_eq in Heq. apply Nat.eqb_eq in Hlen.
        split; [intros _ | reflexivity].
        exists n. repeat split; auto.
      * rewrite IH. split; intros (n' & Hin & Hn').
        -- exists n'. split; [now right | exact Hn'].
        -- destruct Hin as [<- | Hin]; [|now exists n'].
           destruct Hn' as (_ & Hlen & Heq).
           apply Str_eqb_eq in Heq. apply Nat.eqb_eq in Hlen.
           unfold Str.size in Htest. rewrite Heq, Hlen in Htest.
           discriminate Htest.
Qed.

(** C3.  The test text is the UTF-8 encoding, 6 bytes long, of the two
    characters U+8AA4 and U+89E3.  For a declared charset that is not
    "UTF-8": the probe on the constructed engine ([testMeCabCharset])
    returns "UTF-8" exactly when the engine's parse of the test text has a
    node that is not a sentinel and whose surface has 6 bytes and equals the
    test text, and it returns the declared charset otherwise; the probe of
    the discovery ([detectSystemMeCab], for a declared charset that is not
    empty) does the same with the engine it constructs, and keeps the
    declared charset when it can construct none. *)
Theorem charset_probe_overrides_iff (W : World) (tagger : MeCab.Tagger)
    (declared : bytes) (p : Process) :
  declared <> UTF_8 ->
  let accepted :=
    mecab.probe_accepts (MeCab.parseToNode tagger mecab.testUtf8) in
  (mecab.testUtf8 = Utf8.encode_all [0x8AA4%N; 0x89E3%N]
   /\ Str.size mecab.testUtf8 = 6)
  /\ (fst (mecab.testMeCabCharset (Some tagger) declared p) = UTF_8
      <-> accepted)
  /\ (~ accepted ->
      fst (mecab.testMeCabCharset (Some tagger) declared p) = declared)
  /\ (declared <> [] -> createTagger W [] = Some tagger ->
      (fst (mecab.detect_effective_charset W declared p) = UTF_8 <-> accepted)
      /\ (~ accepted ->
          fst (mecab.detect_effective_charset W declared p) = declared))
  /\ (declared <> [] -> createTagger W [] = None ->
      fst (mecab.detect_effective_charset W declared p) = declared).
Proof.
  intros Hdeclared accepted.
  assert (Hne : Str.eqb declared UTF_8 = false) by now apply Str_eqb_neq.
  assert (Hprobe :
             ((if mecab.probe_loop (MeCab.parseToNode tagger mecab.testUtf8)
               then UTF_8 else declared) = UTF_8 <-> accepted)
             /\ (~ accepted ->
                 (if mecab.probe_loop (MeCab.parseToNode tagger mecab.testUtf8)
                  then UTF_8 else declared) = declared)).
  { subst accepted.
    destruct (mecab.probe_loop (MeCab.parseToNode tagger mecab.testUtf8))
      eqn:Hloop.
    - apply probe_loop_accepts in Hloop. split; [tauto | contradiction].
    - split; [|reflexivity]. split; [contradiction|].
      intros Hacc. apply probe_loop_accepts in Hacc. congruence. }
  split; [split; reflexivity|].
  rewrite testMeCabCharset_value, detect_effective_charset_value.
  unfold mecab.tested_charset, mecab.effective_charset_of.
  rewrite Hne. cbn [negb].
  split; [apply Hprobe | split; [apply Hprobe |]].
  split.
  - intros Hnonempty ->. rewrite (Str_empty_false _ Hnonempty).
    apply Hprobe.
  - intros Hnonempty ->. now rewrite (Str_empty_false _ Hnonempty).
Qed.

(** ** Initialization *)

Lemma primary_calls_analyzer_debug_line (l : string) (p : Process) :
  primary_calls (snd (Analyzer.debug_line l p)) = primary_calls p.
Proof. unfold primary_calls. now rewrite analyzer_debug_line_calls. Qed.

Lemma dicPath_default (d : bytes) : (if Str.empty d then [] else d) = d.
Proof. now destruct d. Qed.

(** What [Analyzer::initialize] returns, in every state of the process. *)
Lemma analyzer_initialize_value (W : World) (a : Analyzer.Analyzer)
    (config : MoZukuConfig) (p : Process) :
  let r :=
    mecab.initialize_value W (Analyzer.mecab_manager_ a) (mecab_dicPath config)
      (if Str.empty (mecab_charset config) then UTF_8
       else mecab_charset config) in
  fst (Analyzer.initialize W a config p)
  = if negb (fst r)
    then (false, Analyzer.mkAnalyzer config (snd r) (Analyzer.system_charset_ a))
    else (true, Analyzer.mkAnalyzer config (snd r)
                  (mecab.getSystemCharset (snd r))).
Proof.
  cbv zeta. unfold Analyzer.initialize.
  rewrite !bind_fst, initialize_value_correct, dicPath_default.
  cbv zeta.
  destruct (negb (fst (mecab.initialize_value W _ _ _))); now rewrite bind_fst.
Qed.

Lemma primary_calls_analyzer_initialize (W : World) (a : Analyzer.Analyzer)
    (config : MoZukuConfig) (p : Process) :
  let mecab_args := mecab.mecab_args_of W (mecab_dicPath config) in
  primary_calls (snd (Analyzer.initialize W a config p))
  = primary_calls p
    ++ match createTagger W (Str.c_str mecab_args) with
       | Some _ => [Str.c_str mecab_args]
       | None =>
           if Str.empty mecab_args then [Str.c_str mecab_args]
           else [Str.c_str mecab_args; []]
       end.
Proof.
  cbv zeta. unfold Analyzer.initialize.
  rewrite !bind_snd, initialize_value_correct, dicPath_default.
  cbv zeta.
  destruct (negb (fst (mecab.initialize_value W _ _ _)));
    rewrite bind_snd; unfold ret; cbn [fst snd];
    rewrite ?primary_calls_analyzer_debug_line;
    change (primary_calls (snd (cerr_line ?l ?q))) with (primary_calls q);
    rewrite primary_calls_initialize, primary_calls_analyzer_debug_line;
    reflexivity.
Qed.

(** The charset and the tagger [initialize] leaves in the manager. *)
Lemma initialize_value_fields (W : World) (m : mecab.MeCabManager)
    (mecabDicPath mecabCharset : bytes) :
  let r := mecab.initialize_value W m mecabDicPath mecabCharset in
  let tagger :=
    mecab.primary_tagger_of W (mecab.mecab_args_of W mecabDicPath) in
  let resolved :=
    mecab.resolve_charset mecabCharset
      (if Str.empty mecabDicPath then mecab.detected_info W
       else mecab.mkSystemLibInfo true [] []) in
  fst r = non_null tagger
  /\ mecab.mecab_tagger_ (snd r) = tagger
  /\ mecab.system_charset_ (snd r) = mecab.tested_charset tagger resolved
  /\ mecab.cabocha_parser_ (snd r) = mecab.cabocha_parser_ m
  /\ mecab.cabocha_available_ (snd r)
     = (mecab.cabocha_available_ m
        || (non_null tagger && non_null (mecab.cabocha_parser_ m))).
Proof.
  cbv zeta. unfold mecab.initialize_value.
  destruct (mecab.primary_tagger_of W (mecab.mecab_args_of W mecabDicPath))
    as [t|].
  - destruct m as [tg [ps|] cs av en]; cbn; repeat split;
      destruct av; reflexivity.
  - destruct m as [tg ps cs av en]; cbn; repeat split.
    destruct av; reflexivity.
Qed.

Lemma tested_charset_UTF_8 (tagger : option MeCab.Tagger) :
  mecab.tested_charset tagger UTF_8 = UTF_8.
Proof. unfold mecab.tested_charset. now destruct tagger. Qed.

Lemma tested_charset_cases (tagger : option MeCab.Tagger) (c : bytes) :
  mecab.tested_charset tagger c = c
  \/ (mecab.tested_charset tagger c = UTF_8 /\ non_null tagger = true).
Proof.
  unfold mecab.tested_charset. destruct tagger as [t|]; [|now left].
  destruct (Str.eqb c UTF_8); [now left|].
  destruct (mecab.probe_loop _); [now right | now left].
Qed.

(** C4, amended.  [MeCabManager::initialize] resolves the charset it starts
    from with the priority: its charset argument when that is not empty,
    else the discovered charset when that is not empty, else "UTF-8"; the
    manager's charset after the call is the resolved one, or "UTF-8" where
    the probe on the constructed engine overrides it.
    [Analyzer::initialize] hands the manager the configured charset when
    there is one and "UTF-8" when there is none: with no configured charset
    the manager's working charset after the call is "UTF-8", whatever
    discovery yields; with a configured charset it is that charset, or
    "UTF-8" when initialization succeeds and the probe overrides it. *)
Theorem charset_resolution_priority (W : World) (m : mecab.MeCabManager)
    (mecabDicPath mecabCharset : bytes) (a : Analyzer.Analyzer)
    (config : MoZukuConfig) (p : Process) :
  let discovered :=
    if Str.empty mecabDicPath then fst (mecab.detectSystemMeCab W p)
    else mecab.mkSystemLibInfo true [] [] in
  let resolved := mecab.resolve_charset mecabCharset discovered in
  let m' := snd (fst (mecab.initialize W m mecabDicPath mecabCharset p)) in
  let r := fst (Analyzer.initialize W a config p) in
  let working := mecab.getSystemCharset (Analyzer.mecab_manager_ (snd r)) in
  (mecabCharset <> [] -> resolved = mecabCharset)
  /\ (mecabCharset = [] -> mecab.charset discovered <> [] ->
      resolved = mecab.charset discovered)
  /\ (mecabCharset = [] -> mecab.charset discovered = [] -> resolved = UTF_8)
  /\ mecab.getSystemCharset m'
     = fst (mecab.testMeCabCharset (mecab.getMeCabTagger m') resolved p)
  /\ (mecab_charset config = [] -> working = UTF_8)
  /\ (mecab_charset config <> [] ->
      working = mecab_charset config \/ (working = UTF_8 /\ fst r = true)).
Proof.
  cbv zeta.
  split; [|split; [|split; [|split]]].
  - intros H. unfold mecab.resolve_charset.
    now rewrite (Str_empty_false _ H).
  - intros -> H. unfold mecab.resolve_charset. cbn.
    now rewrite (Str_empty_false _ H).
  - intros -> H. unfold mecab.resolve_charset. cbn. now rewrite H.
  - rewrite initialize_value_correct, testMeCabCharset_value,
      detectSystemMeCab_value.
    destruct (initialize_value_fields W m mecabDicPath mecabCharset)
      as (_ & Htagger & Hcharset & _).
    cbv zeta in Htagger, Hcharset.
    unfold mecab.getSystemCharset, mecab.getMeCabTagger.
    now rewrite Hcharset, Htagger.
  - rewrite analyzer_initialize_value. cbv zeta.
    destruct (initialize_value_fields W (Analyzer.mecab_manager_ a)
                (mecab_dicPath config)
                (if Str.empty (mecab_charset config) then UTF_8
                 else mecab_charset config))
      as (Hok & _ & Hcharset & _).
    cbv zeta in Hok, Hcharset.
    assert (Hworking :
              mecab.system_charset_
                (snd (mecab.initialize_value W (Analyzer.mecab_manager_ a)
                        (mecab_dicPath config)
                        (if Str.empty (mecab_charset config) then UTF_8
                         else mecab_charset config)))
              = mecab.tested_charset
                  (mecab.primary_tagger_of W
                     (mecab.mecab_args_of W (mecab_dicPath config)))
                  (if Str.empty (mecab_charset config) then UTF_8
                   else mecab_charset config)).
    { rewrite Hcharset. f_equal. unfold mecab.resolve_charset.
      now destruct (mecab_charset config). }
    split.
    + intros Hnone. rewrite Hnone in Hworking. cbn [Str.empty] in Hworking.
      rewrite tested_charset_UTF_8 in Hworking.
      destruct (negb (fst _)); cbn [fst snd Analyzer.mecab_manager_];
        unfold mecab.getSystemCharset; rewrite Hnone; exact Hworking.
    + intros Hsome. rewrite (Str_empty_false _ Hsome) in Hworking.
      destruct (tested_charset_cases
                  (mecab.primary_tagger_of W
                     (mecab.mecab_args_of W (mecab_dicPath config)))
                  (mecab_charset config)) as [Hkeep | [Hover Hnn]].
      * left. rewrite Hkeep in Hworking.
        destruct (negb (fst _)); cbn [fst snd Analyzer.mecab_manager_];
          unfold mecab.getSystemCharset;
          rewrite (Str_empty_false _ Hsome); exact Hworking.
      * right. rewrite Hover in Hworking. rewrite Hnn in Hok.
        rewrite (Str_empty_false _ Hsome) in Hok |- *.
        rewrite Hok. cbn [negb fst snd Analyzer.mecab_manager_].
        split; [exact Hworking | reflexivity].
Qed.

(** ** The alignment loop *)

Section Alignment.

Context {C : Collaborators}.

(** What [analyzeText] returns does not depend on the process it runs in:
    neither the diagnostics nor the statics of [isDebugEnabled] reach the
    tokens. *)
Lemma analyzeText_matches_value (a : Analyzer.Analyzer) (text : bytes)
    (p : Process) :
  fst (Analyzer.analyzeText_matches a text p) =
  if Str.empty text then []
  else match mecab.getMeCabTagger (Analyzer.mecab_manager_ a) with
       | None => []
       | Some tagger =>
           let cleanText := sanitizeUTF8 text in
           Analyzer.align_nodes cleanText (computeLineStarts cleanText)
             (Analyzer.system_charset_ a)
             (MeCab.parseToNode tagger
                (Str.c_str (utf8ToSystem cleanText (Analyzer.system_charset_ a))))
             0
       end.
Proof.
  unfold Analyzer.analyzeText_matches.
  destruct (Str.empty text); [reflexivity|].
  rewrite bind_fst.
  destruct (mecab.getMeCabTagger (Analyzer.mecab_manager_ a)) as [tagger|];
    [|now rewrite bind_fst].
  cbv zeta.
  destruct (MeCab.parseToNode tagger _) as [|n nodes];
    now rewrite bind_fst.
Qed.

Lemma analyzeText_value (a : Analyzer.Analyzer) (text : bytes) (p : Process) :
  fst (Analyzer.analyzeText a text p)
  = map snd (fst (Analyzer.analyzeText_matches a text p)).
Proof. unfold Analyzer.analyzeText. now rewrite bind_fst. Qed.

(** The two [continue] of the loop: a sentinel, and an empty decoded
    surface.  What is left is the turn that pushes a token. *)
Ltac skip_node n charset IH :=
  simpl;
  destruct (MeCab.is_sentinel n); [apply IH|];
  destruct (Str.empty (systemToUtf8 (MeCab.surface n) charset)); [apply IH|].

(** Every match of the loop lies at or after the cursor the loop starts
    with. *)
Lemma align_nodes_from_cursor (cleanText : bytes) (lineStarts : list nat)
    (charset : bytes) (nodes : list MeCab.Node) (cur : nat) :
  Forall (fun m => cur <= fst m)
         (Analyzer.align_nodes cleanText lineStarts charset nodes cur).
Proof.
  revert cur; induction nodes as [|n nodes IH]; intros cur;
    [constructor | skip_node n charset IH].
  pose proof (realign_ge cleanText (systemToUtf8 (MeCab.surface n) charset) cur)
    as Hge.
  constructor; [exact Hge|].
  eapply Forall_impl; [|apply IH]. simpl. intros m Hm. lia.
Qed.

(** A match ends before every later match begins. *)
Lemma align_nodes_disjoint (cleanText : bytes) (lineStarts : list nat)
    (charset : bytes) (nodes : list MeCab.Node) (cur : nat) :
  StronglySorted
    (fun m1 m2 => fst m1 + Str.size (Analyzer.surface (snd m1)) <= fst m2)
    (Analyzer.align_nodes cleanText lineStarts charset nodes cur).
Proof.
  revert cur; induction nodes as [|n nodes IH]; intros cur;
    [constructor | skip_node n charset IH].
  constructor; [apply IH|].
  eapply Forall_impl; [|apply align_nodes_from_cursor].
  intros m Hm. simpl.
  unfold Analyzer.make_token.
  destruct (parseFeatureDetails _ _ _) as [[baseForm reading] pronunciation].
  exact Hm.
Qed.

Lemma make_token_surface (cleanText : bytes) (lineStarts : list nat)
    (charset : bytes) (n : MeCab.Node) (surface : bytes) (cur : nat) :
  Analyzer.surface (Analyzer.make_token cleanText lineStarts charset n surface cur)
  = surface.
Proof.
  unfold Analyzer.make_token.
  now destruct (parseFeatureDetails _ _ _) as [[baseForm reading] pronunciation].
Qed.

Lemma make_token_position (cleanText : bytes) (lineStarts : list nat)
    (charset : bytes) (n : MeCab.Node) (surface : bytes) (cur : nat) :
  let token := Analyzer.make_token cleanText lineStarts charset n surface cur in
  let pos := byteOffsetToPosition cleanText lineStarts cur in
  Analyzer.line token = pos_line pos
  /\ Analyzer.startChar token = pos_character pos
  /\ Analyzer.endChar token = (pos_character pos + utf8ToUtf16Length surface)%Z.
Proof.
  unfold Analyzer.make_token.
  now destruct (parseFeatureDetails _ _ _) as [[baseForm reading] pronunciation].
Qed.

Lemma align_nodes_span (cleanText : bytes) (lineStarts : list nat)
    (charset : bytes) (nodes : list MeCab.Node) (cur : nat) :
  Forall (fun m => (Analyzer.endChar (snd m) - Analyzer.startChar (snd m))%Z
                   = utf8ToUtf16Length (Analyzer.surface (snd m)))
         (Analyzer.align_nodes cleanText lineStarts charset nodes cur).
Proof.
  revert cur; induction nodes as [|n nodes IH]; intros cur;
    [constructor | skip_node n charset IH].
  constructor; [|apply IH]. simpl.
  rewrite make_token_surface.
  destruct (make_token_position cleanText lineStarts charset n
              (systemToUtf8 (MeCab.surface n) charset)
              (Analyzer.realign cleanText
                 (systemToUtf8 (MeCab.surface n) charset) cur))
    as (_ & -> & ->).
  lia.
Qed.

(** A match inside the text is an occurrence of the token's surface. *)
Lemma align_nodes_occurrences (cleanText : bytes) (lineStarts : list nat)
    (charset : bytes) (nodes : list MeCab.Node) (cur : nat) :
  Forall (fun m => fst m < Str.size cleanText ->
                   Analyzer.occurs_at cleanText (Analyzer.surface (snd m)) (fst m))
         (Analyzer.align_nodes cleanText lineStarts charset nodes cur).
Proof.
  revert cur; induction nodes as [|n nodes IH]; intros cur;
    [constructor | skip_node n charset IH].
  constructor; [|apply IH]. simpl. rewrite make_token_surface. intros Hin.
  set (surface := systemToUtf8 (MeCab.surface n) charset) in *.
  destruct (realign_loop_stops cleanText surface
              (Str.size cleanText - cur) cur eq_refl) as [[_ H]|H];
    [exact H|].
  unfold Analyzer.realign in Hin. lia.
Qed.

(** C1.  For every text and every state of the process, the tokens of
    [analyzeText] are the tokens of the alignment loop in its order; the byte
    offsets the successive tokens are matched at never decrease; the byte
    range of a token, from its offset over the length of its surface, ends
    at or before the offset of every later token, so that no two ranges
    overlap; [endChar - startChar] of every token is [utf8ToUtf16Length] of
    its surface; and an offset inside the sanitized text is one at which the
    surface of its token occurs there. *)
Theorem analyzeText_offsets_ordered (a : Analyzer.Analyzer) (text : bytes)
    (p : Process) :
  let matches := fst (Analyzer.analyzeText_matches a text p) in
  fst (Analyzer.analyzeText a text p) = map snd matches
  /\ StronglySorted (fun m1 m2 => fst m1 <= fst m2) matches
  /\ StronglySorted
       (fun m1 m2 => fst m1 + Str.size (Analyzer.surface (snd m1)) <= fst m2)
       matches
  /\ Forall (fun m => (Analyzer.endChar (snd m) - Analyzer.startChar (snd m))%Z
                      = utf8ToUtf16Length (Analyzer.surface (snd m)))
            matches
  /\ Forall (fun m => fst m < Str.size (sanitizeUTF8 text) ->
                      Analyzer.occurs_at (sanitizeUTF8 text)
                                         (Analyzer.surface (snd m)) (fst m))
            matches.
Proof.
  cbv zeta. split; [apply analyzeText_value|].
  rewrite analyzeText_matches_value.
  assert (Hnil : forall R : nat * Analyzer.TokenData
                            -> nat * Analyzer.TokenData -> Prop,
             StronglySorted R []) by constructor.
  destruct (Str.empty text); [now repeat split; auto|].
  destruct (mecab.getMeCabTagger (Analyzer.mecab_manager_ a)) as [tagger|];
    [|now repeat split; auto].
  cbv zeta.
  pose proof (align_nodes_occurrences (sanitizeUTF8 text)
                (computeLineStarts (sanitizeUTF8 text))
                (Analyzer.system_charset_ a)
                (MeCab.parseToNode tagger
                   (Str.c_str (utf8ToSystem (sanitizeUTF8 text)
                                            (Analyzer.system_charset_ a)))) 0)
    as Hoccurs.
  pose proof (align_nodes_disjoint (sanitizeUTF8 text)
                (computeLineStarts (sanitizeUTF8 text))
                (Analyzer.system_charset_ a)
                (MeCab.parseToNode tagger
                   (Str.c_str (utf8ToSystem (sanitizeUTF8 text)
                                            (Analyzer.system_charset_ a)))) 0)
    as Hdisjoint.
  split; [|split; [exact Hdisjoint | split; [apply align_nodes_span|]]];
    [|exact Hoccurs].
  clear Hnil Hoccurs. induction Hdisjoint as [|m l Hl IH Hm]; constructor;
    [exact IH|].
  eapply Forall_impl; [|exact Hm]. simpl. intros m' H. lia.
Qed.

End Alignment.

Section AlignmentFailure.

Context {C : Collaborators}.

(** C2, amended.  Take a text, a cursor that is not past the end of the
    text, and a node, not a sentinel, whose decoded surface is not empty and
    occurs nowhere in the text at or after the cursor.  Then the scan leaves
    the cursor at the end of the text, the token is pushed with the position
    [byteOffsetToPosition] gives for the end of the text, and the loop goes
    on with the remaining nodes, its cursor moved past the end of the text
    by the length of the surface. *)
Theorem realign_failure_degrades_to_end (cleanText : bytes)
    (lineStarts : list nat) (charset : bytes) (n : MeCab.Node)
    (next : list MeCab.Node) (cur : nat) :
  let surface := systemToUtf8 (MeCab.surface n) charset in
  let eot := Str.size cleanText in
  MeCab.is_sentinel n = false ->
  surface <> [] ->
  cur <= eot ->
  (forall pos, cur <= pos -> ~ Analyzer.occurs_at cleanText surface pos) ->
  Analyzer.realign cleanText surface cur = eot
  /\ exists token,
       Analyzer.align_nodes cleanText lineStarts charset (n :: next) cur
       = (eot, token)
           :: Analyzer.align_nodes cleanText lineStarts charset next
                                   (eot + Str.size surface)
       /\ Analyzer.surface token = surface
       /\ Analyzer.line token
          = pos_line (byteOffsetToPosition cleanText lineStarts eot)
       /\ Analyzer.startChar token
          = pos_character (byteOffsetToPosition cleanText lineStarts eot).
Proof.
  intros surface eot Hstat Hsurface Hcur Hno.
  assert (Hrealign : Analyzer.realign cleanText surface cur = eot).
  { unfold Analyzer.realign.
    rewrite (realign_loop_no_occurrence cleanText surface _ cur eq_refl Hno).
    subst eot. lia. }
  split; [exact Hrealign|].
  exists (Analyzer.make_token cleanText lineStarts charset n surface eot).
  split; [|split; [apply make_token_surface|]].
  - simpl. rewrite Hstat. fold surface.
    rewrite (Str_empty_false surface Hsurface), Hrealign. reflexivity.
  - destruct (make_token_position cleanText lineStarts charset n surface eot)
      as (Hline & Hstart & _).
    split; assumption.
Qed.

Lemma analyzeText_without_tagger (a : Analyzer.Analyzer)
    (text : bytes) (p : Process) :
  mecab.getMeCabTagger (Analyzer.mecab_manager_ a) = None ->
  fst (Analyzer.analyzeText a text p) = [].
Proof.
  intros Hnull. rewrite analyzeText_value, analyzeText_matches_value, Hnull.
  now destruct (Str.empty text).
Qed.

(** C9.  [analyzeText] returns no token when the text is empty, when the
    analyzer has no tagger, and when the tagger's parse returns the null
    node. *)
Theorem analyzeText_empty_or_not_ready (a : Analyzer.Analyzer) (text : bytes)
    (p : Process) :
  text = []
  \/ Analyzer.isInitialized a = false
  \/ (exists tagger,
        mecab.getMeCabTagger (Analyzer.mecab_manager_ a) = Some tagger
        /\ MeCab.parseToNode tagger
             (Str.c_str (utf8ToSystem (sanitizeUTF8 text)
                                      (Analyzer.system_charset_ a))) = []) ->
  fst (Analyzer.analyzeText a text p) = [].
Proof.
  rewrite analyzeText_value, analyzeText_matches_value.
  intros [-> | [Hnot | (tagger & Htagger & Hparse)]]; [reflexivity | |].
  - unfold Analyzer.isInitialized in Hnot.
    destruct (Str.empty text); [reflexivity|].
    destruct (mecab.getMeCabTagger (Analyzer.mecab_manager_ a));
      [discriminate Hnot | reflexivity].
  - destruct (Str.empty text); [reflexivity|].
    rewrite Htagger. cbv zeta. rewrite Hparse. reflexivity.
Qed.

(** C10.  The tokens of [analyzeText] for an analyzer and a text are the
    same in any two states of the process, whatever the environment
    variable MOZUKU_DEBUG, the statics of [isDebugEnabled] and the error
    stream are in each; in particular a second call, run in the state the
    first one leaves, returns the tokens of the first. *)
Theorem analyzeText_deterministic (a : Analyzer.Analyzer) (text : bytes)
    (p1 p2 : Process) :
  fst (Analyzer.analyzeText a text p1) = fst (Analyzer.analyzeText a text p2)
  /\ fst (Analyzer.analyzeText a text (snd (Analyzer.analyzeText a text p1)))
     = fst (Analyzer.analyzeText a text p1).
Proof.
  assert (Hany : forall q1 q2,
             fst (Analyzer.analyzeText a text q1)
             = fst (Analyzer.analyzeText a text q2)).
  { intros q1 q2.
    rewrite (analyzeText_value a text q1), (analyzeText_value a text q2).
    f_equal.
    rewrite (analyzeText_matches_value a text q1).
    rewrite (analyzeText_matches_value a text q2).
    reflexivity. }
  split.
  - apply Hany.
  - apply Hany.
Qed.

End AlignmentFailure.

(** ** Failure of the primary engine, and the secondary engine *)

Section EngineFailure.

Context {C : Collaborators}.

(** C5.  Let [mecab_args] be the argument string [initialize] builds for the
    configuration, and let the construction of the primary engine with it
    fail.  Then [initialize] constructs the primary engine exactly once more,
    with no argument, when [mecab_args] is not empty, and not again when
    [mecab_args] is empty.  If that construction with no argument fails as
    well, [initialize] returns [false], [isInitialized] is [false] on the
    analyzer it leaves, and [analyzeText] on that analyzer returns no token
    for every text, in every state of the process. *)
Theorem initialize_retries_once_then_fails (W : World) (a : Analyzer.Analyzer)
    (config : MoZukuConfig) (p : Process) :
  let mecab_args := mecab.mecab_args_of W (mecab_dicPath config) in
  let r := Analyzer.initialize W a config p in
  let a' := snd (fst r) in
  createTagger W (Str.c_str mecab_args) = None ->
  primary_calls (snd r)
  = primary_calls p
    ++ (if Str.empty mecab_args then [[]] else [Str.c_str mecab_args; []])
  /\ (createTagger W [] = None ->
      fst (fst r) = false
      /\ Analyzer.isInitialized a' = false
      /\ forall (text : bytes) (q : Process),
           fst (Analyzer.analyzeText a' text q) = []).
Proof.
  intros mecab_args r a' Hfirst. split.
  - subst r. rewrite primary_calls_analyzer_initialize. cbv zeta.
    fold mecab_args. rewrite Hfirst.
    destruct mecab_args; reflexivity.
  - intros Hsecond.
    assert (Htagger : mecab.primary_tagger_of W mecab_args = None).
    { unfold mecab.primary_tagger_of. rewrite Hfirst, Hsecond.
      now destruct (negb (Str.empty mecab_args)). }
    destruct (initialize_value_fields W (Analyzer.mecab_manager_ a)
                (mecab_dicPath config)
                (if Str.empty (mecab_charset config) then UTF_8
                 else mecab_charset config))
      as (Hok & Hfield & _).
    cbv zeta in Hok, Hfield. fold mecab_args in Hok, Hfield.
    rewrite Htagger in Hok, Hfield. cbn [non_null] in Hok.
    assert (Hr : fst (fst r) = false
                 /\ mecab.getMeCabTagger (Analyzer.mecab_manager_ a') = None).
    { subst a' r. rewrite analyzer_initialize_value. cbv zeta.
      rewrite Hok. cbn [negb fst snd Analyzer.mecab_manager_].
      split; [reflexivity | exact Hfield]. }
    destruct Hr as [Hfalse Hnull].
    assert (Hnot : Analyzer.isInitialized a' = false).
    { unfold Analyzer.isInitialized. now rewrite Hnull. }
    split; [exact Hfalse | split; [exact Hnot |]].
    intros text q. apply analyzeText_without_tagger. now rewrite Hnull.
Qed.

(** The flag and the handle of the secondary engine never change. *)
Lemma reachable_cabocha (m : mecab.MeCabManager) :
  mecab.reachable m ->
  mecab.cabocha_parser_ m = None /\ mecab.cabocha_available_ m = false.
Proof.
  induction 1 as [enableCaboCha p | W m d c p Hm [IHparser IHflag]].
  - unfold mecab.MeCabManager_new. rewrite bind_fst. now split.
  - rewrite initialize_value_correct.
    destruct (initialize_value_fields W m d c) as (_ & _ & _ & Hparser & Hflag).
    cbv zeta in Hparser, Hflag.
    rewrite Hparser, Hflag, IHparser, IHflag.
    split; [reflexivity|].
    now destruct (non_null (mecab.primary_tagger_of W (mecab.mecab_args_of W d))).
Qed.

Lemma analyzeDependencies_unavailable (MOZUKU_ENABLE_CABOCHA : bool)
    (a : Analyzer.Analyzer) (text : bytes) (p : Process) :
  Analyzer.isCaboChaAvailable a = false ->
  fst (Analyzer.analyzeDependencies MOZUKU_ENABLE_CABOCHA a text p) = [].
Proof.
  unfold Analyzer.isCaboChaAvailable, Analyzer.analyzeDependencies.
  intros ->. destruct MOZUKU_ENABLE_CABOCHA; [|reflexivity].
  cbn [negb]. now rewrite bind_fst.
Qed.

(** C6.  On every manager a program can hold -- constructed, then
    initialized any number of times, in whatever worlds -- the handle
    [cabocha_parser_] is null and the flag [cabocha_available_] is [false];
    [isCaboChaAvailable] returns [false]; and [analyzeDependencies] on an
    analyzer that owns such a manager returns the empty sequence, in either
    build, for every text. *)
Theorem cabocha_never_available (m : mecab.MeCabManager) :
  mecab.reachable m ->
  mecab.cabocha_parser_ m = None
  /\ mecab.cabocha_available_ m = false
  /\ mecab.isCaboChaAvailable m = false
  /\ forall (MOZUKU_ENABLE_CABOCHA : bool) (a : Analyzer.Analyzer)
            (text : bytes) (p : Process),
       Analyzer.mecab_manager_ a = m ->
       Analyzer.isCaboChaAvailable a = false
       /\ fst (Analyzer.analyzeDependencies MOZUKU_ENABLE_CABOCHA a text p) = [].
Proof.
  intros Hm. destruct (reachable_cabocha m Hm) as [Hparser Hflag].
  split; [exact Hparser | split; [exact Hflag | split; [exact Hflag |]]].
  intros flag a text p Ha.
  assert (Hoff : Analyzer.isCaboChaAvailable a = false).
  { unfold Analyzer.isCaboChaAvailable, mecab.isCaboChaAvailable.
    now rewrite Ha. }
  split; [exact Hoff | now apply analyzeDependencies_unavailable].
Qed.

End EngineFailure.

(** ** Dependency extraction *)

Lemma to_int_small (z : Z) : (0 <= z < 2 ^ 31)%Z -> Cxx.to_int z = z.
Proof.
  intros Hz. unfold Cxx.to_int.
  rewrite Z.mod_small; lia.
Qed.

Lemma StronglySorted_seq (start len : nat) :
  StronglySorted lt (seq start len).
Proof.
  revert start; induction len as [|len IH]; intros start; simpl;
    constructor; [apply IH|].
  apply Forall_forall. intros i Hi. apply in_seq in Hi. lia.
Qed.

Lemma StronglySorted_filter {A : Type} (R : A -> A -> Prop) (f : A -> bool)
    (l : list A) :
  StronglySorted R l -> StronglySorted R (filter f l).
Proof.
  induction 1 as [|x l Hl IH Hx]; simpl; [constructor|].
  destruct (f x); [|exact IH].
  constructor; [exact IH|].
  apply Forall_forall. intros y Hy. apply filter_In in Hy as [Hy _].
  rewrite Forall_forall in Hx. now apply Hx.
Qed.

Lemma StronglySorted_map_of_nat (l : list nat) :
  StronglySorted lt l -> StronglySorted Z.lt (map Z.of_nat l).
Proof.
  induction 1 as [|x l Hl IH Hx]; simpl; constructor; [exact IH|].
  apply Forall_forall. intros z Hz. apply in_map_iff in Hz as (y & <- & Hy).
  rewrite Forall_forall in Hx. specialize (Hx y Hy). lia.
Qed.

Lemma StronglySorted_lt_NoDup (l : list Z) :
  StronglySorted Z.lt l -> NoDup l.
Proof.
  induction 1 as [|x l Hl IH Hx]; constructor; [|exact IH].
  intros Hin. rewrite Forall_forall in Hx. specialize (Hx x Hin). lia.
Qed.

Section Dependencies.

Context {C : Collaborators}.

(** The records of the outer loop over a run of indices: one for each index
    that holds a chunk, in the order of the indices. *)
Lemma chunk_records_over (tree : CaboCha.Tree) (charset : bytes)
    (indices : list nat) :
  flat_map (Analyzer.chunk_record tree charset) indices
  = flat_map (Analyzer.chunk_record tree charset)
      (filter (fun i => non_null (CaboCha.tree_chunk tree i)) indices).
Proof.
  induction indices as [|i indices IH]; simpl; [reflexivity|].
  unfold Analyzer.chunk_record at 1.
  destruct (CaboCha.tree_chunk tree i) as [chunk|] eqn:Hchunk; simpl.
  - unfold Analyzer.chunk_record at 2. rewrite Hchunk. simpl. now f_equal.
  - exact IH.
Qed.

Lemma chunk_records_ids (tree : CaboCha.Tree) (charset : bytes)
    (indices : list nat) :
  Forall (fun i => (Z.of_nat i < 2 ^ 31)%Z) indices ->
  map chunkId (flat_map (Analyzer.chunk_record tree charset) indices)
  = map Z.of_nat
      (filter (fun i => non_null (CaboCha.tree_chunk tree i)) indices).
Proof.
  induction 1 as [|i indices Hi Hindices IH]; simpl; [reflexivity|].
  unfold Analyzer.chunk_record at 1.
  destruct (CaboCha.tree_chunk tree i) as [chunk|]; simpl; [|exact IH].
  rewrite to_int_small by lia. now f_equal.
Qed.

Lemma analyzeDependencies_value (a : Analyzer.Analyzer) (text : bytes)
    (p : Process) (parser : CaboCha.Parser) (tree : CaboCha.Tree) :
  Analyzer.isCaboChaAvailable a = true ->
  mecab.getCaboChaParser (Analyzer.mecab_manager_ a) = Some parser ->
  CaboCha.sparse_totree parser
    (Str.c_str (utf8ToSystem (sanitizeUTF8 text) (Analyzer.system_charset_ a)))
  = Some tree ->
  fst (Analyzer.analyzeDependencies true a text p)
  = Analyzer.collect_chunks tree (Analyzer.system_charset_ a).
Proof.
  unfold Analyzer.isCaboChaAvailable, Analyzer.analyzeDependencies.
  intros -> Hparser Htree. cbn [negb].
  rewrite bind_fst. cbv zeta. rewrite Hparser, Htree.
  now rewrite bind_fst.
Qed.

(** C8.  [analyzeDependencies] returns the empty sequence when the
    capability flag of the secondary engine is off (and always in the build
    without the secondary engine).  In the build with it, when the flag is
    on, the parser is there and it produces a tree of at most 2^31 chunks,
    the result is the sequence of the records of the tree's chunks in the
    order of their indices, null chunks left out; the [chunkId] of a record
    is the index of its chunk; the [chunkId]s are strictly increasing and
    pairwise distinct; and they are 0, 1, 2, ... when no chunk is null. *)
Theorem analyzeDependencies_chunks (MOZUKU_ENABLE_CABOCHA : bool)
    (a : Analyzer.Analyzer) (text : bytes) (p : Process) :
  let deps := fst (Analyzer.analyzeDependencies MOZUKU_ENABLE_CABOCHA a text p) in
  (Analyzer.isCaboChaAvailable a = false \/ MOZUKU_ENABLE_CABOCHA = false ->
   deps = [])
  /\ forall (parser : CaboCha.Parser) (tree : CaboCha.Tree),
       MOZUKU_ENABLE_CABOCHA = true ->
       Analyzer.isCaboChaAvailable a = true ->
       mecab.getCaboChaParser (Analyzer.mecab_manager_ a) = Some parser ->
       CaboCha.sparse_totree parser
         (Str.c_str (utf8ToSystem (sanitizeUTF8 text)
                                  (Analyzer.system_charset_ a)))
       = Some tree ->
       (Z.of_nat (CaboCha.tree_chunk_size tree) <= 2 ^ 31)%Z ->
       let present :=
         filter (fun i => non_null (CaboCha.tree_chunk tree i))
                (seq 0 (CaboCha.tree_chunk_size tree)) in
       deps = flat_map (Analyzer.chunk_record tree (Analyzer.system_charset_ a))
                       present
       /\ map chunkId deps = map Z.of_nat present
       /\ StronglySorted Z.lt (map chunkId deps)
       /\ NoDup (map chunkId deps)
       /\ ((forall i, i < CaboCha.tree_chunk_size tree ->
                      CaboCha.tree_chunk tree i <> None) ->
           map chunkId deps
           = map Z.of_nat (seq 0 (CaboCha.tree_chunk_size tree))).
Proof.
  cbv zeta. split.
  - intros [Hoff | ->]; [now apply analyzeDependencies_unavailable|].
    reflexivity.
  - intros parser tree -> Hon Hparser Htree Hsize.
    rewrite (analyzeDependencies_value a text p parser tree Hon Hparser Htree).
    unfold Analyzer.collect_chunks.
    assert (Hids :
              map chunkId
                (flat_map
                   (Analyzer.chunk_record tree (Analyzer.system_charset_ a))
                   (seq 0 (CaboCha.tree_chunk_size tree)))
              = map Z.of_nat
                  (filter (fun i => non_null (CaboCha.tree_chunk tree i))
                          (seq 0 (CaboCha.tree_chunk_size tree)))).
    { apply chunk_records_ids. apply Forall_forall.
      intros i Hi. apply in_seq in Hi. lia. }
    assert (Hsorted :
              StronglySorted Z.lt
                (map Z.of_nat
                   (filter (fun i => non_null (CaboCha.tree_chunk tree i))
                           (seq 0 (CaboCha.tree_chunk_size tree))))).
    { apply StronglySorted_map_of_nat, StronglySorted_filter,
        StronglySorted_seq. }
    split; [apply chunk_records_over|].
    rewrite Hids.
    split; [reflexivity|].
    split; [exact Hsorted|].
    split; [now apply StronglySorted_lt_NoDup|].
    intros Hall. f_equal.
    apply forallb_filter_id. apply forallb_forall.
    intros i Hi. apply in_seq in Hi.
    destruct (CaboCha.tree_chunk tree i) eqn:Hchunk; [reflexivity|].
    exfalso. apply (Hall i); [lia | exact Hchunk].
Qed.

End Dependencies.

(** ** The column scan of [computeByteOffset] *)

Lemma seqLen_of_positive (c : N) : 1 <= seqLen_of c <= 4.
Proof.
  unfold seqLen_of.
  destruct (0xF0 <=? c)%N; [lia|].
  destruct (0xE0 <=? c)%N; [lia|].
  destruct (0xC0 <=? c)%N; lia.
Qed.

(** The loop has left by itself before [fuel] is used up: with
    [text.size() - bytePos] turns or more, the result is the same. *)
Lemma column_loop_enough_fuel (text : bytes) (character : Z)
    (fuel fuel' bytePos : nat) (utf16Pos : Z) :
  Str.size text - bytePos <= fuel -> fuel <= fuel' ->
  column_loop text character fuel bytePos utf16Pos
  = column_loop text character fuel' bytePos utf16Pos.
Proof.
  revert fuel' bytePos utf16Pos.
  induction fuel as [|fuel IH]; intros fuel' bytePos utf16Pos Hleft Hle.
  - assert (Hnone : nth_error text bytePos = None).
    { apply nth_error_None. unfold Str.size in Hleft. lia. }
    destruct fuel'; simpl; [reflexivity | now rewrite Hnone].
  - destruct fuel' as [|fuel']; [lia|]. simpl.
    destruct (nth_error text bytePos) as [b|]; [|reflexivity].
    destruct ((utf16Pos <? character)%Z && negb (Byte.eqb b x0a));
      [|reflexivity].
    pose proof (seqLen_of_positive (Byte.to_N b)).
    apply IH; lia.
Qed.

Lemma column_loop_in_int_range (text : bytes) (character : Z)
    (fuel bytePos : nat) (utf16Pos : Z) :
  (0 <= utf16Pos <= Cxx.INT_MAX)%Z -> (character < Cxx.INT_MAX)%Z ->
  (0 <= snd (column_loop text character fuel bytePos utf16Pos)
   <= Cxx.INT_MAX)%Z.
Proof.
  revert bytePos utf16Pos.
  induction fuel as [|fuel IH]; intros bytePos utf16Pos Hu Hc; simpl;
    [exact Hu|].
  destruct (nth_error text bytePos) as [b|]; [|exact Hu].
  destruct (Z.ltb_spec utf16Pos character) as [Hlt|Hge]; [|exact Hu].
  destruct (negb (Byte.eqb b x0a)); [|exact Hu].
  cbn [andb]. apply IH; [|exact Hc].
  unfold utf16_step. destruct (seqLen_of (Byte.to_N b) =? 4); lia.
Qed.

Lemma to_N_byte_of (n : N) : (n < 256)%N -> Byte.to_N (Utf8.byte_of n) = n.
Proof.
  intros Hn. unfold Utf8.byte_of.
  destruct (Byte.of_N n) as [b|] eqn:Hb.
  - now apply Byte.to_of_N.
  - apply Byte.of_N_None_iff in Hb. lia.
Qed.

Lemma byte_of_not_line_feed (n : N) :
  (n < 256)%N -> n <> 10%N -> Byte.eqb (Utf8.byte_of n) x0a = false.
Proof.
  intros Hn Hne.
  destruct (Byte.eqb (Utf8.byte_of n) x0a) eqn:E; [|reflexivity].
  apply Byte.byte_dec_bl in E.
  apply (f_equal Byte.to_N) in E. rewrite to_N_byte_of in E by exact Hn.
  now subst n.
Qed.

Lemma seqLen_of_lead (c : N) :
  ((c < 0x80)%N -> seqLen_of c = 1)
  /\ ((0xC0 <= c < 0xE0)%N -> seqLen_of c = 2)
  /\ ((0xE0 <= c < 0xF0)%N -> seqLen_of c = 3)
  /\ ((0xF0 <= c)%N -> seqLen_of c = 4).
Proof.
  unfold seqLen_of.
  destruct (N.leb_spec 0xF0 c); [repeat split; intros; lia || reflexivity|].
  destruct (N.leb_spec 0xE0 c); [repeat split; intros; lia || reflexivity|].
  destruct (N.leb_spec 0xC0 c); repeat split; intros; lia || reflexivity.
Qed.

(** The lead byte of the sequence of a code point tells the length of the
    sequence to the scan, and is a line feed for the line feed only. *)
Lemma encode_lead (cp : N) :
  (cp < 0x110000)%N ->
  exists lead tail,
    Utf8.encode cp = lead :: tail
    /\ seqLen_of (Byte.to_N lead) = length (Utf8.encode cp)
    /\ (cp <> Utf8.line_feed -> Byte.eqb lead x0a = false).
Proof.
  intros Hcp. unfold Utf8.encode, Utf8.line_feed.
  destruct (cp <? 0x80)%N eqn:H1; [apply N.ltb_lt in H1 | apply N.ltb_ge in H1].
  { eexists _, _. split; [reflexivity|].
    rewrite to_N_byte_of by lia. split.
    - now apply seqLen_of_lead.
    - intros Hne. apply byte_of_not_line_feed; [lia | exact Hne]. }
  destruct (cp <? 0x800)%N eqn:H2; [apply N.ltb_lt in H2 | apply N.ltb_ge in H2].
  { assert (Hq : (cp / 0x40 < 0x20)%N)
      by (apply N.Div0.div_lt_upper_bound; lia).
    set (q := (cp / 0x40)%N) in *. clearbody q.
    eexists _, _. split; [reflexivity|].
    rewrite to_N_byte_of by lia. split.
    - apply seqLen_of_lead. lia.
    - intros _. apply byte_of_not_line_feed; lia. }
  destruct (cp <? 0x10000)%N eqn:H3;
    [apply N.ltb_lt in H3 | apply N.ltb_ge in H3].
  { assert (Hq : (cp / 0x1000 < 0x10)%N)
      by (apply N.Div0.div_lt_upper_bound; lia).
    set (q := (cp / 0x1000)%N) in *. clearbody q.
    eexists _, _. split; [reflexivity|].
    rewrite to_N_byte_of by lia. split.
    - apply seqLen_of_lead. lia.
    - intros _. apply byte_of_not_line_feed; lia. }
  assert (Hq : (cp / 0x40000 < 0x10)%N)
    by (apply N.Div0.div_lt_upper_bound; lia).
  set (q := (cp / 0x40000)%N) in *. clearbody q.
  eexists _, _. split; [reflexivity|].
  rewrite to_N_byte_of by lia. split.
  - apply seqLen_of_lead. lia.
  - intros _. apply byte_of_not_line_feed; lia.
Qed.

Lemma units_positive (cp : N) : (1 <= Utf8.units cp <= 2)%Z.
Proof. unfold Utf8.units. destruct (length (Utf8.encode cp) =? 4); lia. Qed.

Lemma units_all_nonneg (cps : list N) : (0 <= Utf8.units_all cps)%Z.
Proof.
  induction cps as [|cp cps IH]; simpl; [lia|].
  pose proof (units_positive cp). lia.
Qed.

Lemma encode_all_length (cps : list N) :
  Forall Utf8.valid_codepoint cps ->
  length cps <= length (Utf8.encode_all cps).
Proof.
  unfold Utf8.encode_all.
  induction 1 as [|cp cps [Hcp _] Hcps IH]; simpl; [lia|].
  rewrite length_app.
  destruct (encode_lead cp Hcp) as (lead & tail & -> & _). simpl. lia.
Qed.

(** The scan over the sequences of code points, from any state of the
    loop. *)
Lemma column_loop_over_codepoints (done : list N) :
  Forall Utf8.valid_codepoint done ->
  ~ In Utf8.line_feed done ->
  forall (pre rest : bytes) (utf16Pos : Z) (fuel : nat),
    length done <= fuel ->
    column_loop (pre ++ Utf8.encode_all done ++ rest)
                (utf16Pos + Utf8.units_all done) fuel (length pre) utf16Pos
    = (length pre + length (Utf8.encode_all done),
       (utf16Pos + Utf8.units_all done)%Z).
Proof.
  induction 1 as [|cp done [Hcp _] Hdone IH]; intros Hlf pre rest u fuel Hfuel.
  - cbn [Utf8.units_all fold_right Utf8.encode_all map concat length].
    rewrite Z.add_0_r, Nat.add_0_r.
    destruct fuel; simpl; [reflexivity|].
    destruct (nth_error _ _); [|reflexivity].
    now rewrite Z.ltb_irrefl.
  - destruct fuel as [|fuel]; [simpl in Hfuel; lia|].
    destruct (encode_lead cp Hcp) as (lead & tail & Hencode & Hlen & Hnl).
    assert (Hcp_lf : cp <> Utf8.line_feed) by (intros ->; apply Hlf; now left).
    assert (Hrest_lf : ~ In Utf8.line_feed done)
      by (intros Hin; apply Hlf; now right).
    assert (Htext : pre ++ Utf8.encode_all (cp :: done) ++ rest
                    = (pre ++ Utf8.encode cp) ++ Utf8.encode_all done ++ rest).
    { unfold Utf8.encode_all. simpl. now rewrite <- !app_assoc. }
    assert (Hnth : nth_error (pre ++ Utf8.encode_all (cp :: done) ++ rest)
                             (length pre) = Some lead).
    { rewrite nth_error_app2 by lia. rewrite Nat.sub_diag.
      unfold Utf8.encode_all. simpl. rewrite Hencode. reflexivity. }
    cbn [column_loop]. rewrite Hnth.
    pose proof (units_positive cp) as Hu.
    pose proof (units_all_nonneg done) as Hs.
    cbn [Utf8.units_all fold_right]. fold (Utf8.units_all done).
    replace (u <? u + (Utf8.units cp + Utf8.units_all done))%Z with true
      by (symmetry; apply Z.ltb_lt; lia).
    rewrite (Hnl Hcp_lf). cbn [andb negb].
    rewrite Hlen, Htext.
    replace (utf16_step (length (Utf8.encode cp))) with (Utf8.units cp)
      by reflexivity.
    replace (length pre + length (Utf8.encode cp))
      with (length (pre ++ Utf8.encode cp)) by apply length_app.
    replace (u + (Utf8.units cp + Utf8.units_all done))%Z
      with ((u + Utf8.units cp) + Utf8.units_all done)%Z by lia.
    rewrite (IH Hrest_lf (pre ++ Utf8.encode cp) rest (u + Utf8.units cp)%Z fuel)
      by (simpl in Hfuel; lia).
    f_equal. unfold Utf8.encode_all. simpl. rewrite !length_app. lia.
Qed.

(** The scan in front of a line feed: it stops there, whatever the column
    asked for, and has counted nothing. *)
Lemma column_loop_at_line_feed (pre rest : bytes) (character utf16Pos : Z)
    (fuel : nat) :
  column_loop (pre ++ Utf8.encode Utf8.line_feed ++ rest) character fuel
              (length pre) utf16Pos
  = (length pre, utf16Pos).
Proof.
  destruct fuel as [|fuel]; [reflexivity|].
  cbn [column_loop].
  rewrite nth_error_app2, Nat.sub_diag by lia.
  change (Utf8.encode Utf8.line_feed) with [x0a]. cbn [app nth_error].
  change (Byte.eqb x0a x0a) with true. cbn [negb].
  now rewrite andb_false_r.
Qed.

(** One turn of the loop on the lead byte of the sequence of a code point
    that is not the line feed. *)
Lemma column_loop_turn (pre rest : bytes) (cp : N) (character utf16Pos : Z)
    (fuel : nat) :
  (cp < 0x110000)%N ->
  cp <> Utf8.line_feed ->
  (utf16Pos < character)%Z ->
  column_loop (pre ++ Utf8.encode cp ++ rest) character (S fuel) (length pre)
              utf16Pos
  = column_loop (pre ++ Utf8.encode cp ++ rest) character fuel
                (length pre + length (Utf8.encode cp))
                (utf16Pos + Utf8.units cp).
Proof.
  intros Hcp Hlf Hcolumn.
  destruct (encode_lead cp Hcp) as (lead & tail & Hencode & Hlen & Hnl).
  cbn [column_loop].
  rewrite nth_error_app2, Nat.sub_diag by lia.
  rewrite Hencode at 1. cbn [app nth_error].
  replace (utf16Pos <? character)%Z with true
    by (symmetry; apply Z.ltb_lt; exact Hcolumn).
  rewrite (Hnl Hlf). cbn [andb negb]. rewrite Hlen. reflexivity.
Qed.

(** The length function as the specification has it, on the bytes of the
    sequences. *)
Lemma utf8ToUtf16Length_app (s t : bytes) :
  Reference.utf8ToUtf16Length (s ++ t)
  = (Reference.utf8ToUtf16Length s + Reference.utf8ToUtf16Length t)%Z.
Proof.
  induction s as [|b s IH]; [reflexivity|].
  cbn [app Reference.utf8ToUtf16Length]. rewrite IH. lia.
Qed.

Lemma utf8ToUtf16Length_cons (n : N) (s : bytes) :
  (n < 256)%N ->
  Reference.utf8ToUtf16Length (Utf8.byte_of n :: s)
  = ((if (0xF0 <=? n)%N then 2
      else if (0x80 <=? n)%N && (n <? 0xC0)%N then 0
      else 1) + Reference.utf8ToUtf16Length s)%Z.
Proof.
  intros Hn. cbn [Reference.utf8ToUtf16Length].
  now rewrite to_N_byte_of by exact Hn.
Qed.

Lemma utf8ToUtf16Length_continuation (r : N) (s : bytes) :
  (r < 0x40)%N ->
  Reference.utf8ToUtf16Length (Utf8.byte_of (0x80 + r) :: s)
  = Reference.utf8ToUtf16Length s.
Proof.
  intros Hr. rewrite utf8ToUtf16Length_cons by lia.
  replace (0xF0 <=? 0x80 + r)%N with false by (symmetry; apply N.leb_gt; lia).
  replace (0x80 <=? 0x80 + r)%N with true by (symmetry; apply N.leb_le; lia).
  replace (0x80 + r <? 0xC0)%N with true by (symmetry; apply N.ltb_lt; lia).
  reflexivity.
Qed.

Lemma utf8ToUtf16Length_lead (n : N) (s : bytes) :
  (n < 256)%N ->
  (n < 0x80 \/ 0xC0 <= n)%N ->
  Reference.utf8ToUtf16Length (Utf8.byte_of n :: s)
  = ((if (0xF0 <=? n)%N then 2 else 1) + Reference.utf8ToUtf16Length s)%Z.
Proof.
  intros Hn Hlead. rewrite utf8ToUtf16Length_cons by exact Hn.
  destruct (0xF0 <=? n)%N; [reflexivity|].
  replace ((0x80 <=? n)%N && (n <? 0xC0)%N) with false; [reflexivity|].
  symmetry. apply andb_false_iff.
  destruct Hlead as [Hlow | Hhigh];
    [left; apply N.leb_gt; lia | right; apply N.ltb_ge; lia].
Qed.

Lemma utf8ToUtf16Length_encode (cp : N) :
  (cp < 0x110000)%N ->
  Reference.utf8ToUtf16Length (Utf8.encode cp) = Utf8.units cp.
Proof.
  intros Hcp. unfold Utf8.units, Utf8.encode.
  assert (Hmod : forall x : N, (x mod 0x40 < 0x40)%N)
    by (intros x; apply N.mod_lt; discriminate).
  destruct (cp <? 0x80)%N eqn:H1; [apply N.ltb_lt in H1 | apply N.ltb_ge in H1].
  { rewrite utf8ToUtf16Length_lead by lia.
    replace (0xF0 <=? cp)%N with false by (symmetry; apply N.leb_gt; lia).
    reflexivity. }
  destruct (cp <? 0x800)%N eqn:H2; [apply N.ltb_lt in H2 | apply N.ltb_ge in H2].
  { assert (Hq : (cp / 0x40 < 0x20)%N)
      by (apply N.Div0.div_lt_upper_bound; lia).
    set (q := (cp / 0x40)%N) in *. clearbody q.
    rewrite utf8ToUtf16Length_lead by lia.
    rewrite utf8ToUtf16Length_continuation by apply Hmod.
    replace (0xF0 <=? 0xC0 + q)%N with false by (symmetry; apply N.leb_gt; lia).
    reflexivity. }
  destruct (cp <? 0x10000)%N eqn:H3;
    [apply N.ltb_lt in H3 | apply N.ltb_ge in H3].
  { assert (Hq : (cp / 0x1000 < 0x10)%N)
      by (apply N.Div0.div_lt_upper_bound; lia).
    set (q := (cp / 0x1000)%N) in *. clearbody q.
    rewrite utf8ToUtf16Length_lead by lia.
    rewrite !utf8ToUtf16Length_continuation by apply Hmod.
    replace (0xF0 <=? 0xE0 + q)%N with false by (symmetry; apply N.leb_gt; lia).
    reflexivity. }
  assert (Hq : (cp / 0x40000 < 0x10)%N)
    by (apply N.Div0.div_lt_upper_bound; lia).
  set (q := (cp / 0x40000)%N) in *. clearbody q.
  rewrite utf8ToUtf16Length_lead by lia.
  rewrite !utf8ToUtf16Length_continuation by apply Hmod.
  replace (0xF0 <=? 0xF0 + q)%N with true by (symmetry; apply N.leb_le; lia).
  reflexivity.
Qed.

Section ColumnScan.

Context {C : Collaborators}.

(** C7.  The conversion between UTF-8 bytes and UTF-16 columns that the two
    files hold is the scan of [computeByteOffset].  On the lead byte of the
    sequence of a valid code point other than the line feed, a turn of the
    scan skips the whole sequence and adds to [utf16Pos] exactly 2 when the
    sequence has 4 bytes and exactly 1 when it has 1, 2 or 3.  Hence, on a
    line that holds the sequences of such code points, followed by anything,
    [computeByteOffset] asked for the column that is the sum of these
    contributions answers the offset right behind the last sequence, the
    scan having counted exactly that sum.  The line feed U+000A is the one
    valid code point that contributes nothing: the scan stops in front of
    it for every column.  The length function of the specification, which
    knows no lines, grants every valid code point the same units, the line
    feed included. *)
Theorem computeByteOffset_counts_units :
  (forall (pre rest : bytes) (cp : N) (character utf16Pos : Z) (fuel : nat),
      Utf8.valid_codepoint cp ->
      cp <> Utf8.line_feed ->
      (utf16Pos < character)%Z ->
      column_loop (pre ++ Utf8.encode cp ++ rest) character (S fuel)
                  (length pre) utf16Pos
      = column_loop (pre ++ Utf8.encode cp ++ rest) character fuel
                    (length pre + length (Utf8.encode cp))
                    (utf16Pos + Utf8.units cp)
      /\ (length (Utf8.encode cp) = 4 -> Utf8.units cp = 2%Z)
      /\ (length (Utf8.encode cp) <> 4 ->
          Utf8.units cp = 1%Z /\ 1 <= length (Utf8.encode cp) <= 3))
  /\ (forall (pre rest : bytes) (done : list N) (line : Z),
         let text := pre ++ Utf8.encode_all done ++ rest in
         Forall Utf8.valid_codepoint done ->
         ~ In Utf8.line_feed done ->
         (0 <= line
          < Cxx.to_int (Z.of_nat (length (computeLineStarts text))))%Z ->
         nth_error (computeLineStarts text) (Z.to_nat line)
         = Some (length pre) ->
         column_scan text (Utf8.units_all done) (length pre)
         = (length pre + length (Utf8.encode_all done), Utf8.units_all done)
         /\ computeByteOffset text line (Utf8.units_all done)
            = Some (length pre + length (Utf8.encode_all done)))
  /\ (forall (pre rest : bytes) (line character : Z),
         let text := pre ++ Utf8.encode Utf8.line_feed ++ rest in
         (0 <= line
          < Cxx.to_int (Z.of_nat (length (computeLineStarts text))))%Z ->
         nth_error (computeLineStarts text) (Z.to_nat line)
         = Some (length pre) ->
         column_scan text character (length pre) = (length pre, 0%Z)
         /\ computeByteOffset text line character = Some (length pre))
  /\ (forall cps : list N,
         Forall Utf8.valid_codepoint cps ->
         Reference.utf8ToUtf16Length (Utf8.encode_all cps)
         = Utf8.units_all cps).
Proof.
  split; [|split; [|split]].
  - intros pre rest cp character utf16Pos fuel [Hcp _] Hlf Hcolumn.
    split; [now apply column_loop_turn|].
    destruct (encode_lead cp Hcp) as (lead & tail & _ & Hlen & _).
    pose proof (seqLen_of_positive (Byte.to_N lead)) as Hrange.
    rewrite Hlen in Hrange. unfold Utf8.units. split.
    + intros ->. reflexivity.
    + intros Hne. apply Nat.eqb_neq in Hne. rewrite Hne.
      apply Nat.eqb_neq in Hne. split; [reflexivity | lia].
  - intros pre rest done line text Hvalid Hlf Hline Hstart.
    assert (Hscan : column_scan text (Utf8.units_all done) (length pre)
                    = (length pre + length (Utf8.encode_all done),
                       Utf8.units_all done)).
    { unfold column_scan, text.
      pose proof (column_loop_over_codepoints done Hvalid Hlf pre rest 0%Z
                    (Str.size (pre ++ Utf8.encode_all done ++ rest))) as Hrun.
      rewrite !Z.add_0_l in Hrun. apply Hrun.
      unfold Str.size. rewrite !length_app.
      pose proof (encode_all_length done Hvalid). lia. }
    split; [exact Hscan|].
    unfold computeByteOffset. cbv zeta. fold text.
    replace (_ <=? line)%Z with false by (symmetry; apply Z.leb_gt; lia).
    replace (line <? 0)%Z with false by (symmetry; apply Z.ltb_ge; lia).
    now rewrite Hstart, Hscan.
  - intros pre rest line character text Hline Hstart.
    assert (Hscan : column_scan text character (length pre)
                    = (length pre, 0%Z))
      by (unfold column_scan, text; apply column_loop_at_line_feed).
    split; [exact Hscan|].
    unfold computeByteOffset. cbv zeta. fold text.
    replace (_ <=? line)%Z with false by (symmetry; apply Z.leb_gt; lia).
    replace (line <? 0)%Z with false by (symmetry; apply Z.ltb_ge; lia).
    now rewrite Hstart, Hscan.
  - induction 1 as [|cp cps [Hcp _] _ IH]; [reflexivity|].
    unfold Utf8.encode_all in *. cbn [map concat Utf8.units_all fold_right].
    fold (Utf8.units_all cps).
    now rewrite utf8ToUtf16Length_app, utf8ToUtf16Length_encode, IH.
Qed.

End ColumnScan.

(** ** The pipeline on concrete inputs *)

(** The scenario of the specification: a two-character word that the engine
    returns as one morpheme gives one token on line 0, columns 0 to 2. *)
Example analyzeText_two_character_word :
  map (fun t => (Analyzer.surface t, Analyzer.line t, Analyzer.startChar t,
                 Analyzer.endChar t))
      (fst (Analyzer.analyzeText (C := Reference.collaborators)
              (Reference.ready
                 [MeCab.mkNode MeCab.MECAB_NOR_NODE mecab.testUtf8 None])
              mecab.testUtf8 (Reference.process0 true)))
  = [(mecab.testUtf8, 0%Z, 0%Z, 2%Z)].
Proof. vm_compute. reflexivity. Qed.

Example analyzeText_skips_to_each_word :
  map fst
      (fst (Analyzer.analyzeText_matches (C := Reference.collaborators)
              (Reference.ready [Reference.word "ab"; Reference.word "cd";
                                Reference.word "ab"])
              (Str.lit "ab cd ab") (Reference.process0 false)))
  = [0; 3; 6].
Proof. vm_compute. reflexivity. Qed.

Lemma realign_failure_degrades_to_end_witness :
  Analyzer.realign (Str.lit "ab") (Str.lit "x") 0 = 2.
Proof.
  refine (proj1 (@realign_failure_degrades_to_end Reference.collaborators
                   (Str.lit "ab") [0] UTF_8 (Reference.word "x") [] 0 _ _ _ _)).
  - reflexivity.
  - discriminate.
  - simpl. lia.
  - intros pos _ [Hlen Heq].
    destruct pos as [|[|pos]]; simpl in Hlen, Heq; try discriminate Heq; lia.
Defined.

(** C2 as stated fails once the cursor is past the end of the text.  The
    text is the two bytes of U+00E9; the working charset cannot represent
    them, the engine sees two question marks and returns each as a morpheme.
    The first is not found: it is pushed at the end of the text, offset 2,
    and the cursor moves on to 3.  The second does not occur at or after 3,
    and the scan leaves the cursor at 3, which is not the end of the text. *)
Lemma realign_past_end_counterexample :
  map fst
      (fst (Analyzer.analyzeText_matches (C := Reference.lossy_collaborators)
              (Reference.ready_with Reference.bytewise_tagger)
              [xc3; xa9] (Reference.process0 false)))
  = [2; 3]
  /\ (forall pos, 3 <= pos ->
                  ~ Analyzer.occurs_at [xc3; xa9] [x3f] pos)
  /\ Analyzer.realign [xc3; xa9] [x3f] 3 = 3
  /\ 3 <> Str.size [xc3; xa9].
Proof.
  split; [vm_compute; reflexivity|].
  split; [|split; [reflexivity | discriminate]].
  intros pos Hpos [Hlen _]. simpl in Hlen. lia.
Qed.

Lemma analyzeText_empty_or_not_ready_witness :
  fst (Analyzer.analyzeText (C := Reference.collaborators) Reference.fresh
         (Str.lit "abc") (Reference.process0 true)) = [].
Proof.
  apply (@analyzeText_empty_or_not_ready Reference.collaborators).
  right; left. reflexivity.
Defined.

Example scan_dicrc_trims_the_value :
  mecab.scan_dicrc [Str.lit "; ipadic"; Str.lit "cost-factor = 800";
                    Str.lit "config-charset =  EUC-JP " ++ [x09]]
  = Some (Str.lit "EUC-JP").
Proof. vm_compute. reflexivity. Qed.

Example detectSystemMeCab_reads_the_dictionary :
  fst (mecab.detectSystemMeCab Reference.eucjp_world (Reference.process0 true))
  = mecab.mkSystemLibInfo true (Str.lit "/usr/lib/mecab/dic")
                          (Str.lit "EUC-JP").
Proof. vm_compute. reflexivity. Qed.

Example debug_lines_of_a_failed_initialize :
  cerr (snd (mecab.initialize Reference.no_engine
               (fst (mecab.MeCabManager_new true (Reference.process0 false)))
               [] UTF_8 (Reference.process0 false)))
  = []
  /\ length (cerr (snd (mecab.initialize Reference.no_engine
                          (fst (mecab.MeCabManager_new true
                                  (Reference.process0 true)))
                          [] UTF_8 (Reference.process0 true))))
     = 5.
Proof. split; vm_compute; reflexivity. Qed.

Example probe_accepts_an_echo :
  fst (mecab.testMeCabCharset (Some Reference.echo_tagger) (Str.lit "EUC-JP")
         (Reference.process0 true)) = UTF_8.
Proof. vm_compute. reflexivity. Qed.

Example probe_keeps_declared_charset :
  fst (mecab.testMeCabCharset (Some (Reference.tagger_of [Reference.word "x"]))
         (Str.lit "EUC-JP") (Reference.process0 true)) = Str.lit "EUC-JP".
Proof. vm_compute. reflexivity. Qed.

Lemma charset_probe_overrides_iff_witness :
  fst (mecab.testMeCabCharset (Some Reference.echo_tagger) (Str.lit "EUC-JP")
         (Reference.process0 false)) = UTF_8
  <-> mecab.probe_accepts
        (MeCab.parseToNode Reference.echo_tagger mecab.testUtf8).
Proof.
  refine (proj1 (proj2 (charset_probe_overrides_iff Reference.no_engine
                          Reference.echo_tagger (Str.lit "EUC-JP")
                          (Reference.process0 false) _))).
  discriminate.
Defined.

(** C4 as stated fails through [Analyzer::initialize].  The configuration
    supplies no charset and no dictionary; discovery finds a dictionary whose
    [dicrc] declares EUC-JP, and the probe does not override it, so that the
    discovered charset is "EUC-JP"; initialization succeeds, and the working
    charset is "UTF-8". *)
Lemma discovered_charset_unused_counterexample :
  mecab_charset Reference.config0 = []
  /\ mecab.charset
       (fst (mecab.detectSystemMeCab Reference.eucjp_world
               (Reference.process0 false))) = Str.lit "EUC-JP"
  /\ fst (Reference.initialized_in Reference.eucjp_world Reference.config0)
     = true
  /\ Analyzer.getSystemCharset
       (snd (Reference.initialized_in Reference.eucjp_world Reference.config0))
     = UTF_8
  /\ UTF_8 <> Str.lit "EUC-JP".
Proof.
  split; [reflexivity|].
  split; [vm_compute; reflexivity|].
  split; [vm_compute; reflexivity|].
  split; [vm_compute; reflexivity | discriminate].
Qed.

Lemma charset_resolution_priority_witness :
  mecab.resolve_charset []
    (fst (mecab.detectSystemMeCab Reference.eucjp_world
            (Reference.process0 false)))
  = Str.lit "EUC-JP"
  /\ mecab.getSystemCharset
       (Analyzer.mecab_manager_
          (snd (fst (Analyzer.initialize Reference.eucjp_world Reference.fresh
                       Reference.config0 (Reference.process0 false)))))
     = UTF_8.
Proof.
  destruct (charset_resolution_priority Reference.eucjp_world
              (fst (mecab.MeCabManager_new true (Reference.process0 false)))
              [] [] Reference.fresh Reference.config0
              (Reference.process0 false))
    as (_ & Hdiscovered & _ & _ & Hnone & _).
  split.
  - apply Hdiscovered; [reflexivity|].
    vm_compute. discriminate.
  - apply Hnone. reflexivity.
Defined.

Lemma initialize_retries_once_then_fails_witness :
  primary_calls
    (snd (Analyzer.initialize Reference.no_engine Reference.fresh
            Reference.config_with_dictionary (Reference.process0 false)))
  = [Str.lit "-d /nonexistent/dic"; []]
  /\ fst (fst (Analyzer.initialize Reference.no_engine Reference.fresh
                 Reference.config_with_dictionary (Reference.process0 false)))
     = false
  /\ fst (Analyzer.analyzeText (C := Reference.collaborators)
            (snd (fst (Analyzer.initialize Reference.no_engine Reference.fresh
                         Reference.config_with_dictionary
                         (Reference.process0 false))))
            (Str.lit "abc") (Reference.process0 true))
     = [].
Proof.
  destruct (@initialize_retries_once_then_fails Reference.collaborators
              Reference.no_engine Reference.fresh
              Reference.config_with_dictionary (Reference.process0 false)
              eq_refl) as [Hcalls Hfail].
  destruct (Hfail eq_refl) as (Hfalse & _ & Hnone).
  split; [exact Hcalls | split; [exact Hfalse | apply Hnone]].
Defined.

Lemma cabocha_never_available_witness :
  mecab.isCaboChaAvailable Reference.manager_after_initialize = false.
Proof.
  refine (proj1 (proj2 (proj2
            (@cabocha_never_available Reference.collaborators
               Reference.manager_after_initialize _)))).
  unfold Reference.manager_after_initialize.
  apply mecab.reachable_initialize, mecab.reachable_new.
Defined.

Example column_scan_stops_at_line_feed :
  computeByteOffset (C := Reference.collaborators)
    (Str.lit "ab" ++ [x0a] ++ mecab.testUtf8 ++ Str.lit "c" ++ [x0a]) 1 2
  = Some 9.
Proof. vm_compute. reflexivity. Qed.

Lemma computeByteOffset_counts_units_witness :
  column_scan
    (Str.lit "ab" ++ [x0a]
     ++ Utf8.encode_all [0x1F600%N; 0x8AA4%N; 0x41%N; 0xE9%N] ++ [x42; x0a])
    (Utf8.units_all [0x1F600%N; 0x8AA4%N; 0x41%N; 0xE9%N]) 3
  = (3 + length (Utf8.encode_all [0x1F600%N; 0x8AA4%N; 0x41%N; 0xE9%N]),
     Utf8.units_all [0x1F600%N; 0x8AA4%N; 0x41%N; 0xE9%N])
  /\ computeByteOffset (C := Reference.collaborators)
       (Str.lit "ab" ++ [x0a]
        ++ Utf8.encode_all [0x1F600%N; 0x8AA4%N; 0x41%N; 0xE9%N] ++ [x42; x0a])
       1 (Utf8.units_all [0x1F600%N; 0x8AA4%N; 0x41%N; 0xE9%N])
     = Some (3 + length (Utf8.encode_all [0x1F600%N; 0x8AA4%N; 0x41%N; 0xE9%N])).
Proof.
  apply (proj1 (proj2 (@computeByteOffset_counts_units Reference.collaborators))
           (Str.lit "ab" ++ [x0a]) [x42; x0a]
           [0x1F600%N; 0x8AA4%N; 0x41%N; 0xE9%N] 1%Z).
  - repeat constructor; unfold Utf8.valid_codepoint; lia.
  - unfold Utf8.line_feed. simpl. intros [H | [H | [H | [H | []]]]];
      discriminate H.
  - vm_compute. split; [discriminate | reflexivity].
  - reflexivity.
Defined.

Lemma line_feed_counts_nothing_counterexample :
  Utf8.valid_codepoint Utf8.line_feed
  /\ length (Utf8.encode Utf8.line_feed) = 1
  /\ Utf8.units Utf8.line_feed = 1%Z
  /\ column_scan (Utf8.encode_all [Utf8.line_feed; 0x41%N]) 1 0 = (0, 0%Z)
  /\ computeByteOffset (C := Reference.collaborators)
       (Utf8.encode_all [Utf8.line_feed; 0x41%N]) 0 1 = Some 0
  /\ ~ (forall (cp : N) (pre rest : bytes),
           Utf8.valid_codepoint cp ->
           column_scan (pre ++ Utf8.encode cp ++ rest) (Utf8.units cp)
                       (length pre)
           = (length pre + length (Utf8.encode cp), Utf8.units cp)).
Proof.
  split; [unfold Utf8.valid_codepoint, Utf8.line_feed; lia|].
  do 4 (split; [reflexivity|]).
  intros Hclaim.
  specialize (Hclaim Utf8.line_feed [] [x41]).
  discriminate Hclaim.
  unfold Utf8.valid_codepoint, Utf8.line_feed. lia.
Qed.

Example units_of_four_code_points :
  Utf8.units_all [0x1F600%N; 0x8AA4%N; 0x41%N; 0xE9%N] = 5%Z
  /\ map (fun cp => length (Utf8.encode cp)) [0x1F600%N; 0x8AA4%N; 0x41%N; 0xE9%N]
     = [4; 3; 1; 2].
Proof. split; vm_compute; reflexivity. Qed.

Example to_int_wraps : Cxx.to_int (2 ^ 31) = (- 2 ^ 31)%Z.
Proof. reflexivity. Qed.

Example analyzeDependencies_two_chunks :
  map (fun d => (chunkId d, headId d, dep_text d))
      (fst (Analyzer.analyzeDependencies (C := Reference.collaborators) true
              Reference.with_cabocha (Str.lit "abc") (Reference.process0 false)))
  = [(0%Z, 1%Z, Str.lit "ab"); (1%Z, (-1)%Z, Str.lit "c")].
Proof. vm_compute. reflexivity. Qed.

Lemma analyzeDependencies_chunks_witness :
  map chunkId
      (fst (Analyzer.analyzeDependencies (C := Reference.collaborators) true
              Reference.with_cabocha (Str.lit "abc") (Reference.process0 false)))
  = map Z.of_nat (seq 0 2).
Proof.
  destruct (@analyzeDependencies_chunks Reference.collaborators true
              Reference.with_cabocha (Str.lit "abc") (Reference.process0 false))
    as [_ Hchunks].
  destruct (Hchunks Reference.two_chunks_parser Reference.two_chunks
              eq_refl eq_refl eq_refl eq_refl)
    as (_ & _ & _ & _ & Hall).
  - simpl. lia.
  - apply Hall. intros i Hi. simpl in Hi.
    destruct i as [|[|i]]; simpl; [discriminate | discriminate | lia].
Defined.

(* ================================================================= *)
(** * Further properties of the two files *)

(** ** The realignment scan finds the first occurrence *)

Lemma realign_loop_skips_no_occurrence (cleanText surface : bytes)
    (todo cur : nat) :
  todo = Str.size cleanText - cur ->
  forall pos, cur <= pos ->
              pos < Analyzer.realign_loop cleanText surface todo cur ->
              ~ Analyzer.occurs_at cleanText surface pos.
Proof.
  revert cur; induction todo as [|todo IH]; intros cur Htodo pos Hge Hlt;
    simpl in Hlt.
  - lia.
  - destruct (Analyzer.matches_at cleanText surface cur) eqn:E; [lia|].
    destruct (Nat.eq_dec pos cur) as [->|Hne].
    + intros Hocc. apply matches_at_occurs_iff in Hocc; [congruence | lia].
    + apply (IH (S cur)); [lia | lia | exact Hlt].
Qed.

(** X1.  When the surface occurs in the text at a position at or after the
    cursor, the scan of lines 111-119 stops on the first such position: the
    result is an occurrence, it is at most the given one, and no position
    from the cursor up to it is an occurrence. *)
Theorem realign_first_occurrence (cleanText surface : bytes) (cur pos : nat) :
  cur <= pos ->
  Analyzer.occurs_at cleanText surface pos ->
  let stop := Analyzer.realign cleanText surface cur in
  cur <= stop <= pos
  /\ Analyzer.occurs_at cleanText surface stop
  /\ forall q, cur <= q -> q < stop -> ~ Analyzer.occurs_at cleanText surface q.
Proof.
  intros Hge Hocc stop.
  assert (Hskip : forall q, cur <= q -> q < stop ->
                            ~ Analyzer.occurs_at cleanText surface q).
  { intros q. apply realign_loop_skips_no_occurrence. reflexivity. }
  assert (Hle : stop <= pos).
  { destruct (Nat.le_gt_cases stop pos) as [H|H]; [exact H|].
    exfalso. exact (Hskip pos Hge H Hocc). }
  split; [split; [apply realign_ge | exact Hle]|].
  split; [|exact Hskip].
  destruct (realign_loop_stops cleanText surface
              (Str.size cleanText - cur) cur eq_refl) as [[_ H]|H];
    [exact H|].
  fold (Analyzer.realign cleanText surface cur) in H. fold stop in H.
  assert (Hpos : pos <= Str.size cleanText)
    by (destruct Hocc as [Hlen _]; lia).
  assert (stop = pos) by lia. now subst pos.
Qed.

Lemma realign_first_occurrence_witness :
  1 <= Analyzer.realign (Str.lit "abcabc") (Str.lit "ca") 1 <= 2
  /\ Analyzer.occurs_at (Str.lit "abcabc") (Str.lit "ca")
       (Analyzer.realign (Str.lit "abcabc") (Str.lit "ca") 1)
  /\ forall q, 1 <= q ->
               q < Analyzer.realign (Str.lit "abcabc") (Str.lit "ca") 1 ->
               ~ Analyzer.occurs_at (Str.lit "abcabc") (Str.lit "ca") q.
Proof.
  apply (realign_first_occurrence (Str.lit "abcabc") (Str.lit "ca") 1 2).
  - lia.
  - split; [simpl; lia | reflexivity].
Defined.

(** ** One token for each kept node, and exact offsets on a text the
    surfaces tile *)

Section Tiling.

Context {C : Collaborators}.

Lemma align_nodes_surfaces (cleanText : bytes) (lineStarts : list nat)
    (charset : bytes) (nodes : list MeCab.Node) (cur : nat) :
  map (fun m => Analyzer.surface (snd m))
      (Analyzer.align_nodes cleanText lineStarts charset nodes cur)
  = kept_surfaces charset nodes.
Proof.
  unfold kept_surfaces.
  revert cur; induction nodes as [|n nodes IH]; intros cur; simpl;
    [reflexivity|].
  destruct (MeCab.is_sentinel n); simpl; [apply IH|].
  destruct (Str.empty (systemToUtf8 (MeCab.surface n) charset)); simpl;
    [apply IH|].
  now rewrite make_token_surface, IH.
Qed.

Lemma kept_surfaces_length (charset : bytes) (nodes : list MeCab.Node) :
  length (kept_surfaces charset nodes) <= length nodes.
Proof.
  unfold kept_surfaces.
  etransitivity; [apply filter_length_le|].
  rewrite length_map. apply filter_length_le.
Qed.

(** X3.  On a ready analyzer and a text that is not empty, [analyzeText]
    returns exactly one token for each node of the parse that is no sentinel and
    whose decoded surface is not empty, in the order of the nodes and with
    that decoded surface; it never returns more tokens than the parse has
    nodes. *)
Theorem analyzeText_one_token_per_kept_node (a : Analyzer.Analyzer)
    (text : bytes) (p : Process) (tagger : MeCab.Tagger) :
  text <> [] ->
  mecab.getMeCabTagger (Analyzer.mecab_manager_ a) = Some tagger ->
  let nodes :=
    MeCab.parseToNode tagger
      (Str.c_str (utf8ToSystem (sanitizeUTF8 text) (Analyzer.system_charset_ a))) in
  let tokens := fst (Analyzer.analyzeText a text p) in
  map Analyzer.surface tokens = kept_surfaces (Analyzer.system_charset_ a) nodes
  /\ length tokens <= length nodes
  /\ Forall (fun t => Analyzer.surface t <> []) tokens.
Proof.
  intros Htext Htagger nodes tokens.
  assert (Hsurfaces : map Analyzer.surface tokens
                      = kept_surfaces (Analyzer.system_charset_ a) nodes).
  { subst tokens. rewrite analyzeText_value, analyzeText_matches_value.
    rewrite (Str_empty_false _ Htext), Htagger. cbv zeta.
    rewrite map_map. apply align_nodes_surfaces. }
  split; [exact Hsurfaces|]. split.
  - rewrite <- (length_map Analyzer.surface), Hsurfaces.
    apply kept_surfaces_length.
  - apply Forall_forall. intros t Ht.
    assert (Hin : In (Analyzer.surface t)
                     (kept_surfaces (Analyzer.system_charset_ a) nodes))
      by (rewrite <- Hsurfaces; now apply in_map).
    unfold kept_surfaces in Hin. apply filter_In in Hin as [_ Hne].
    destruct (Analyzer.surface t); [discriminate Hne | discriminate].
Qed.

Lemma realign_at_occurrence (pre surface rest : bytes) :
  surface <> [] ->
  Analyzer.realign (pre ++ surface ++ rest) surface (length pre) = length pre.
Proof.
  intros Hne. rewrite realign_unfold.
  assert (Hlt : length pre < Str.size (pre ++ surface ++ rest)).
  { unfold Str.size. rewrite !length_app.
    destruct surface; [congruence | simpl; lia]. }
  apply Nat.ltb_lt in Hlt. rewrite Hlt.
  assert (Hocc : Analyzer.occurs_at (pre ++ surface ++ rest) surface (length pre)).
  { unfold Analyzer.occurs_at, Str.substr, Str.size. split.
    - rewrite !length_app. lia.
    - rewrite skipn_app, skipn_all, Nat.sub_diag. simpl.
      rewrite firstn_app, firstn_all, Nat.sub_diag. simpl.
      apply app_nil_r. }
  apply matches_at_occurs_iff in Hocc; [now rewrite Hocc|].
  apply Nat.ltb_lt in Hlt. lia.
Qed.

Lemma align_nodes_tiled (lineStarts : list nat) (charset : bytes)
    (nodes : list MeCab.Node) (pre post : bytes) :
  map fst
      (Analyzer.align_nodes
         (pre ++ concat (kept_surfaces charset nodes) ++ post)
         lineStarts charset nodes (length pre))
  = laid_from (length pre) (kept_surfaces charset nodes).
Proof.
  revert pre; induction nodes as [|n nodes IH]; intros pre; [reflexivity|].
  unfold kept_surfaces in *. simpl.
  destruct (MeCab.is_sentinel n); simpl; [apply IH|].
  destruct (Str.empty (systemToUtf8 (MeCab.surface n) charset)) eqn:Hempty;
    simpl; [apply IH|].
  set (surface := systemToUtf8 (MeCab.surface n) charset) in *.
  set (others :=
         filter (fun s => negb (Str.empty s))
                (map (fun n => systemToUtf8 (MeCab.surface n) charset)
                     (filter (fun n => negb (MeCab.is_sentinel n)) nodes)))
    in *.
  assert (Hne : surface <> []) by (intros H; rewrite H in Hempty; discriminate).
  rewrite <- (app_assoc surface).
  rewrite (realign_at_occurrence pre surface (concat others ++ post) Hne).
  f_equal.
  replace (pre ++ surface ++ concat others ++ post)
    with ((pre ++ surface) ++ concat others ++ post)
    by now rewrite <- app_assoc.
  replace (length pre + Str.size surface) with (length (pre ++ surface))
    by (unfold Str.size; now rewrite length_app).
  apply IH.
Qed.

(** X2.  When the sanitized text is the concatenation of the decoded
    surfaces of the kept nodes, followed by anything, the realignment never
    has to search: the first token is matched at offset 0 and every other
    token exactly where the token before it ends. *)
Theorem analyzeText_exact_on_tiled_text (a : Analyzer.Analyzer) (text : bytes)
    (p : Process) (tagger : MeCab.Tagger) (post : bytes) :
  text <> [] ->
  mecab.getMeCabTagger (Analyzer.mecab_manager_ a) = Some tagger ->
  let surfaces :=
    kept_surfaces (Analyzer.system_charset_ a)
      (MeCab.parseToNode tagger
         (Str.c_str (utf8ToSystem (sanitizeUTF8 text)
                                  (Analyzer.system_charset_ a)))) in
  sanitizeUTF8 text = concat surfaces ++ post ->
  map fst (fst (Analyzer.analyzeText_matches a text p)) = laid_from 0 surfaces.
Proof.
  intros Htext Htagger surfaces Htiled.
  rewrite analyzeText_matches_value, (Str_empty_false _ Htext), Htagger.
  cbv zeta. subst surfaces.
  remember (MeCab.parseToNode tagger
              (Str.c_str (utf8ToSystem (sanitizeUTF8 text)
                                       (Analyzer.system_charset_ a))))
    as nodes eqn:Hnodes.
  clear Hnodes. rewrite Htiled.
  apply (align_nodes_tiled _ _ _ [] post).
Qed.

End Tiling.

Lemma analyzeText_one_token_per_kept_node_witness :
  map Analyzer.surface
      (fst (Analyzer.analyzeText (C := Reference.collaborators)
              (Reference.ready [Reference.word "ab"; Reference.word "";
                                Reference.word "cd"])
              (Str.lit "abcd") (Reference.process0 false)))
  = [Str.lit "ab"; Str.lit "cd"].
Proof.
  refine (proj1 (@analyzeText_one_token_per_kept_node Reference.collaborators
                   (Reference.ready [Reference.word "ab"; Reference.word "";
                                     Reference.word "cd"])
                   (Str.lit "abcd") (Reference.process0 false)
                   (Reference.tagger_of [Reference.word "ab"; Reference.word "";
                                         Reference.word "cd"]) _ _)).
  - discriminate.
  - reflexivity.
Defined.

Lemma analyzeText_exact_on_tiled_text_witness :
  map fst
      (fst (Analyzer.analyzeText_matches (C := Reference.collaborators)
              (Reference.ready [Reference.word "ab"; Reference.word "cde";
                                Reference.word "f"])
              (Str.lit "abcdef!") (Reference.process0 false)))
  = [0; 2; 5].
Proof.
  refine (@analyzeText_exact_on_tiled_text Reference.collaborators
            (Reference.ready [Reference.word "ab"; Reference.word "cde";
                              Reference.word "f"])
            (Str.lit "abcdef!") (Reference.process0 false)
            (Reference.tagger_of [Reference.word "ab"; Reference.word "cde";
                                  Reference.word "f"])
            (Str.lit "!") _ _ _).
  - discriminate.
  - reflexivity.
  - reflexivity.
Defined.

(** ** The debug toggle and the error stream *)


Lemma quiet_manager_isDebugEnabled (p : Process) :
  quiet p ->
  fst (mecab.isDebugEnabled p) = false
  /\ cerr (snd (mecab.isDebugEnabled p)) = cerr p
  /\ quiet (snd (mecab.isDebugEnabled p)).
Proof.
  unfold quiet, mecab.isDebugEnabled, debug_step.
  destruct p as [env [ai ad] [mi md] err calls]. cbn.
  destruct mi; cbn; intros [Hm Ha]; subst; cbn; auto.
Qed.

Lemma quiet_analyzer_isDebugEnabled (p : Process) :
  quiet p ->
  fst (Analyzer.isDebugEnabled p) = false
  /\ cerr (snd (Analyzer.isDebugEnabled p)) = cerr p
  /\ quiet (snd (Analyzer.isDebugEnabled p)).
Proof.
  unfold quiet, Analyzer.isDebugEnabled, debug_step.
  destruct p as [env [ai ad] [mi md] err calls]. cbn.
  destruct ai; cbn; intros [Hm Ha]; subst; cbn; auto.
Qed.

Lemma quiet_cerr_line (l : string) (p : Process) :
  quiet p -> quiet (snd (cerr_line l p)).
Proof. now unfold quiet. Qed.

Lemma silent_ret {A : Type} (a : A) : silent (ret a).
Proof. intros p Hq. now split. Qed.

Lemma silent_bind {A B : Type} (c : M A) (k : A -> M B) :
  silent c -> (forall a, silent (k a)) -> silent (bind c k).
Proof.
  intros Hc Hk p Hq. rewrite bind_snd.
  destruct (Hc p Hq) as [Hcerr Hq'].
  destruct (Hk (fst (c p)) (snd (c p)) Hq') as [Hcerr' Hq''].
  split; [congruence | exact Hq''].
Qed.

Lemma silent_when {c : M unit} (b : bool) : silent c -> silent (when b c).
Proof. destruct b; [easy | intros _; apply silent_ret]. Qed.

Lemma silent_manager_debug_line (l : string) : silent (mecab.debug_line l).
Proof.
  intros p Hq. unfold mecab.debug_line. rewrite bind_snd.
  destruct (quiet_manager_isDebugEnabled p Hq) as (-> & Hcerr & Hq').
  now split.
Qed.

Lemma silent_analyzer_debug_line (l : string) : silent (Analyzer.debug_line l).
Proof.
  intros p Hq. unfold Analyzer.debug_line. rewrite bind_snd.
  destruct (quiet_analyzer_isDebugEnabled p Hq) as (-> & Hcerr & Hq').
  now split.
Qed.

Lemma silent_call_createTagger (W : World) (site : call_site) (args : bytes) :
  silent (mecab.call_createTagger W site args).
Proof. intros p Hq. now split. Qed.

(** The composition of silent computations, step by step. *)
Ltac silent_steps :=
  repeat first
    [ apply silent_ret
    | apply silent_manager_debug_line
    | apply silent_analyzer_debug_line
    | apply silent_call_createTagger
    | apply silent_when
    | apply silent_bind; [|intro] ].

Section Silence.

Variable W : World.

Lemma silent_testMeCabCharset (tagger : option MeCab.Tagger) (c : bytes) :
  silent (mecab.testMeCabCharset tagger c).
Proof.
  unfold mecab.testMeCabCharset.
  destruct tagger as [t|]; [|silent_steps].
  destruct (Str.eqb c UTF_8); [silent_steps|].
  destruct (mecab.probe_loop _); silent_steps.
Qed.

Lemma silent_detectSystemMeCab : silent (mecab.detectSystemMeCab W).
Proof.
  unfold mecab.detectSystemMeCab. silent_steps.
  - unfold mecab.detect_dicPath.
    destruct (mecab_config_dicdir W); silent_steps.
  - unfold mecab.detect_declared_charset.
    destruct (negb (Str.empty _)); [|silent_steps].
    destruct (read_lines W _) as [lines|]; [|silent_steps].
    destruct (mecab.scan_dicrc lines); silent_steps.
  - unfold mecab.detect_effective_charset.
    destruct (Str.empty _); [silent_steps|].
    destruct (negb (Str.eqb _ UTF_8)); silent_steps.
    match goal with |- silent (match ?t with _ => _ end) => destruct t end;
      silent_steps.
Qed.

Lemma silent_create_primary (mecab_args : bytes) :
  silent (mecab.create_primary W mecab_args).
Proof.
  unfold mecab.create_primary. silent_steps.
  match goal with |- silent (match ?t with _ => _ end) => destruct t end;
    silent_steps.
  destruct (negb (Str.empty mecab_args)); silent_steps.
  match goal with |- silent (match ?t with _ => _ end) => destruct t end;
    silent_steps.
Qed.

Lemma silent_after_isDebugEnabled {A : Type} (k : bool -> M A) :
  silent (k false) -> silent (bind mecab.isDebugEnabled k).
Proof.
  intros Hk p Hq. rewrite bind_snd.
  destruct (quiet_manager_isDebugEnabled p Hq) as (-> & Hcerr & Hq').
  destruct (Hk _ Hq') as [Hcerr' Hq''].
  split; [congruence | exact Hq''].
Qed.

Lemma silent_manager_initialize (m : mecab.MeCabManager)
    (mecabDicPath mecabCharset : bytes) :
  silent (mecab.initialize W m mecabDicPath mecabCharset).
Proof.
  unfold mecab.initialize.
  apply silent_bind.
  { destruct (Str.empty mecabDicPath); [|silent_steps].
    apply silent_bind; [apply silent_detectSystemMeCab | intro info].
    destruct (negb (mecab.isAvailable info)); silent_steps. }
  intro systemMeCab. cbv zeta.
  apply silent_bind.
  { unfold mecab.resolve_args.
    destruct (negb (Str.empty mecabDicPath)); [silent_steps|].
    destruct (mecab.isAvailable systemMeCab && _); silent_steps. }
  intro mecab_args.
  apply silent_after_isDebugEnabled. cbn [andb]. unfold when at 1.
  apply silent_bind; [apply silent_ret | intros _].
  apply silent_bind; [apply silent_create_primary | intros [t|]];
    [|silent_steps].
  apply silent_bind; [apply silent_testMeCabCharset | intro c].
  apply silent_bind; [apply silent_manager_debug_line | intros _].
  apply silent_bind; [|intro m'; silent_steps].
  unfold mecab.init_cabocha.
  destruct (mecab.cabocha_parser_ _); silent_steps.
Qed.

(** X5.  While MOZUKU_DEBUG is off for both files, [MeCabManager::initialize]
    writes nothing to [std::cerr], whether it succeeds or fails: every line
    it can write, the two "[ERROR]" lines of a failed construction
    included, is behind [isDebugEnabled]. *)
Theorem manager_initialize_is_silent (m : mecab.MeCabManager)
    (mecabDicPath mecabCharset : bytes) (p : Process) :
  quiet p ->
  cerr (snd (mecab.initialize W m mecabDicPath mecabCharset p)) = cerr p
  /\ quiet (snd (mecab.initialize W m mecabDicPath mecabCharset p)).
Proof.
  intros Hq.
  destruct (silent_manager_initialize m mecabDicPath mecabCharset p Hq)
    as [Hcerr Hquiet].
  split; [exact Hcerr | exact Hquiet].
Qed.

End Silence.

Section AnalyzerStream.

Context {C : Collaborators}.

Variable W : World.

(** X6.  While MOZUKU_DEBUG is off for both files, the only lines on
    [std::cerr] are the three that are not behind [isDebugEnabled]:
    [Analyzer::initialize] writes "[ERROR] Failed to initialize MeCab" once
    when it returns [false] and nothing when it returns [true];
    [analyzeText] writes nothing for an empty text or a parse with nodes,
    one line when there is no tagger, and one line when the parse returns the
    null node. *)
Theorem analyzer_error_lines (a : Analyzer.Analyzer) (config : MoZukuConfig)
    (text : bytes) (p : Process) :
  quiet p ->
  cerr (snd (Analyzer.initialize W a config p))
  = cerr p
    ++ (if fst (fst (Analyzer.initialize W a config p)) then []
        else ["[ERROR] Failed to initialize MeCab"%string])
  /\ cerr (snd (Analyzer.analyzeText a text p))
     = cerr p
       ++ (if Str.empty text then []
           else match mecab.getMeCabTagger (Analyzer.mecab_manager_ a) with
                | None => ["[ERROR] MeCab tagger not available"%string]
                | Some tagger =>
                    match MeCab.parseToNode tagger
                            (Str.c_str (utf8ToSystem (sanitizeUTF8 text)
                                          (Analyzer.system_charset_ a))) with
                    | [] => ["[ERROR] MeCab parsing failed"%string]
                    | _ :: _ => []
                    end
                end).
Proof.
  intros Hq. split.
  - unfold Analyzer.initialize.
    rewrite bind_snd, bind_fst.
    destruct (silent_analyzer_debug_line
                "[DEBUG] Initializing analyzer with config" p Hq)
      as [Hcerr1 Hq1].
    set (p1 := snd (Analyzer.debug_line
                      "[DEBUG] Initializing analyzer with config" p)) in *.
    cbv zeta. rewrite bind_snd, bind_fst.
    destruct (silent_manager_initialize W (Analyzer.mecab_manager_ a)
                (if Str.empty (mecab_dicPath config) then []
                 else mecab_dicPath config)
                (if Str.empty (mecab_charset config) then UTF_8
                 else mecab_charset config) p1 Hq1) as [Hcerr2 Hq2].
    set (r := mecab.initialize W (Analyzer.mecab_manager_ a) _ _ p1) in *.
    destruct (fst (fst r)); cbn [negb].
    + rewrite bind_snd, bind_fst. unfold ret. cbn [fst snd].
      match goal with
      | |- cerr (snd (Analyzer.debug_line ?l ?q)) = _ =>
          destruct (silent_analyzer_debug_line l q Hq2) as [Hcerr3 _]
      end.
      rewrite Hcerr3, Hcerr2, Hcerr1. now rewrite app_nil_r.
    + rewrite bind_snd, bind_fst. unfold ret, cerr_line. cbn [fst snd cerr].
      now rewrite Hcerr2, Hcerr1.
  - unfold Analyzer.analyzeText. rewrite bind_snd. unfold ret at 1.
    cbn [snd]. unfold Analyzer.analyzeText_matches.
    destruct (Str.empty text); [unfold ret; cbn [snd]; now rewrite app_nil_r|].
    rewrite bind_snd.
    destruct (silent_analyzer_debug_line
                ("[DEBUG] Analyzing text of length: "
                 ++ show_nat (Str.size text))%string p Hq) as [Hcerr1 Hq1].
    cbv zeta.
    destruct (mecab.getMeCabTagger (Analyzer.mecab_manager_ a)) as [tagger|].
    + destruct (MeCab.parseToNode tagger _) as [|n nodes].
      * rewrite bind_snd. unfold ret, cerr_line. cbn [fst snd cerr].
        now rewrite Hcerr1.
      * rewrite bind_snd. unfold ret at 1. cbn [snd].
        match goal with
        | |- cerr (snd (Analyzer.debug_line ?l ?q)) = _ =>
            destruct (silent_analyzer_debug_line l q Hq1) as [Hcerr2 _]
        end.
        rewrite Hcerr2, Hcerr1. now rewrite app_nil_r.
    + rewrite bind_snd. unfold ret, cerr_line. cbn [fst snd cerr].
      now rewrite Hcerr1.
Qed.

(** X7.  [Analyzer::initialize] returns [true] exactly when the first
    construction of the primary engine succeeds, or when that construction
    had an argument and the second one, without argument, succeeds; and
    what it returns is what [isInitialized] answers afterwards. *)
Theorem initialize_succeeds_iff (a : Analyzer.Analyzer) (config : MoZukuConfig)
    (p : Process) :
  let mecab_args := mecab.mecab_args_of W (mecab_dicPath config) in
  let r := fst (Analyzer.initialize W a config p) in
  Analyzer.isInitialized (snd r) = fst r
  /\ (fst r = true
      <-> createTagger W (Str.c_str mecab_args) <> None
          \/ (mecab_args <> [] /\ createTagger W [] <> None)).
Proof.
  cbv zeta. rewrite analyzer_initialize_value. cbv zeta.
  destruct (initialize_value_fields W (Analyzer.mecab_manager_ a)
              (mecab_dicPath config)
              (if Str.empty (mecab_charset config) then UTF_8
               else mecab_charset config)) as (Hok & Htagger & _).
  cbv zeta in Hok, Htagger.
  set (v := mecab.initialize_value W (Analyzer.mecab_manager_ a)
              (mecab_dicPath config)
              (if Str.empty (mecab_charset config) then UTF_8
               else mecab_charset config)) in *.
  assert (Hcriterion :
            non_null (mecab.primary_tagger_of W
                        (mecab.mecab_args_of W (mecab_dicPath config))) = true
            <-> createTagger W
                  (Str.c_str (mecab.mecab_args_of W (mecab_dicPath config)))
                <> None
                \/ (mecab.mecab_args_of W (mecab_dicPath config) <> []
                    /\ createTagger W [] <> None)).
  { unfold mecab.primary_tagger_of.
    destruct (createTagger W (Str.c_str _)) as [t|]; cbn.
    - split; [intros _; left; discriminate | reflexivity].
    - destruct (mecab.mecab_args_of W (mecab_dicPath config)) as [|c args]; cbn.
      + split; [discriminate | intros [H | [H _]]; congruence].
      + destruct (createTagger W []) as [t|]; cbn.
        * split; [intros _; right; split; discriminate | reflexivity].
        * split; [discriminate | intros [H | [_ H]]; congruence]. }
  rewrite <- Hcriterion, <- Hok.
  unfold Analyzer.isInitialized, mecab.getMeCabTagger.
  destruct (fst v) eqn:Hflag; cbn [negb fst snd Analyzer.mecab_manager_];
    rewrite Htagger, <- Hok; split; auto; reflexivity.
Qed.

End AnalyzerStream.

Lemma manager_initialize_is_silent_witness :
  cerr (snd (mecab.initialize Reference.no_engine
               (fst (mecab.MeCabManager_new true (Reference.process0 false)))
               (Str.lit "/nonexistent/dic") (Str.lit "EUC-JP")
               (Reference.process0 false)))
  = [].
Proof.
  refine (proj1 (manager_initialize_is_silent Reference.no_engine _ _ _
                   (Reference.process0 false) _)).
  split; reflexivity.
Defined.

Lemma analyzer_error_lines_witness :
  cerr (snd (Analyzer.analyzeText (C := Reference.collaborators)
               Reference.fresh (Str.lit "abc") (Reference.process0 false)))
  = ["[ERROR] MeCab tagger not available"%string].
Proof.
  refine (proj2 (@analyzer_error_lines Reference.collaborators
                   Reference.no_engine Reference.fresh Reference.config0
                   (Str.lit "abc") (Reference.process0 false) _)).
  split; reflexivity.
Defined.

(** ** What a call of [initialize] keeps of the state before it *)

Lemma initialize_value_replaces (W : World) (m1 m2 : mecab.MeCabManager)
    (mecabDicPath mecabCharset : bytes) :
  mecab.cabocha_parser_ m1 = mecab.cabocha_parser_ m2 ->
  mecab.cabocha_available_ m1 = mecab.cabocha_available_ m2 ->
  mecab.enable_cabocha_ m1 = mecab.enable_cabocha_ m2 ->
  mecab.initialize_value W m1 mecabDicPath mecabCharset
  = mecab.initialize_value W m2 mecabDicPath mecabCharset.
Proof.
  destruct m1 as [t1 ps1 c1 av1 en1], m2 as [t2 ps2 c2 av2 en2]. cbn.
  intros -> -> ->. reflexivity.
Qed.

Lemma initialize_value_enable (W : World) (m : mecab.MeCabManager)
    (mecabDicPath mecabCharset : bytes) :
  mecab.enable_cabocha_
    (snd (mecab.initialize_value W m mecabDicPath mecabCharset))
  = mecab.enable_cabocha_ m.
Proof.
  unfold mecab.initialize_value.
  destruct (mecab.primary_tagger_of W _) as [t|]; [|reflexivity].
  destruct m as [tg [ps|] cs av en]; reflexivity.
Qed.

(** The manager of an analyzer a program can hold, and the analyzer's own
    copy of the charset. *)
Lemma reachable_analyzer_invariant (a : Analyzer.Analyzer) :
  reachable_analyzer a ->
  mecab.cabocha_parser_ (Analyzer.mecab_manager_ a) = None
  /\ mecab.cabocha_available_ (Analyzer.mecab_manager_ a) = false
  /\ mecab.enable_cabocha_ (Analyzer.mecab_manager_ a) = true
  /\ (Analyzer.isInitialized a = true ->
      Analyzer.system_charset_ a
      = mecab.getSystemCharset (Analyzer.mecab_manager_ a)).
Proof.
  induction 1 as [config0 p | W a config p Ha (IHparser & IHflag & IHenable & _)].
  - unfold Analyzer.Analyzer_new, mecab.MeCabManager_new.
    rewrite !bind_fst. unfold ret. cbn. repeat split; discriminate.
  - rewrite analyzer_initialize_value. cbv zeta.
    destruct (initialize_value_fields W (Analyzer.mecab_manager_ a)
                (mecab_dicPath config)
                (if Str.empty (mecab_charset config) then UTF_8
                 else mecab_charset config))
      as (Hok & Htagger & _ & Hparser & Hflag).
    pose proof (initialize_value_enable W (Analyzer.mecab_manager_ a)
                  (mecab_dicPath config)
                  (if Str.empty (mecab_charset config) then UTF_8
                   else mecab_charset config)) as Henable.
    cbv zeta in Hok, Htagger, Hparser, Hflag.
    set (v := mecab.initialize_value W (Analyzer.mecab_manager_ a) _ _) in *.
    assert (Hafter : mecab.cabocha_parser_ (snd v) = None
                     /\ mecab.cabocha_available_ (snd v) = false
                     /\ mecab.enable_cabocha_ (snd v) = true).
    { rewrite Hparser, Hflag, Henable, IHparser, IHflag, IHenable.
      repeat split.
      now destruct (non_null (mecab.primary_tagger_of W _)). }
    destruct Hafter as (H1 & H2 & H3).
    destruct (fst v) eqn:Hflagv; cbn [negb fst snd Analyzer.mecab_manager_
                                       Analyzer.system_charset_];
      repeat split; auto.
    unfold Analyzer.isInitialized, mecab.getMeCabTagger.
    cbn [Analyzer.mecab_manager_]. rewrite Htagger, <- Hok. discriminate.
Qed.

(** X8.  A call of [Analyzer::initialize] replaces what earlier calls left.
    On any two analyzers a program can hold, the same configuration in the
    same world gives the same flag and the same manager, whatever the two
    analyzers went through before and whatever the process states are; when
    the flag is [true] the two analyzers are equal afterwards.  (When it is
    [false], the analyzer keeps the charset it had.) *)
Theorem initialize_replaces_prior_state (W : World)
    (a1 a2 : Analyzer.Analyzer) (config : MoZukuConfig) (p1 p2 : Process) :
  reachable_analyzer a1 ->
  reachable_analyzer a2 ->
  let r1 := fst (Analyzer.initialize W a1 config p1) in
  let r2 := fst (Analyzer.initialize W a2 config p2) in
  fst r1 = fst r2
  /\ Analyzer.mecab_manager_ (snd r1) = Analyzer.mecab_manager_ (snd r2)
  /\ Analyzer.config_ (snd r1) = config
  /\ (fst r1 = true -> snd r1 = snd r2)
  /\ (fst r1 = false ->
      Analyzer.system_charset_ (snd r1) = Analyzer.system_charset_ a1).
Proof.
  intros H1 H2. cbv zeta.
  destruct (reachable_analyzer_invariant a1 H1) as (Hp1 & Hf1 & He1 & _).
  destruct (reachable_analyzer_invariant a2 H2) as (Hp2 & Hf2 & He2 & _).
  rewrite !analyzer_initialize_value. cbv zeta.
  rewrite (initialize_value_replaces W (Analyzer.mecab_manager_ a1)
             (Analyzer.mecab_manager_ a2)) by congruence.
  destruct (fst (mecab.initialize_value W (Analyzer.mecab_manager_ a2) _ _));
    cbn [negb fst snd Analyzer.mecab_manager_ Analyzer.config_
         Analyzer.system_charset_];
    repeat split; auto; discriminate.
Qed.

(** X17.  On every analyzer a program can hold: a constructed analyzer is
    not initialized; and whenever [isInitialized] holds, the charset the
    analyzer converts with is the working charset of its manager. *)
Theorem analyzer_charset_agrees_with_manager (a : Analyzer.Analyzer) :
  reachable_analyzer a ->
  (Analyzer.isInitialized a = true ->
   Analyzer.getSystemCharset a
   = mecab.getSystemCharset (Analyzer.mecab_manager_ a))
  /\ forall config0 p,
       Analyzer.isInitialized (fst (Analyzer.Analyzer_new config0 p)) = false.
Proof.
  intros Ha. split.
  - apply (reachable_analyzer_invariant a Ha).
  - intros config0 p.
    unfold Analyzer.Analyzer_new, mecab.MeCabManager_new.
    rewrite !bind_fst. reflexivity.
Qed.

Lemma initialize_replaces_prior_state_witness :
  snd (fst (Analyzer.initialize (Reference.world_of []) Reference.fresh
              Reference.config0 (Reference.process0 false)))
  = snd (fst (Analyzer.initialize (Reference.world_of [])
                (snd (Reference.initialized_in Reference.eucjp_world
                        Reference.config_with_dictionary))
                Reference.config0 (Reference.process0 true))).
Proof.
  refine (proj1 (proj2 (proj2 (proj2
            (initialize_replaces_prior_state (Reference.world_of [])
               Reference.fresh
               (snd (Reference.initialized_in Reference.eucjp_world
                       Reference.config_with_dictionary))
               Reference.config0 (Reference.process0 false)
               (Reference.process0 true) _ _)))) _).
  - apply reachable_constructed.
  - apply reachable_initialized, reachable_constructed.
  - reflexivity.
Defined.

Lemma analyzer_charset_agrees_with_manager_witness :
  Analyzer.getSystemCharset (Reference.ready [])
  = mecab.getSystemCharset (Analyzer.mecab_manager_ (Reference.ready [])).
Proof.
  refine (proj1 (analyzer_charset_agrees_with_manager (Reference.ready []) _) _).
  - apply reachable_initialized, reachable_constructed.
  - reflexivity.
Defined.

(** ** Discovery: its result and its probe *)

Section Discovery.

Variable W : World.

Lemma calls_detect_effective_charset (declared : bytes) (p : Process) :
  createTagger_calls (snd (mecab.detect_effective_charset W declared p))
  = createTagger_calls p
    ++ (if negb (Str.empty declared) && negb (Str.eqb declared UTF_8)
        then [(ProbeTagger, [])] else []).
Proof.
  unfold mecab.detect_effective_charset.
  destruct (Str.empty declared); cbn [negb andb].
  { rewrite bind_snd. unfold ret. cbn [fst snd].
    now rewrite manager_debug_line_calls, app_nil_r. }
  destruct (negb (Str.eqb declared UTF_8));
    [|unfold ret; cbn [snd]; now rewrite app_nil_r].
  rewrite !bind_snd, call_createTagger_value.
  change (Str.c_str []) with (@nil byte).
  assert (Hprobe : forall l,
             createTagger_calls
               (snd (mecab.call_createTagger W ProbeTagger []
                       (snd (mecab.debug_line l p))))
             = createTagger_calls p ++ [(ProbeTagger, [])]).
  { intros l. unfold mecab.call_createTagger. cbn [snd createTagger_calls].
    now rewrite manager_debug_line_calls. }
  destruct (createTagger W []) as [t|].
  - rewrite bind_snd.
    destruct (mecab.probe_loop _); unfold when, ret; cbn [fst snd];
      rewrite ?manager_debug_line_calls; apply Hprobe.
  - unfold ret. cbn [fst snd]. apply Hprobe.
Qed.

Lemma calls_detectSystemMeCab (p : Process) :
  createTagger_calls (snd (mecab.detectSystemMeCab W p))
  = createTagger_calls p
    ++ (if discovery_probes W then [(ProbeTagger, [])] else []).
Proof.
  unfold mecab.detectSystemMeCab, discovery_probes.
  rewrite !bind_snd. unfold ret. cbn [fst snd].
  rewrite manager_debug_line_calls, calls_detect_effective_charset.
  rewrite detect_declared_charset_value, !detect_dicPath_value.
  f_equal.
  assert (Hdeclared : forall d q,
             createTagger_calls (snd (mecab.detect_declared_charset W d q))
             = createTagger_calls q).
  { intros d q. unfold mecab.detect_declared_charset.
    destruct (negb (Str.empty d)); [|reflexivity].
    destruct (read_lines W _) as [lines|]; [|reflexivity].
    destruct (mecab.scan_dicrc lines); [|reflexivity].
    rewrite bind_snd. unfold ret. cbn [fst snd].
    apply manager_debug_line_calls. }
  assert (Hdic : forall q,
             createTagger_calls (snd (mecab.detect_dicPath W q))
             = createTagger_calls q).
  { intros q. unfold mecab.detect_dicPath.
    destruct (mecab_config_dicdir W); [|reflexivity].
    rewrite bind_snd. unfold ret. cbn [fst snd].
    apply manager_debug_line_calls. }
  now rewrite Hdeclared, Hdic, manager_debug_line_calls.
Qed.

(** X10.  [detectSystemMeCab] reports a dictionary as available exactly when
    it found a dictionary directory, and never returns an empty charset.
    Without a dictionary directory the charset is "UTF-8" and no engine is
    constructed.  In every case it constructs at most one throw-away engine,
    with no argument, and only when the [dicrc] of the dictionary declares a
    charset other than "UTF-8". *)
Theorem detectSystemMeCab_invariants (p : Process) :
  let info := fst (mecab.detectSystemMeCab W p) in
  let after := snd (mecab.detectSystemMeCab W p) in
  mecab.isAvailable info = negb (Str.empty (mecab.dicPath info))
  /\ mecab.charset info <> []
  /\ (mecab.isAvailable info = false ->
      mecab.charset info = UTF_8
      /\ createTagger_calls after = createTagger_calls p)
  /\ createTagger_calls after
     = createTagger_calls p
       ++ (if discovery_probes W then [(ProbeTagger, [])] else []).
Proof.
  cbv zeta. rewrite detectSystemMeCab_value, calls_detectSystemMeCab.
  unfold mecab.detected_info, discovery_probes.
  cbn [mecab.isAvailable mecab.dicPath mecab.charset].
  split; [reflexivity|]. split; [|split; [|reflexivity]].
  - unfold mecab.effective_charset_of.
    destruct (mecab.declared_charset_of W (mecab.detected_dicPath W))
      as [|c declared]; [discriminate|].
    cbn [Str.empty].
    destruct (negb (Str.eqb (c :: declared) UTF_8)); [|discriminate].
    destruct (createTagger W []) as [t|]; [|discriminate].
    destruct (mecab.probe_loop _); discriminate.
  - intros Hnone. apply negb_false_iff in Hnone.
    unfold mecab.declared_charset_of. rewrite Hnone. cbn [negb].
    split; [reflexivity | now rewrite app_nil_r].
Qed.

End Discovery.

(** ** An explicit dictionary turns discovery off *)

Lemma probes_nothing_ret {A : Type} (a : A) : probes_nothing (ret a).
Proof. intros p. reflexivity. Qed.

Lemma probes_nothing_bind {A B : Type} (c : M A) (k : A -> M B) :
  probes_nothing c -> (forall a, probes_nothing (k a)) ->
  probes_nothing (bind c k).
Proof.
  intros Hc Hk p. rewrite bind_snd. now rewrite Hk, Hc.
Qed.

Lemma probes_nothing_debug_line (l : string) :
  probes_nothing (mecab.debug_line l).
Proof. intros p. unfold probe_calls. now rewrite manager_debug_line_calls. Qed.

Lemma probes_nothing_isDebugEnabled : probes_nothing mecab.isDebugEnabled.
Proof.
  intros p. unfold mecab.isDebugEnabled. now destruct (debug_step _ _).
Qed.

Lemma probes_nothing_when_cerr (b : bool) (l : string) :
  probes_nothing (when b (cerr_line l)).
Proof. intros p. now destruct b. Qed.

Lemma probes_nothing_primary (W : World) (args : bytes) :
  probes_nothing (mecab.call_createTagger W PrimaryTagger args).
Proof.
  intros p. unfold probe_calls, mecab.call_createTagger. cbn [snd createTagger_calls].
  rewrite filter_app. cbn. now rewrite app_nil_r.
Qed.

Ltac probes_nothing_steps :=
  repeat first
    [ apply probes_nothing_ret
    | apply probes_nothing_debug_line
    | apply probes_nothing_isDebugEnabled
    | apply probes_nothing_when_cerr
    | apply probes_nothing_primary
    | apply probes_nothing_bind; [|intro] ].

(** X9.  With a dictionary path that is not empty, [MeCabManager::initialize]
    does not run the discovery: it constructs no throw-away engine, and what
    it returns is the same in any two worlds whose engine factories agree,
    whatever their configuration helpers print and their [dicrc] files
    hold. *)
Theorem explicit_dictionary_skips_discovery (W1 W2 : World)
    (m : mecab.MeCabManager) (mecabDicPath mecabCharset : bytes)
    (p : Process) :
  mecabDicPath <> [] ->
  (forall args, createTagger W1 args = createTagger W2 args) ->
  probe_calls (snd (mecab.initialize W1 m mecabDicPath mecabCharset p))
  = probe_calls p
  /\ fst (mecab.initialize W1 m mecabDicPath mecabCharset p)
     = fst (mecab.initialize W2 m mecabDicPath mecabCharset p).
Proof.
  intros Hpath Hfactory. split.
  - revert p.
    change (probes_nothing (mecab.initialize W1 m mecabDicPath mecabCharset)).
    unfold mecab.initialize. rewrite (Str_empty_false _ Hpath).
    probes_nothing_steps.
    + unfold mecab.resolve_args. rewrite (Str_empty_false _ Hpath).
      cbn [negb]. probes_nothing_steps.
    + unfold mecab.create_primary. probes_nothing_steps.
      match goal with
      | |- probes_nothing (match ?t with _ => _ end) => destruct t
      end; probes_nothing_steps.
      destruct (negb (Str.empty _)); probes_nothing_steps.
      match goal with
      | |- probes_nothing (match ?t with _ => _ end) => destruct t
      end; probes_nothing_steps.
    + match goal with
      | |- probes_nothing (match ?t with _ => _ end) => destruct t
      end; probes_nothing_steps.
      * unfold mecab.testMeCabCharset. cbn [mecab.mecab_tagger_ mecab.set_mecab_tagger].
        destruct (Str.eqb _ UTF_8); probes_nothing_steps.
        destruct (mecab.probe_loop _); probes_nothing_steps.
      * unfold mecab.init_cabocha.
        destruct (mecab.cabocha_parser_ _); probes_nothing_steps.
  - rewrite !initialize_value_correct.
    unfold mecab.initialize_value, mecab.mecab_args_of,
      mecab.primary_tagger_of.
    rewrite (Str_empty_false _ Hpath). cbn [negb].
    now rewrite !Hfactory.
Qed.

Lemma explicit_dictionary_skips_discovery_witness :
  fst (mecab.initialize Reference.eucjp_world
         (fst (mecab.MeCabManager_new true (Reference.process0 false)))
         (Str.lit "/opt/dic") (Str.lit "EUC-JP") (Reference.process0 false))
  = fst (mecab.initialize (Reference.world_of [])
           (fst (mecab.MeCabManager_new true (Reference.process0 false)))
           (Str.lit "/opt/dic") (Str.lit "EUC-JP") (Reference.process0 false)).
Proof.
  refine (proj2 (explicit_dictionary_skips_discovery Reference.eucjp_world
                   (Reference.world_of []) _ (Str.lit "/opt/dic")
                   (Str.lit "EUC-JP") (Reference.process0 false) _ _)).
  - discriminate.
  - reflexivity.
Defined.

(** ** The probe is idempotent *)

Lemma resolve_discovered_charset (W : World) :
  mecab.resolve_charset [] (mecab.detected_info W)
  = mecab.charset (mecab.detected_info W).
Proof.
  unfold mecab.resolve_charset, mecab.detected_info, mecab.effective_charset_of.
  cbn [Str.empty negb mecab.charset].
  destruct (Str.empty (mecab.declared_charset_of W _)) eqn:Hdeclared;
    [reflexivity|].
  destruct (negb (Str.eqb _ UTF_8)).
  - destruct (createTagger W []) as [t|]; [|now rewrite Hdeclared].
    destruct (mecab.probe_loop _); [reflexivity | now rewrite Hdeclared].
  - now rewrite Hdeclared.
Qed.

Lemma tested_discovered_charset (W : World) :
  mecab.tested_charset (createTagger W []) (mecab.charset (mecab.detected_info W))
  = mecab.charset (mecab.detected_info W).
Proof.
  unfold mecab.tested_charset, mecab.detected_info, mecab.effective_charset_of.
  cbn [mecab.charset].
  destruct (createTagger W []) as [t|]; [|reflexivity].
  destruct (Str.empty _); [reflexivity|].
  destruct (Str.eqb (mecab.declared_charset_of W _) UTF_8) eqn:Hd;
    cbn [negb]; [now rewrite Hd|].
  destruct (mecab.probe_loop _) eqn:Hprobe; [reflexivity|].
  now rewrite Hd.
Qed.

(** X12.  [testMeCabCharset] returns the charset it was given or "UTF-8", and
    running it again on its own result changes nothing.  On the engine that
    [createTagger] returns for no argument, the one the discovery probe
    constructs, it returns the charset of [detectSystemMeCab] unchanged.
    Hence [initialize], called with no dictionary path and no charset, leaves
    the manager with the discovered charset whenever the engine it ends with
    is that argument-less one: when no dictionary was found, and on the
    retry of lines 93-98.  Nothing is said of an engine that accepted the
    dictionary argument: its probe may decide otherwise than the discovery
    did ([primary_probe_can_overturn_discovery]). *)
Theorem testMeCabCharset_idempotent (W : World) (tagger : option MeCab.Tagger)
    (c : bytes) (p q : Process) :
  let once := fst (mecab.testMeCabCharset tagger c p) in
  let discovered := mecab.charset (fst (mecab.detectSystemMeCab W p)) in
  (once = c \/ once = UTF_8)
  /\ fst (mecab.testMeCabCharset tagger once q) = once
  /\ (createTagger W [] = tagger ->
      fst (mecab.testMeCabCharset tagger discovered q) = discovered)
  /\ (mecab.primary_tagger_of W (mecab.mecab_args_of W []) = createTagger W [] ->
      forall m : mecab.MeCabManager,
        mecab.getSystemCharset
          (snd (fst (mecab.initialize W m [] [] q)))
        = discovered).
Proof.
  cbv zeta. rewrite !testMeCabCharset_value, detectSystemMeCab_value.
  split; [|split; [|split]].
  - unfold mecab.tested_charset. destruct tagger as [t|]; [|now left].
    destruct (Str.eqb c UTF_8); [now left|].
    destruct (mecab.probe_loop _); [now right | now left].
  - unfold mecab.tested_charset. destruct tagger as [t|]; [|reflexivity].
    destruct (Str.eqb c UTF_8) eqn:Hc; [now rewrite Hc|].
    destruct (mecab.probe_loop _) eqn:Hprobe; [reflexivity|].
    now rewrite Hc.
  - intros <-. apply tested_discovered_charset.
  - intros Hprimary m. rewrite initialize_value_correct.
    unfold mecab.initialize_value. cbn [Str.empty]. cbv zeta.
    rewrite Hprimary.
    pose proof (tested_discovered_charset W) as Htested.
    destruct (createTagger W []) as [t|].
    + destruct m as [tagger0 parser0 charset0 available0 enable0].
      cbn [mecab.set_system_charset mecab.set_mecab_tagger
           mecab.system_charset_ mecab.cabocha_parser_] in *.
      rewrite resolve_discovered_charset, Htested.
      destruct parser0; reflexivity.
    + destruct m. cbn. apply resolve_discovered_charset.
Qed.

Lemma testMeCabCharset_idempotent_witness :
  fst (mecab.testMeCabCharset (createTagger Reference.fallback_world [])
         (Str.lit "EUC-JP") (Reference.process0 false))
  = Str.lit "EUC-JP"
  /\ mecab.getSystemCharset
       (snd (fst (mecab.initialize Reference.fallback_world
                    (fst (mecab.MeCabManager_new true (Reference.process0 false)))
                    [] [] (Reference.process0 false))))
     = Str.lit "EUC-JP".
Proof.
  destruct (testMeCabCharset_idempotent Reference.fallback_world
              (createTagger Reference.fallback_world []) []
              (Reference.process0 false) (Reference.process0 false))
    as (_ & _ & Hprobe & Hinitialize).
  split; [exact (Hprobe eq_refl) | exact (Hinitialize eq_refl _)].
Defined.

Example primary_probe_can_overturn_discovery :
  mecab.charset
    (fst (mecab.detectSystemMeCab Reference.ipadic_utf8_world
            (Reference.process0 false)))
  = Str.lit "EUC-JP"
  /\ mecab.getSystemCharset
       (snd (fst (mecab.initialize Reference.ipadic_utf8_world
                    (fst (mecab.MeCabManager_new true (Reference.process0 false)))
                    [] [] (Reference.process0 false))))
     = UTF_8.
Proof. split; vm_compute; reflexivity. Qed.

(** ** The charset line of [dicrc] *)

Lemma first_not_of_blanks (set blanks value : bytes) (i : nat) :
  Forall (fun b => Str.is_one_of set b = true) blanks ->
  (forall x rest, value = x :: rest -> Str.is_one_of set x = false) ->
  Str.first_not_of_from set (blanks ++ value) i
  = match value with [] => None | _ :: _ => Some (i + length blanks) end.
Proof.
  intros Hblanks Hhead. revert i.
  induction Hblanks as [|b blanks Hb Hblanks IH]; intros i; simpl.
  - destruct value as [|x rest]; [reflexivity|].
    simpl. rewrite (Hhead x rest eq_refl). f_equal. lia.
  - rewrite Hb, IH. destruct value; [reflexivity | f_equal; lia].
Qed.

Lemma last_not_of_blanks (set blanks : bytes) (i : nat) :
  Forall (fun b => Str.is_one_of set b = true) blanks ->
  Str.last_not_of_from set blanks i = None.
Proof.
  intros Hblanks. revert i.
  induction Hblanks as [|b blanks Hb Hblanks IH]; intros i; simpl;
    [reflexivity|].
  now rewrite IH, Hb.
Qed.

Lemma last_not_of_value (set front blanks : bytes) (x : byte) (i : nat) :
  Forall (fun b => Str.is_one_of set b = true) blanks ->
  Str.is_one_of set x = false ->
  Str.last_not_of_from set ((front ++ [x]) ++ blanks) i
  = Some (i + length front).
Proof.
  intros Hblanks Hx. revert i.
  induction front as [|y front IH]; intros i; simpl.
  - rewrite (last_not_of_blanks set blanks (S i) Hblanks), Hx.
    f_equal. lia.
  - rewrite IH. f_equal. lia.
Qed.

Lemma find_char_first (c : byte) (key tail : bytes) (i : nat) :
  ~ In c key ->
  Str.find_char_from c (key ++ c :: tail) i = Some (i + length key).
Proof.
  revert i; induction key as [|y key IH]; intros i Hnot; simpl.
  - rewrite (Byte.byte_dec_lb (eq_refl c)). f_equal. lia.
  - destruct (Byte.eqb y c) eqn:E.
    + apply Byte.byte_dec_bl in E. subst. exfalso. apply Hnot. now left.
    + rewrite IH by (intros H; apply Hnot; now right). f_equal. lia.
Qed.

(** The trimming of lines 180-183 on a value between blanks. *)
Lemma trim_value (blanks1 value blanks2 : bytes) :
  Forall (fun b => is_blank b = true) blanks1 ->
  Forall (fun b => is_blank b = true) blanks2 ->
  trimmed value ->
  let charset := blanks1 ++ value ++ blanks2 in
  let charset :=
    Str.erase_front charset (Str.find_first_not_of charset [x20; x09]) in
  Str.erase_after charset (Str.find_last_not_of charset [x20; x09]) = value.
Proof.
  intros H1 H2 [Hhead Hlast]. cbv zeta.
  unfold Str.find_first_not_of, Str.find_last_not_of.
  induction value as [|x front _] using rev_ind.
  - cbn [app].
    replace (blanks1 ++ blanks2) with ((blanks1 ++ blanks2) ++ [])
      by apply app_nil_r.
    rewrite (first_not_of_blanks [x20; x09] (blanks1 ++ blanks2) [] 0);
      [reflexivity | now apply Forall_app | discriminate].
  - rewrite (first_not_of_blanks [x20; x09] blanks1
               ((front ++ [x]) ++ blanks2) 0 H1).
    + assert (Hskip : skipn (0 + length blanks1)
                            (blanks1 ++ (front ++ [x]) ++ blanks2)
                      = (front ++ [x]) ++ blanks2).
      { rewrite Nat.add_0_l, skipn_app, skipn_all, Nat.sub_diag. reflexivity. }
      destruct ((front ++ [x]) ++ blanks2) as [|y l] eqn:Hl;
        [destruct front; discriminate Hl|].
      cbn [Str.erase_front]. rewrite Hskip, <- Hl.
      rewrite (last_not_of_value [x20; x09] front blanks2 x 0 H2
                 (Hlast front x eq_refl)).
      cbn [Str.erase_after Nat.add].
      rewrite firstn_app.
      replace (S (length front)) with (length (front ++ [x]))
        by (rewrite length_app; simpl; lia).
      now rewrite firstn_all, Nat.sub_diag, app_nil_r.
    + intros y rest Heq. destruct front as [|z front]; simpl in Heq;
        injection Heq as <- _; [apply (Hlast [] x eq_refl)|].
      apply (Hhead z (front ++ [x]) eq_refl).
Qed.

(** X11.  The loop over the lines of [dicrc] returns the value of the first
    line that holds "config-charset" and an equals sign: what stands behind
    the first equals sign of that line, with the blanks and tabs at both
    ends removed.  Lines before it that lack the key or the equals sign are
    passed over. *)
Theorem scan_dicrc_reads_value (skipped rest : list bytes)
    (key blanks1 value blanks2 : bytes) :
  Forall (fun line => Str.find line (Str.lit "config-charset") = None
                      \/ Str.find_char line x3d = None) skipped ->
  Str.find (key ++ [x3d] ++ blanks1 ++ value ++ blanks2)
           (Str.lit "config-charset") <> None ->
  ~ In x3d key ->
  Forall (fun b => is_blank b = true) blanks1 ->
  Forall (fun b => is_blank b = true) blanks2 ->
  trimmed value ->
  mecab.scan_dicrc
    (skipped ++ (key ++ [x3d] ++ blanks1 ++ value ++ blanks2) :: rest)
  = Some value.
Proof.
  intros Hskipped Hkey Heq H1 H2 Hvalue.
  induction Hskipped as [|line skipped Hline Hskipped IH]; simpl.
  - destruct (Str.find _ (Str.lit "config-charset")) as [i|]; [|congruence].
    unfold Str.find_char.
    change (key ++ [x3d] ++ blanks1 ++ value ++ blanks2)
      with (key ++ x3d :: blanks1 ++ value ++ blanks2).
    rewrite (find_char_first x3d key _ 0 Heq). cbn [Nat.add].
    replace (skipn (length key + 1) (key ++ x3d :: blanks1 ++ value ++ blanks2))
      with (blanks1 ++ value ++ blanks2).
    + f_equal. apply (trim_value blanks1 value blanks2 H1 H2 Hvalue).
    + replace (length key + 1) with (length (key ++ [x3d]))
        by (rewrite length_app; reflexivity).
      replace (key ++ x3d :: blanks1 ++ value ++ blanks2)
        with ((key ++ [x3d]) ++ blanks1 ++ value ++ blanks2)
        by (rewrite <- app_assoc; reflexivity).
      now rewrite skipn_app, skipn_all, Nat.sub_diag.
  - destruct Hline as [Hnone | Hnone].
    + rewrite Hnone. exact IH.
    + destruct (Str.find line _); [rewrite Hnone|]; exact IH.
Qed.

Lemma scan_dicrc_reads_value_witness :
  mecab.scan_dicrc
    ([Str.lit "; dicrc"; Str.lit "config-charset"]
     ++ (Str.lit "config-charset " ++ [x3d] ++ [x20; x09]
         ++ Str.lit "EUC-JP" ++ [x20])
     :: [Str.lit "config-charset = SHIFT-JIS"])
  = Some (Str.lit "EUC-JP").
Proof.
  apply (scan_dicrc_reads_value [Str.lit "; dicrc"; Str.lit "config-charset"]
           [Str.lit "config-charset = SHIFT-JIS"] (Str.lit "config-charset ")
           [x20; x09] (Str.lit "EUC-JP") [x20]).
  - constructor; [left; reflexivity|].
    constructor; [right; reflexivity | constructor].
  - discriminate.
  - simpl. intuition discriminate.
  - repeat constructor.
  - repeat constructor.
  - split.
    + intros x rest H. injection H as <- _. reflexivity.
    + intros front x H.
      apply (f_equal (@rev byte)) in H. rewrite rev_app_distr in H.
      simpl in H. injection H as <- _. reflexivity.
Defined.

(** ** [computeByteOffset]: bounds, monotonicity, the end of the line *)

Lemma column_loop_ge (text : bytes) (character : Z) (fuel bytePos : nat)
    (utf16Pos : Z) :
  bytePos <= fst (column_loop text character fuel bytePos utf16Pos).
Proof.
  revert bytePos utf16Pos.
  induction fuel as [|fuel IH]; intros bytePos utf16Pos; simpl; [lia|].
  destruct (nth_error text bytePos) as [b|]; [|simpl; lia].
  destruct ((utf16Pos <? character)%Z && negb (Byte.eqb b x0a));
    [|simpl; lia].
  specialize (IH (bytePos + seqLen_of (Byte.to_N b))
                 (utf16Pos + utf16_step (seqLen_of (Byte.to_N b)))%Z).
  lia.
Qed.

Lemma column_loop_le (text : bytes) (character : Z) (fuel bytePos : nat)
    (utf16Pos : Z) :
  fst (column_loop text character fuel bytePos utf16Pos)
  <= Nat.max bytePos (Str.size text + 3).
Proof.
  revert bytePos utf16Pos.
  induction fuel as [|fuel IH]; intros bytePos utf16Pos; simpl; [lia|].
  destruct (nth_error text bytePos) as [b|] eqn:Hb; [|simpl; lia].
  destruct ((utf16Pos <? character)%Z && negb (Byte.eqb b x0a));
    [|simpl; lia].
  assert (Hin : bytePos < length text)
    by (apply nth_error_Some; congruence).
  pose proof (seqLen_of_positive (Byte.to_N b)) as Hlen.
  specialize (IH (bytePos + seqLen_of (Byte.to_N b))
                 (utf16Pos + utf16_step (seqLen_of (Byte.to_N b)))%Z).
  unfold Str.size in *. lia.
Qed.

Lemma column_loop_monotone (text : bytes) (c c' : Z) (fuel bytePos : nat)
    (utf16Pos : Z) :
  (c <= c')%Z ->
  fst (column_loop text c fuel bytePos utf16Pos)
  <= fst (column_loop text c' fuel bytePos utf16Pos).
Proof.
  intros Hc. revert bytePos utf16Pos.
  induction fuel as [|fuel IH]; intros bytePos utf16Pos; simpl; [lia|].
  destruct (nth_error text bytePos) as [b|]; [|simpl; lia].
  destruct (negb (Byte.eqb b x0a)); rewrite ?andb_false_r; [|simpl; lia].
  rewrite !andb_true_r.
  destruct (Z.ltb_spec utf16Pos c) as [Hlt|Hge].
  - replace (utf16Pos <? c')%Z with true by (symmetry; apply Z.ltb_lt; lia).
    apply IH.
  - destruct (utf16Pos <? c')%Z; [|simpl; lia].
    simpl.
    pose proof (column_loop_ge text c' fuel
                  (bytePos + seqLen_of (Byte.to_N b))
                  (utf16Pos + utf16_step (seqLen_of (Byte.to_N b)))%Z).
    lia.
Qed.

Lemma column_loop_at_column_zero (text : bytes) (character : Z)
    (fuel bytePos : nat) :
  (character <= 0)%Z ->
  column_loop text character fuel bytePos 0%Z = (bytePos, 0%Z).
Proof.
  intros Hc. destruct fuel; simpl; [reflexivity|].
  destruct (nth_error text bytePos); [|reflexivity].
  now replace (0 <? character)%Z with false
    by (symmetry; apply Z.ltb_ge; lia).
Qed.

Lemma to_int_le (z : Z) : (0 <= z)%Z -> (Cxx.to_int z <= z)%Z.
Proof.
  intros Hz. unfold Cxx.to_int.
  pose proof (Z.mod_le (z + 2 ^ 31) (2 ^ 32)). lia.
Qed.

Section ByteOffset.

Context {C : Collaborators}.

(** X13.  For a line number that is not negative, [computeByteOffset] always
    returns an offset.  It is [text.size()] when the line is not in the
    table of line starts.  Otherwise it is at or after the start of the
    line and at most [text.size() + 3], unless the line start itself is
    beyond that: the scan can run past the end of the text, by at most
    three bytes, when the text ends inside a multi-byte sequence.  For a
    column that is zero or negative it is the start of the line. *)
Theorem computeByteOffset_bounds (text : bytes) (line character : Z) :
  (0 <= line)%Z ->
  exists offset,
    computeByteOffset text line character = Some offset
    /\ ((Cxx.to_int (Z.of_nat (length (computeLineStarts text))) <= line)%Z ->
        offset = Str.size text)
    /\ ((line < Cxx.to_int (Z.of_nat (length (computeLineStarts text))))%Z ->
        exists lineStart,
          nth_error (computeLineStarts text) (Z.to_nat line) = Some lineStart
          /\ lineStart <= offset <= Nat.max lineStart (Str.size text + 3)
          /\ ((character <= 0)%Z -> offset = lineStart)).
Proof.
  intros Hline. unfold computeByteOffset. cbv zeta.
  destruct (Z.leb_spec (Cxx.to_int (Z.of_nat (length (computeLineStarts text))))
              line) as [Hout | Hin].
  - exists (Str.size text). split; [reflexivity|].
    split; [reflexivity | lia].
  - replace (line <? 0)%Z with false by (symmetry; apply Z.ltb_ge; lia).
    pose proof (to_int_le (Z.of_nat (length (computeLineStarts text)))
                  (Nat2Z.is_nonneg _)) as Hle.
    destruct (nth_error (computeLineStarts text) (Z.to_nat line))
      as [lineStart|] eqn:Hstart.
    + exists (fst (column_scan text character lineStart)).
      split; [reflexivity|]. split; [lia|]. intros _.
      exists lineStart. split; [reflexivity|]. unfold column_scan.
      split; [split; [apply column_loop_ge | apply column_loop_le]|].
      intros Hc. now rewrite column_loop_at_column_zero.
    + apply nth_error_None in Hstart. lia.
Qed.

(** X14.  [computeByteOffset] is monotone in the column: on the same text
    and line, a larger column never gives a smaller offset. *)
Theorem computeByteOffset_monotone (text : bytes) (line c c' : Z)
    (offset offset' : nat) :
  (c <= c')%Z ->
  computeByteOffset text line c = Some offset ->
  computeByteOffset text line c' = Some offset' ->
  offset <= offset'.
Proof.
  intros Hc. unfold computeByteOffset. cbv zeta.
  destruct (_ <=? line)%Z;
    [intros H H'; injection H as <-; injection H' as <-; lia|].
  destruct (line <? 0)%Z; [discriminate|].
  destruct (nth_error _ _) as [lineStart|]; [|discriminate].
  intros H H'. injection H as <-. injection H' as <-.
  apply column_loop_monotone, Hc.
Qed.

End ByteOffset.

(** The scan over the sequences of code points when the requested column is
    at or beyond their sum and the line ends behind them. *)
Lemma column_loop_to_line_end (done : list N) :
  Forall Utf8.valid_codepoint done ->
  ~ In Utf8.line_feed done ->
  forall (pre rest : bytes) (character utf16Pos : Z) (fuel : nat),
    rest = [] \/ (exists rest', rest = x0a :: rest') ->
    (utf16Pos + Utf8.units_all done <= character)%Z ->
    length done <= fuel ->
    column_loop (pre ++ Utf8.encode_all done ++ rest) character fuel
                (length pre) utf16Pos
    = (length pre + length (Utf8.encode_all done),
       (utf16Pos + Utf8.units_all done)%Z).
Proof.
  induction 1 as [|cp done [Hcp _] Hdone IH];
    intros Hlf pre rest character u fuel Hend Hcolumn Hfuel.
  - cbn [Utf8.units_all fold_right Utf8.encode_all map concat length app].
    rewrite Z.add_0_r, Nat.add_0_r.
    destruct fuel; simpl; [reflexivity|].
    destruct Hend as [-> | (rest' & ->)].
    + rewrite app_nil_r.
      now replace (nth_error pre (length pre)) with (@None byte)
        by (symmetry; apply nth_error_None; lia).
    + rewrite nth_error_app2, Nat.sub_diag by lia. simpl.
      now rewrite andb_false_r.
  - destruct fuel as [|fuel]; [simpl in Hfuel; lia|].
    destruct (encode_lead cp Hcp) as (lead & tail & Hencode & Hlen & Hnl).
    assert (Hcp_lf : cp <> Utf8.line_feed) by (intros ->; apply Hlf; now left).
    assert (Hrest_lf : ~ In Utf8.line_feed done)
      by (intros Hin; apply Hlf; now right).
    assert (Htext : pre ++ Utf8.encode_all (cp :: done) ++ rest
                    = (pre ++ Utf8.encode cp) ++ Utf8.encode_all done ++ rest).
    { unfold Utf8.encode_all. simpl. now rewrite <- !app_assoc. }
    assert (Hnth : nth_error (pre ++ Utf8.encode_all (cp :: done) ++ rest)
                             (length pre) = Some lead).
    { rewrite nth_error_app2 by lia. rewrite Nat.sub_diag.
      unfold Utf8.encode_all. simpl. rewrite Hencode. reflexivity. }
    cbn [column_loop]. rewrite Hnth.
    pose proof (units_positive cp) as Hu.
    pose proof (units_all_nonneg done) as Hs.
    cbn [Utf8.units_all fold_right] in Hcolumn |- *.
    fold (Utf8.units_all done) in Hcolumn |- *.
    replace (u <? character)%Z with true by (symmetry; apply Z.ltb_lt; lia).
    rewrite (Hnl Hcp_lf). cbn [andb negb].
    rewrite Hlen, Htext.
    replace (utf16_step (length (Utf8.encode cp))) with (Utf8.units cp)
      by reflexivity.
    replace (length pre + length (Utf8.encode cp))
      with (length (pre ++ Utf8.encode cp)) by apply length_app.
    rewrite (IH Hrest_lf (pre ++ Utf8.encode cp) rest character
                (u + Utf8.units cp)%Z fuel Hend)
      by (simpl in Hfuel; lia).
    f_equal; [|lia]. unfold Utf8.encode_all. simpl. rewrite !length_app. lia.
Qed.

(** X15.  On a line that holds the UTF-8 sequences of valid code points and
    ends with a line feed or with the text, a column at or beyond the
    UTF-16 length of the line gives the byte offset of the end of the line:
    [computeByteOffset] never runs into the next line. *)
Theorem computeByteOffset_clamps_to_line_end {C : Collaborators}
    (pre rest : bytes) (cps : list N) (line character : Z) :
  let text := pre ++ Utf8.encode_all cps ++ rest in
  Forall Utf8.valid_codepoint cps ->
  ~ In Utf8.line_feed cps ->
  rest = [] \/ (exists rest', rest = x0a :: rest') ->
  (0 <= line < Cxx.to_int (Z.of_nat (length (computeLineStarts text))))%Z ->
  nth_error (computeLineStarts text) (Z.to_nat line) = Some (length pre) ->
  (Utf8.units_all cps <= character)%Z ->
  computeByteOffset text line character
  = Some (length pre + length (Utf8.encode_all cps)).
Proof.
  intros text Hvalid Hlf Hend Hline Hstart Hcolumn.
  unfold computeByteOffset. cbv zeta. fold text.
  replace (_ <=? line)%Z with false by (symmetry; apply Z.leb_gt; lia).
  replace (line <? 0)%Z with false by (symmetry; apply Z.ltb_ge; lia).
  rewrite Hstart. unfold column_scan. subst text.
  rewrite (column_loop_to_line_end cps Hvalid Hlf pre rest character 0%Z _ Hend);
    [reflexivity | lia |].
  unfold Str.size. rewrite !length_app.
  pose proof (encode_all_length cps Hvalid). lia.
Qed.

Example computeByteOffset_runs_past_a_truncated_sequence :
  computeByteOffset (C := Reference.collaborators) [x61; xf0] 0 5 = Some 5
  /\ Str.size [x61; xf0] = 2.
Proof. split; vm_compute; reflexivity. Qed.

Lemma computeByteOffset_bounds_witness :
  exists offset,
    computeByteOffset (C := Reference.collaborators)
      (Str.lit "ab" ++ [x0a] ++ Str.lit "cd") 1 1 = Some offset
    /\ ((Cxx.to_int
           (Z.of_nat
              (length (Reference.computeLineStarts
                         (Str.lit "ab" ++ [x0a] ++ Str.lit "cd")))) <= 1)%Z ->
        offset = Str.size (Str.lit "ab" ++ [x0a] ++ Str.lit "cd"))
    /\ ((1 < Cxx.to_int
               (Z.of_nat
                  (length (Reference.computeLineStarts
                             (Str.lit "ab" ++ [x0a] ++ Str.lit "cd")))))%Z ->
        exists lineStart,
          nth_error (Reference.computeLineStarts
                       (Str.lit "ab" ++ [x0a] ++ Str.lit "cd"))
                    (Z.to_nat 1) = Some lineStart
          /\ lineStart <= offset
             <= Nat.max lineStart
                  (Str.size (Str.lit "ab" ++ [x0a] ++ Str.lit "cd") + 3)
          /\ ((1 <= 0)%Z -> offset = lineStart)).
Proof.
  apply (@computeByteOffset_bounds Reference.collaborators
           (Str.lit "ab" ++ [x0a] ++ Str.lit "cd") 1 1).
  lia.
Defined.

Lemma computeByteOffset_monotone_witness :
  computeByteOffset (C := Reference.collaborators)
    (Str.lit "ab" ++ [x0a] ++ Str.lit "cd") 1 1 = Some 4
  /\ computeByteOffset (C := Reference.collaborators)
       (Str.lit "ab" ++ [x0a] ++ Str.lit "cd") 1 7 = Some 5
  /\ 4 <= 5.
Proof.
  split; [reflexivity | split; [reflexivity|]].
  apply (@computeByteOffset_monotone Reference.collaborators
           (Str.lit "ab" ++ [x0a] ++ Str.lit "cd") 1 1 7 4 5).
  - lia.
  - reflexivity.
  - reflexivity.
Defined.

Lemma computeByteOffset_clamps_to_line_end_witness :
  computeByteOffset (C := Reference.collaborators)
    (Str.lit "ab" ++ [x0a] ++ Utf8.encode_all [0x8AA4%N; 0x1F600%N]
     ++ [x0a; x41]) 1 100
  = Some (3 + length (Utf8.encode_all [0x8AA4%N; 0x1F600%N])).
Proof.
  apply (@computeByteOffset_clamps_to_line_end Reference.collaborators
           (Str.lit "ab" ++ [x0a]) [x0a; x41] [0x8AA4%N; 0x1F600%N] 1 100).
  - repeat constructor; unfold Utf8.valid_codepoint; lia.
  - unfold Utf8.line_feed. simpl. intros [H | [H | []]]; discriminate H.
  - right. now exists [x41].
  - vm_compute. split; [discriminate | reflexivity].
  - reflexivity.
  - vm_compute. discriminate.
Defined.

(** ** The texts of the chunks *)

Section ChunkTexts.

Context {C : Collaborators}.

Lemma chunk_text_app (tree : CaboCha.Tree) (charset : bytes) (a b c : nat) :
  a <= b -> b <= c ->
  Analyzer.chunk_text tree charset a b ++ Analyzer.chunk_text tree charset b c
  = Analyzer.chunk_text tree charset a c.
Proof.
  intros Hab Hbc. unfold Analyzer.chunk_text.
  rewrite <- concat_app, <- map_app. do 2 f_equal.
  destruct (Nat.le_gt_cases b (CaboCha.tree_token_size tree)) as [Hb|Hb].
  - rewrite (Nat.min_l b) by exact Hb.
    replace (Nat.min c (CaboCha.tree_token_size tree) - a)
      with ((b - a) + (Nat.min c (CaboCha.tree_token_size tree) - b)) by lia.
    rewrite seq_app. do 2 f_equal. lia.
  - rewrite (Nat.min_r b), (Nat.min_r c) by lia.
    replace (CaboCha.tree_token_size tree - b) with 0 by lia.
    simpl. apply app_nil_r.
Qed.

Lemma chunk_records_contiguous (tree : CaboCha.Tree) (charset : bytes)
    (chunks : list CaboCha.Chunk) :
  forall first pos,
    (forall i, i < length chunks ->
               CaboCha.tree_chunk tree (first + i) = nth_error chunks i) ->
    contiguous_chunks pos chunks ->
    concat (map dep_text
                (flat_map (Analyzer.chunk_record tree charset)
                          (seq first (length chunks))))
    = Analyzer.chunk_text tree charset pos (pos + tokens_of_chunks chunks).
Proof.
  induction chunks as [|chunk chunks IH]; intros first pos Hat Hcont.
  - simpl. unfold Analyzer.chunk_text.
    replace (Nat.min (pos + 0) (CaboCha.tree_token_size tree) - pos) with 0
      by lia.
    reflexivity.
  - destruct Hcont as [Hpos Hcont].
    cbn [length seq flat_map].
    unfold Analyzer.chunk_record at 1.
    specialize (Hat 0 (Nat.lt_0_succ _)) as Hfirst.
    rewrite Nat.add_0_r in Hfirst. rewrite Hfirst. cbn [nth_error].
    cbn [app map concat dep_text]. rewrite Hpos.
    rewrite (IH (S first) (pos + CaboCha.token_size chunk)).
    + cbn [tokens_of_chunks fold_right]. fold (tokens_of_chunks chunks).
      rewrite chunk_text_app by lia.
      f_equal. lia.
    + intros i Hi. specialize (Hat (S i)). cbn [nth_error length] in Hat.
      rewrite <- Hat by lia. f_equal. lia.
    + exact Hcont.
Qed.

Lemma skipn_nth_error {A : Type} (l : list A) (a : nat) (x : A) :
  nth_error l a = Some x -> skipn a l = x :: skipn (S a) l.
Proof.
  revert a; induction l as [|y l IH]; intros [|a] H;
    try discriminate H.
  - now injection H as ->.
  - cbn [nth_error] in H. cbn [skipn]. now apply IH.
Qed.

Lemma seq_of_range {A : Type} (l : list A) (size : nat) :
  forall pos,
    map (nth_error l) (seq pos (Nat.min (pos + size) (length l) - pos))
    = map Some (firstn size (skipn pos l)).
Proof.
  induction size as [|size IH]; intros pos.
  - replace (Nat.min (pos + 0) (length l) - pos) with 0 by lia. reflexivity.
  - destruct (nth_error l pos) as [x|] eqn:Hx.
    + assert (Hpos : pos < length l) by (apply nth_error_Some; congruence).
      replace (Nat.min (pos + S size) (length l) - pos)
        with (S (Nat.min (S pos + size) (length l) - S pos)) by lia.
      rewrite (skipn_nth_error l pos x Hx).
      cbn [seq map firstn]. now rewrite Hx, IH.
    + apply nth_error_None in Hx.
      replace (Nat.min (pos + S size) (length l) - pos) with 0 by lia.
      now rewrite skipn_all2 by exact Hx.
Qed.

(** The inner loop on a tree whose tokens are all there. *)
Lemma chunk_text_tokens (tree : CaboCha.Tree) (charset : bytes)
    (tokens : list CaboCha.Token) (pos size : nat) :
  CaboCha.tree_token_size tree = length tokens ->
  (forall j, j < length tokens ->
             CaboCha.tree_token tree j = nth_error tokens j) ->
  Analyzer.chunk_text tree charset pos (pos + size)
  = decoded_surfaces charset (token_range tokens pos size).
Proof.
  intros Hsize Hat.
  unfold Analyzer.chunk_text, decoded_surfaces, token_range. rewrite Hsize.
  f_equal.
  set (decode := fun token => match CaboCha.surface token with
                              | Some surface => systemToUtf8 surface charset
                              | None => []
                              end).
  transitivity
    (map (fun t => match t with Some token => decode token | None => [] end)
         (map (nth_error tokens)
              (seq pos (Nat.min (pos + size) (length tokens) - pos)))).
  - rewrite map_map. apply map_ext_in. intros j Hj.
    apply in_seq in Hj. rewrite Hat by lia. reflexivity.
  - rewrite seq_of_range, map_map. reflexivity.
Qed.

Lemma chunk_records_texts (tree : CaboCha.Tree) (charset : bytes)
    (tokens : list CaboCha.Token) (chunks : list CaboCha.Chunk) :
  CaboCha.tree_token_size tree = length tokens ->
  (forall j, j < length tokens ->
             CaboCha.tree_token tree j = nth_error tokens j) ->
  forall first,
    (forall i, i < length chunks ->
               CaboCha.tree_chunk tree (first + i) = nth_error chunks i) ->
    map dep_text
        (flat_map (Analyzer.chunk_record tree charset)
                  (seq first (length chunks)))
    = map (fun chunk =>
             decoded_surfaces charset
               (token_range tokens (CaboCha.token_pos chunk)
                            (CaboCha.token_size chunk)))
          chunks.
Proof.
  intros Hsize Htokens.
  induction chunks as [|chunk chunks IH]; intros first Hat; [reflexivity|].
  cbn [length seq flat_map]. unfold Analyzer.chunk_record at 1.
  specialize (Hat 0 (Nat.lt_0_succ _)) as Hfirst.
  rewrite Nat.add_0_r in Hfirst. rewrite Hfirst. cbn [nth_error].
  cbn [app map dep_text].
  rewrite (chunk_text_tokens tree charset tokens _ _ Hsize Htokens).
  f_equal. apply IH. intros i Hi.
  specialize (Hat (S i)). cbn [nth_error length] in Hat.
  rewrite <- Hat by lia. f_equal. lia.
Qed.

(** X16.  The loop of [analyzeDependencies] over the chunks, on a tree whose
    chunks and tokens are all there: it returns one record for each chunk,
    in order, and the text of a record is the decoded surfaces, joined in
    order, of the tokens from [token_pos] on, [token_size] of them or as
    many as the tree has from there; a token whose surface is null adds
    nothing.  When the token ranges of the chunks follow one another from
    token 0 on, the texts joined in order are therefore the decoded surfaces
    of the first tokens of the tree, as many as the chunks hold together: no
    token is taken twice or left out. *)
Theorem collect_chunks_texts (tree : CaboCha.Tree) (charset : bytes)
    (chunks : list CaboCha.Chunk) (tokens : list CaboCha.Token) :
  CaboCha.tree_chunk_size tree = length chunks ->
  (forall i, i < length chunks ->
             CaboCha.tree_chunk tree i = nth_error chunks i) ->
  CaboCha.tree_token_size tree = length tokens ->
  (forall j, j < length tokens ->
             CaboCha.tree_token tree j = nth_error tokens j) ->
  let deps := Analyzer.collect_chunks tree charset in
  map dep_text deps
  = map (fun chunk =>
           decoded_surfaces charset
             (token_range tokens (CaboCha.token_pos chunk)
                          (CaboCha.token_size chunk)))
        chunks
  /\ (contiguous_chunks 0 chunks ->
      concat (map dep_text deps)
      = decoded_surfaces charset (firstn (tokens_of_chunks chunks) tokens)).
Proof.
  intros Hchunks Hat Hsize Htokens. cbv zeta.
  unfold Analyzer.collect_chunks. rewrite Hchunks. split.
  - apply (chunk_records_texts tree charset tokens chunks Hsize Htokens 0).
    intros i Hi. now apply Hat.
  - intros Hcont.
    rewrite (chunk_records_contiguous tree charset chunks 0 0);
      [|intros i Hi; now apply Hat | exact Hcont].
    now rewrite (chunk_text_tokens tree charset tokens _ _ Hsize Htokens).
Qed.

End ChunkTexts.

Lemma collect_chunks_texts_witness :
  map dep_text
      (Analyzer.collect_chunks (C := Reference.collaborators)
         Reference.two_chunks UTF_8)
  = [Str.lit "ab"; Str.lit "c"]
  /\ concat (map dep_text
                 (Analyzer.collect_chunks (C := Reference.collaborators)
                    Reference.two_chunks UTF_8))
     = Str.lit "abc".
Proof.
  assert (Hchunks : forall i, i < 2 ->
            CaboCha.tree_chunk Reference.two_chunks i
            = nth_error [CaboCha.mkChunk 1 PrimFloat.one 0 2;
                         CaboCha.mkChunk (-1) PrimFloat.zero 2 1] i).
  { intros i Hi. destruct i as [|[|i]]; [reflexivity.. | lia]. }
  assert (Htokens : forall j, j < 3 ->
            CaboCha.tree_token Reference.two_chunks j
            = nth_error [CaboCha.mkToken (Some (Str.lit "a"));
                         CaboCha.mkToken (Some (Str.lit "b"));
                         CaboCha.mkToken (Some (Str.lit "c"))] j).
  { intros j Hj. destruct j as [|[|[|j]]]; [reflexivity.. | lia]. }
  destruct (@collect_chunks_texts Reference.collaborators
              Reference.two_chunks UTF_8
              [CaboCha.mkChunk 1 PrimFloat.one 0 2;
               CaboCha.mkChunk (-1) PrimFloat.zero 2 1]
              [CaboCha.mkToken (Some (Str.lit "a"));
               CaboCha.mkToken (Some (Str.lit "b"));
               CaboCha.mkToken (Some (Str.lit "c"))]
              eq_refl Hchunks eq_refl Htokens)
    as [Htexts Htile].
  split; [exact Htexts|].
  apply Htile. simpl. repeat split.
Defined.

(** A chunk that claims tokens beyond the tree's token count gets the
    tokens there are. *)
Example chunk_text_stops_at_the_token_count :
  Analyzer.chunk_text (C := Reference.collaborators) Reference.two_chunks
    UTF_8 1 7
  = Str.lit "bc".
Proof. vm_compute. reflexivity. Qed.

(** ** The alignment is greedy *)

Section Greedy.

Context {C : Collaborators}.

Lemma align_nodes_greedy (cleanText : bytes) (lineStarts : list nat)
    (charset : bytes) (nodes : list MeCab.Node) (cur : nat) :
  greedy_from cleanText cur
    (Analyzer.align_nodes cleanText lineStarts charset nodes cur).
Proof.
  revert cur; induction nodes as [|n nodes IH]; intros cur; [exact I|].
  simpl.
  destruct (MeCab.is_sentinel n); [apply IH|].
  destruct (Str.empty (systemToUtf8 (MeCab.surface n) charset)); [apply IH|].
  cbn [greedy_from fst snd]. rewrite make_token_surface. split; [|apply IH].
  intros q. apply realign_loop_skips_no_occurrence. reflexivity.
Qed.

(** X18.  The alignment never passes an occurrence: in the sanitized text,
    the surface of the first token does not occur before the offset the
    token is matched at, and the surface of every later token does not
    occur between the end of the token before it and its own offset.  A
    surface that recurs is therefore always matched on its earliest
    occurrence behind the previous token. *)
Theorem analyzeText_matches_first_occurrences (a : Analyzer.Analyzer)
    (text : bytes) (p : Process) :
  greedy_from (sanitizeUTF8 text) 0
    (fst (Analyzer.analyzeText_matches a text p)).
Proof.
  rewrite analyzeText_matches_value.
  destruct (Str.empty text); [exact I|].
  destruct (mecab.getMeCabTagger (Analyzer.mecab_manager_ a)) as [tagger|];
    [|exact I].
  cbv zeta. apply align_nodes_greedy.
Qed.

End Greedy.

Example analyzeText_takes_the_earlier_recurrence :
  map fst
      (fst (Analyzer.analyzeText_matches (C := Reference.collaborators)
              (Reference.ready [Reference.word "b"; Reference.word "a"])
              (Str.lit "a b a") (Reference.process0 false)))
  = [2; 4].
Proof. vm_compute. reflexivity. Qed.
